(** * browser-warmer: behaviour engine, site queue, session orchestrator and
      control protocol, embedded from the JavaScript sources.

    Conventions of the embedding.
    - JavaScript numbers are modelled by exact rationals ([Q]) or integers
      ([Z]); 32-bit integer operators are written with their wrap-around.
      [NaN] and the infinities are outside the model.  The rounding of
      doubles is left out where the result proved holds with it as without
      it; the definitions of [Random.float], [Random.weighted],
      [shouldClickLink] and [generateSessionProfile] under the heading
      Rounding take it as an argument.
    - A random source is the stream of its draws, [nat -> Q], read through a
      position that the code advances call by call.
    - [Math.sqrt], [Math.log], [Math.cos], [RegExp] and [toLowerCase] are
      builtins of the platform and are taken as parameters.
    - Asynchronous code runs on one timeline; every external interaction
      (page navigation, page scripts, timers, the clock) reads an oracle at
      the current tick and advances the tick.  What other turns of the event
      loop do meanwhile (a stop or pause command, a browser that
      disconnects) is not part of a run; listeners of the session's events
      do not throw. *)

From Stdlib Require Import ZArith QArith Qround List String Bool Lia Lqa Permutation.
Import ListNotations.

Local Open Scope Z_scope.

(* ================================================================== *)
(** ** 32-bit integer operators of JavaScript *)

Module JS32.

Definition two32 : Z := 4294967296.
Definition two31 : Z := 2147483648.

(** [ToInt32]: wrap into the signed range. *)
Definition ToInt32 (z : Z) : Z := (z + two31) mod two32 - two31.

(** [ToUint32]: wrap into the unsigned range. *)
Definition ToUint32 (z : Z) : Z := z mod two32.

(** [a | b] *)
Definition or32 (a b : Z) : Z := Z.lor (ToInt32 a) (ToInt32 b).

(** [a ^ b] *)
Definition xor32 (a b : Z) : Z := Z.lxor (ToInt32 a) (ToInt32 b).

(** [a >>> n] for [0 <= n < 32] *)
Definition ushr32 (a n : Z) : Z := Z.shiftr (ToUint32 a) n.

(** [Math.imul(a, b)] *)
Definition imul (a b : Z) : Z := ToInt32 (ToInt32 a * ToInt32 b).

End JS32.

(* ================================================================== *)
(** ** utils/random.js: [SeededRandom] (Mulberry32) *)

Module SeededRandom.
Import JS32.

Record t : Type := mk { seed : Z; state : Z }.

(** [constructor(seed)] *)
Definition new (s : Z) : t := {| seed := s; state := s |}.

(** The increment of the Weyl sequence, [0x6D2B79F5]. *)
Definition weyl : Z := 1831565813.

(** The state after the first two statements of [next()]. *)
Definition advance (st : Z) : Z := or32 (or32 st 0 + weyl) 0.

(** The integer [(t ^ (t >>> 14)) >>> 0] computed from the advanced state. *)
Definition scramble (st : Z) : Z :=
  let t := imul (xor32 st (ushr32 st 15)) (or32 1 st) in
  let t := xor32 (t + imul (xor32 t (ushr32 t 7)) (or32 61 t)) t in
  ushr32 (xor32 t (ushr32 t 14)) 0.

(** [next()]: the draw and the instance after the call. *)
Definition next (r : t) : Q * t :=
  let st := advance (state r) in
  ((inject_Z (scramble st) / inject_Z two32)%Q, {| seed := seed r; state := st |}).

(** [reset()] *)
Definition reset (r : t) : t := {| seed := seed r; state := seed r |}.

(** [setSeed(seed)] *)
Definition setSeed (r : t) (s : Z) : t := {| seed := s; state := s |}.

(** The first [n] results of [next()] on [r], and the instance afterwards. *)
Fixpoint draws (n : nat) (r : t) : list Q * t :=
  match n with
  | O => ([], r)
  | S n' => let '(u, r1) := next r in
            let '(us, r2) := draws n' r1 in (u :: us, r2)
  end.

(** The stream of draws of an instance: result of call number [k] (from 0). *)
Fixpoint draw (r : t) (k : nat) : Q :=
  match k with
  | O => fst (next r)
  | S k' => draw (snd (next r)) k'
  end.

End SeededRandom.

(* ================================================================== *)
(** ** utils/random.js: [Random], [Distribution], [Timing], [Behavior] *)

(** The draws of a generator constructed with [seed], as a random source. *)
Definition seeded_source (seed : Z) : nat -> Q :=
  SeededRandom.draw (SeededRandom.new seed).

(** A computation that reads a random source from a position and returns
    the position after its last draw. *)
Definition Rand (A : Type) : Type := nat -> A * nat.

Definition rret {A} (a : A) : Rand A := fun p => (a, p).

Definition rbind {A B} (c : Rand A) (k : A -> Rand B) : Rand B :=
  fun p => let '(a, p1) := c p in k a p1.

Declare Scope rand_scope.
Delimit Scope rand_scope with rand.
Notation "x <- c ;; k" := (rbind c (fun x => k))
  (at level 61, c at next level, right associativity) : rand_scope.

(** Comparison of numbers. *)
Definition Qltb (a b : Q) : bool := negb (Qle_bool b a).

(** [Math.max], [Math.min] on numbers. *)
Definition Math_max (a b : Q) : Q := if Qle_bool a b then b else a.
Definition Math_min (a b : Q) : Q := if Qle_bool a b then a else b.

(** The builtins of [Math] that the samplers use. *)
Record MathFns : Type := {
  Math_sqrt : Q -> Q;
  Math_log : Q -> Q;
  Math_cos : Q -> Q;
  Math_PI : Q
}.

(** [result[i], result[j] = result[j], result[i]] for indices inside the
    array (the only ones a source with draws in [0,1) produces). *)
Fixpoint set_nth {A} (l : list A) (i : nat) (x : A) : list A :=
  match l, i with
  | [], _ => []
  | _ :: r, O => x :: r
  | y :: r, S i' => y :: set_nth r i' x
  end.

Definition swap {A} (l : list A) (i j : nat) : list A :=
  match nth_error l i, nth_error l j with
  | Some a, Some b => set_nth (set_nth l i b) j a
  | _, _ => l
  end.

Section RandomUtils.

(** [rng.next()]: the stream of draws of the source. *)
Variable rng : nat -> Q.
Variable M : MathFns.

Local Open Scope rand_scope.

Definition rng_next : Rand Q := fun p => (rng p, S p).

(** [Random.int(min, max, rng)] *)
Definition Random_int (min max : Z) : Rand Z :=
  u <- rng_next ;;
  rret (Qfloor (u * inject_Z (max - min + 1)) + min).


(** [Random.bool(probability, rng)] *)
Definition Random_bool (probability : Q) : Rand bool :=
  u <- rng_next ;;
  rret (Qltb u probability).

(** [Random.shuffle(array, rng)]: the loop runs [i] from [length - 1] down
    to 1. *)
Fixpoint shuffle_loop {A} (i : nat) (result : list A) : Rand (list A) :=
  match i with
  | O => rret result
  | S i' =>
      u <- rng_next ;;
      let j := Z.to_nat (Qfloor (u * inject_Z (Z.of_nat i + 1))) in
      shuffle_loop i' (swap result i j)
  end.

Definition Random_shuffle {A} (array : list A) : Rand (list A) :=
  shuffle_loop (List.length array - 1) array.

(** [Distribution.gaussian(mean, stdDev, rng)].  The [do ... while (u1 === 0)]
    loop is bounded by [fuel] draws of a pair; [None] when the fuel runs out
    before a non-zero first draw. *)
Fixpoint gaussian_draws (fuel : nat) (p : nat) : option (Q * Q * nat) :=
  match fuel with
  | O => None
  | S fuel' =>
      let u1 := rng p in
      let u2 := rng (S p) in
      if Qeq_bool u1 0 then gaussian_draws fuel' (S (S p))
      else Some (u1, u2, S (S p))
  end.

Definition Distribution_gaussian (fuel : nat) (mean stdDev : Q) (p : nat)
  : option (Q * nat) :=
  match gaussian_draws fuel p with
  | None => None
  | Some (u1, u2, p1) =>
      let z := (Math_sqrt M (- (2) * Math_log M u1)
                * Math_cos M (2 * Math_PI M * u2))%Q in
      Some ((z * stdDev + mean)%Q, p1)
  end.

(** The [do ... while] loop of [gaussianBounded]; [k] bounds the number of
    iterations structurally and is never exhausted when [k + attempts = 100]
    at entry. *)
Fixpoint gaussianBounded_loop (k : nat) (fuel : nat) (mean stdDev min max : Q)
  (attempts : nat) (p : nat) : option (Q * nat) :=
  match k with
  | O => None
  | S k' =>
      match Distribution_gaussian fuel mean stdDev p with
      | None => None
      | Some (value, p1) =>
          let attempts := S attempts in
          if (Qltb value min || Qltb max value) && (attempts <? 100)%nat
          then gaussianBounded_loop k' fuel mean stdDev min max attempts p1
          else Some (value, p1)
      end
  end.

(** [Distribution.gaussianBounded(mean, stdDev, min, max, rng)] *)
Definition Distribution_gaussianBounded (fuel : nat) (mean stdDev min max : Q)
  (p : nat) : option (Q * nat) :=
  match gaussianBounded_loop 100 fuel mean stdDev min max 0 p with
  | None => None
  | Some (value, p1) => Some (Math_max min (Math_min max value), p1)
  end.

(** [Timing.scrollPause(rng)] *)
Definition Timing_scrollPause : Rand Z :=
  glance <- Random_bool (3 # 10) ;;
  if glance then Random_int 100 500 else Random_int 800 3000.

(** [Timing.betweenSitesDelay(rng)] *)
Definition Timing_betweenSitesDelay : Rand Z :=
  quick <- Random_bool (2 # 10) ;;
  if quick then Random_int 1000 5000
  else
    long <- Random_bool (1 # 10) ;;
    if long then Random_int 30000 120000 else Random_int 5000 30000.

(** *** [Behavior.scrollPattern] *)

Inductive ScrollType : Type := scroll | scrollToTop.

Record ScrollAction : Type := {
  sa_type : ScrollType;
  sa_from : Q;
  sa_to : Q;
  sa_duration : Z;
  sa_pause : Z
}.

(** The direction factor chosen from one draw. *)
Definition scroll_direction (down : bool) : Z := if down then 1 else -1.

(** One iteration of the [for] loop, on [(actions, currentY)]. *)
Definition scrollPattern_step (maxScroll viewportHeight : Q)
  (st : list ScrollAction * Q) : Rand (list ScrollAction * Q) :=
  let '(actions, currentY) := st in
  big <- Random_bool (1 # 10) ;;
  amount <- (if big then Random_int 500 1000
             else
               small <- Random_bool (2 # 10) ;;
               if small then Random_int 50 150 else Random_int 150 400) ;;
  down <- Random_bool (85 # 100) ;;
  let scrollAmount := amount * scroll_direction down in
  let newY := Math_max 0 (Math_min maxScroll (currentY + inject_Z scrollAmount)) in
  st1 <- (if negb (Qeq_bool newY currentY)
          then
            duration <- Random_int 200 600 ;;
            pause <- Timing_scrollPause ;;
            rret (actions ++ [ {| sa_type := scroll; sa_from := currentY;
                                  sa_to := newY; sa_duration := duration;
                                  sa_pause := pause |} ], newY)
          else rret (actions, currentY)) ;;
  let '(actions1, currentY1) := st1 in
  top <- Random_bool (5 # 100) ;;
  if top && Qltb viewportHeight currentY1
  then
    duration <- Random_int 500 1000 ;;
    pause <- Random_int 1000 3000 ;;
    rret (actions1 ++ [ {| sa_type := scrollToTop; sa_from := currentY1;
                           sa_to := 0; sa_duration := duration;
                           sa_pause := pause |} ], 0%Q)
  else rret (actions1, currentY1).

Fixpoint scrollPattern_loop (n : nat) (maxScroll viewportHeight : Q)
  (st : list ScrollAction * Q) : Rand (list ScrollAction * Q) :=
  match n with
  | O => rret st
  | S n' =>
      st1 <- scrollPattern_step maxScroll viewportHeight st ;;
      scrollPattern_loop n' maxScroll viewportHeight st1
  end.

(** The number of iterations, [Random.int(3, 12, rng)]. *)
Definition scrollPattern_count : Rand Z := Random_int 3 12.

(** [Behavior.scrollPattern(pageHeight, viewportHeight, rng)] *)
Definition Behavior_scrollPattern (pageHeight viewportHeight : Q)
  : Rand (list ScrollAction) :=
  let maxScroll := (pageHeight - viewportHeight)%Q in
  scrollCount <- scrollPattern_count ;;
  st <- scrollPattern_loop (Z.to_nat scrollCount) maxScroll viewportHeight ([], 0%Q) ;;
  rret (fst st).

End RandomUtils.





(** A sample instance of the [Math] builtins (short rational
    approximations), to run the samplers on concrete inputs. *)
Definition sample_sqrt (x : Q) : Q :=
  let step y := Qred ((y + x / y) / 2) in
  if Qle_bool x 0 then 0%Q else step (step (step (Qred ((x + 1) / 2)))).

Definition sample_log (x : Q) : Q :=
  let y := Qred ((x - 1) / (x + 1)) in
  Qred (2 * (y + y * y * y / 3 + y * y * y * y * y / 5)).

Definition sample_cos (x : Q) : Q :=
  Qred (1 - x * x / 2 + x * x * x * x / 24).

Definition sample_math : MathFns :=
  {| Math_sqrt := sample_sqrt; Math_log := sample_log;
     Math_cos := sample_cos; Math_PI := 355 # 113 |}.

(* ================================================================== *)
(** ** Results of calls that may throw *)

Inductive result (A : Type) : Type :=
| Ok (a : A)
| Throw (message : string).
Arguments Ok {A} a.
Arguments Throw {A} message.

(* ================================================================== *)
(** ** utils/sites.js: [SitesManager] *)

(** A JavaScript object with string keys, in the order of [Object.keys]. *)
Definition JSObject (V : Type) : Type := list (string * V).

Fixpoint js_get {V} (o : JSObject V) (k : string) : option V :=
  match o with
  | [] => None
  | (k', v) :: r => if String.eqb k' k then Some v else js_get r k
  end.

Definition Object_keys {V} (o : JSObject V) : list string := map fst o.

(** [array.includes(x)] on strings. *)
Definition includes (l : list string) (x : string) : bool :=
  existsb (String.eqb x) l.

(** [[...new Set(array)]]: the first occurrence of every element, in order. *)
Fixpoint set_spread (seen : list string) (array : list string) : list string :=
  match array with
  | [] => []
  | x :: r => if includes seen x then set_spread seen r
              else x :: set_spread (x :: seen) r
  end.

(** [string.includes(sub)] *)
Fixpoint String_includes (s sub : string) : bool :=
  if String.prefix sub s then true
  else match s with
       | EmptyString => false
       | String _ r => String_includes r sub
       end.

Record SitesData : Type := {
  categories : JSObject (list string);
  excludePatterns : option (list string);
  contentTypeHints : option (JSObject (list string))
}.

Record SitesManager : Type := { _sites : option SitesData }.

(** The [options] argument of [getSites]; [None] is an absent field. *)
Record GetSitesOptions : Type := {
  opt_custom : option (list string);
  opt_exclude : option (list string);
  opt_maxSites : option Z;
  opt_shuffle : option bool
}.

Section Sites.

(** [String.prototype.toLowerCase]. *)
Variable toLowerCase : string -> string.

(** [new RegExp(p, 'i')]: [None] when the constructor throws a
    [SyntaxError], otherwise the [test] method of the expression. *)
Variable RegExp_i : string -> option (string -> bool).

(** [Math.random], the default source of [Random.shuffle]. *)
Variable Math_random : nat -> Q.

(** [categories.includes('all') ? allCategories
      : categories.filter(c => allCategories.includes(c))] *)
Definition selectedCategories (data : SitesData) (cats : list string) : list string :=
  let allCategories := Object_keys (categories data) in
  if includes cats "all" then allCategories
  else filter (fun c => includes allCategories c) cats.

(** The sites of the selected categories, then the custom sites. *)
Definition collectSites (data : SitesData) (cats : list string)
  (options : GetSitesOptions) : list string :=
  let fromCategories :=
    flat_map (fun category =>
                match js_get (categories data) category with
                | Some categorySites => categorySites
                | None => []
                end)
             (selectedCategories data cats) in
  match opt_custom options with
  | Some custom => fromCategories ++ custom
  | None => fromCategories
  end.

(** [sites.filter(s => !excludeSet.has(s.toLowerCase()))] *)
Definition removeExcluded (options : GetSitesOptions) (sites : list string) : list string :=
  match opt_exclude options with
  | Some exclude =>
      let excludeSet := map toLowerCase exclude in
      filter (fun s => negb (includes excludeSet (toLowerCase s))) sites
  | None => sites
  end.

(** [excludePatterns.map(p => new RegExp(p, 'i'))] *)
Fixpoint compilePatterns (ps : list string) : result (list (string -> bool)) :=
  match ps with
  | [] => Ok []
  | p :: r =>
      match RegExp_i p with
      | None => Throw "Invalid regular expression"
      | Some test =>
          match compilePatterns r with
          | Ok tests => Ok (test :: tests)
          | Throw e => Throw e
          end
      end
  end.

(** [sites.filter(site => !patterns.some(pattern => pattern.test(site)))] *)
Definition applyPatterns (patterns : list (string -> bool)) (sites : list string)
  : list string :=
  filter (fun site => negb (existsb (fun test => test site) patterns)) sites.

(** [sites.slice(0, maxSites)] under [options.maxSites && options.maxSites > 0]. *)
Definition limitSites (options : GetSitesOptions) (sites : list string) : list string :=
  match opt_maxSites options with
  | Some n => if 0 <? n then firstn (Z.to_nat n) sites else sites
  | None => sites
  end.

(** [getSites(categories, options)]; the random source is read from
    position [p]. *)
Definition getSites (mgr : SitesManager) (cats : list string)
  (options : GetSitesOptions) (p : nat) : result (list string * nat) :=
  match _sites mgr with
  | None => Throw "Sites not loaded. Call await Sites.load() first."
  | Some data =>
      let sites := collectSites data cats options in
      let sites := removeExcluded options sites in
      let sites := set_spread [] sites in
      let filtered :=
        match excludePatterns data with
        | Some ps =>
            match compilePatterns ps with
            | Ok patterns => Ok (applyPatterns patterns sites)
            | Throw e => Throw e
            end
        | None => Ok sites
        end in
      match filtered with
      | Throw e => Throw e
      | Ok sites =>
          let '(sites, p1) :=
            match opt_shuffle options with
            | Some false => (sites, p)
            | _ => Random_shuffle Math_random sites p
            end in
          Ok (limitSites options sites, p1)
      end
  end.

(** [getContentType(url)] *)
Definition getContentType (mgr : SitesManager) (url : string) : string :=
  match _sites mgr with
  | None => "article"
  | Some data =>
      match contentTypeHints data with
      | None => "article"
      | Some hints =>
          let urlLower := toLowerCase url in
          match find (fun entry =>
                        existsb (fun pattern =>
                                   String_includes urlLower (toLowerCase pattern))
                                (snd entry))
                     hints with
          | Some (type, _) => type
          | None => "article"
          end
      end
  end.

End Sites.

(** Lower-casing of the ASCII letters, a sample instance of [toLowerCase]. *)
Definition ascii_lower (c : Ascii.ascii) : Ascii.ascii :=
  let n := Ascii.nat_of_ascii c in
  if ((65 <=? n) && (n <=? 90))%nat then Ascii.ascii_of_nat (n + 32) else c.

Fixpoint ascii_toLowerCase (s : string) : string :=
  match s with
  | EmptyString => EmptyString
  | String c r => String (ascii_lower c) (ascii_toLowerCase r)
  end.

(** A sample instance of [RegExp]: every pattern is read as a literal
    substring, compared without case. *)
Definition literal_RegExp_i (p : string) : option (string -> bool) :=
  Some (fun s => String_includes (ascii_toLowerCase s) (ascii_toLowerCase p)).

(** No positive [maxSites] is set. *)
Definition unlimited (options : GetSitesOptions) : Prop :=
  match opt_maxSites options with
  | Some n => n <= 0
  | None => True
  end.

(** Two categories that share a URL, one of them listing it twice, a
    limit of five sites, and the seeded generator as the source. *)
Definition sample_sites : SitesData :=
  {| categories :=
       [ ("news", ["https://a.example"; "https://b.example"]);
         ("tech", ["https://b.example"; "https://c.example"; "https://b.example"])
       ]%string;
     excludePatterns := Some ["tracker"]%string;
     contentTypeHints := None |}.

Definition sample_options : GetSitesOptions :=
  {| opt_custom := Some ["https://a.example"]%string;
     opt_exclude := Some [];
     opt_maxSites := Some 5;
     opt_shuffle := None |}.


(* ================================================================== *)
(** ** utils/config.js: the configuration read by the session *)

Record TimingConfig : Type := {
  minStay : Z; maxStay : Z; minWait : Z; maxWait : Z;
  pageTimeout : Z; navigationTimeout : Z
}.

Record BehaviorConfig : Type := {
  clickLinks : bool; searches : bool; searchCount : Z; maxDepth : Z
}.

Record SitesConfig : Type := {
  cfg_categories : list string;
  cfg_custom : option (list string);
  cfg_exclude : option (list string);
  cfg_maxSites : option Z;
  shuffleSites : option bool
}.

Record BreakDuration : Type := { bd_min : Z; bd_max : Z }.

Record SessionConfig : Type := {
  maxDuration : Z; maxPages : Z; breakInterval : Z; breakDuration : BreakDuration
}.

Record Configuration : Type := {
  timing : TimingConfig;
  behavior : BehaviorConfig;
  sites : SitesConfig;
  session : SessionConfig
}.

Record ConfigManager : Type := { _loaded : bool; _config : Configuration }.

(** [Config.get()] *)
Definition Config_get (c : ConfigManager) : result Configuration :=
  if _loaded c then Ok (_config c)
  else Throw "Configuration not loaded. Call await Config.load() first.".

(* ================================================================== *)
(** ** core/session.js: data *)

Inductive SessionState : Type :=
| IDLE | STARTING | RUNNING | PAUSED | STOPPING | STOPPED | ERROR.

Definition SessionState_name (s : SessionState) : string :=
  match s with
  | IDLE => "idle" | STARTING => "starting" | RUNNING => "running"
  | PAUSED => "paused" | STOPPING => "stopping" | STOPPED => "stopped"
  | ERROR => "error"
  end.

Definition SessionState_eqb (a b : SessionState) : bool :=
  match a, b with
  | IDLE, IDLE | STARTING, STARTING | RUNNING, RUNNING | PAUSED, PAUSED
  | STOPPING, STOPPING | STOPPED, STOPPED | ERROR, ERROR => true
  | _, _ => false
  end.

(** An entry of [stats.errors]. *)
Record ErrorEntry : Type := {
  err_type : string;
  err_url : option string;
  err_error : string;
  err_time : Z
}.

Record Stats : Type := {
  startTime : option Z;
  endTime : option Z;
  sitesVisited : Z;
  sitesSuccessful : Z;
  sitesFailed : Z;
  searchesPerformed : Z;
  linksClicked : Z;
  totalScrollDistance : Q;
  pagesViewed : Z;
  errors : list ErrorEntry;
  visitedUrls : list string
}.

(** The browser controller as the session sees it: whether [launch()] has
    attached a page. *)
Record BrowserController : Type := { page_attached : bool }.

(** The [PageActions] object created by [initialize()]. *)
Inductive PageActions : Type := PageActionsOf (b : BrowserController).

Record SessionManager : Type := {
  browser : option BrowserController;
  actions : option PageActions;
  state : SessionState;
  stats : Stats;
  _shouldStop : bool;
  _isPaused : bool;
  _currentSite : option string;
  _siteQueue : list string
}.

Definition initial_stats : Stats :=
  {| startTime := None; endTime := None; sitesVisited := 0;
     sitesSuccessful := 0; sitesFailed := 0; searchesPerformed := 0;
     linksClicked := 0; totalScrollDistance := 0%Q; pagesViewed := 0;
     errors := []; visitedUrls := [] |}.

(** [new SessionManager(options)] *)
Definition new_SessionManager : SessionManager :=
  {| browser := None; actions := None; state := IDLE; stats := initial_stats;
     _shouldStop := false; _isPaused := false; _currentSite := None;
     _siteQueue := [] |}.

(** Field updates. *)
Definition with_stats (f : Stats -> Stats) (s : SessionManager) : SessionManager :=
  {| browser := browser s; actions := actions s; state := state s;
     stats := f (stats s); _shouldStop := _shouldStop s; _isPaused := _isPaused s;
     _currentSite := _currentSite s; _siteQueue := _siteQueue s |}.

Definition with_state (st : SessionState) (s : SessionManager) : SessionManager :=
  {| browser := browser s; actions := actions s; state := st;
     stats := stats s; _shouldStop := _shouldStop s; _isPaused := _isPaused s;
     _currentSite := _currentSite s; _siteQueue := _siteQueue s |}.

Definition with_browser (b : option BrowserController) (s : SessionManager) : SessionManager :=
  {| browser := b; actions := actions s; state := state s;
     stats := stats s; _shouldStop := _shouldStop s; _isPaused := _isPaused s;
     _currentSite := _currentSite s; _siteQueue := _siteQueue s |}.

Definition with_actions (a : option PageActions) (s : SessionManager) : SessionManager :=
  {| browser := browser s; actions := a; state := state s;
     stats := stats s; _shouldStop := _shouldStop s; _isPaused := _isPaused s;
     _currentSite := _currentSite s; _siteQueue := _siteQueue s |}.

Definition with_currentSite (u : option string) (s : SessionManager) : SessionManager :=
  {| browser := browser s; actions := actions s; state := state s;
     stats := stats s; _shouldStop := _shouldStop s; _isPaused := _isPaused s;
     _currentSite := u; _siteQueue := _siteQueue s |}.

Definition with_siteQueue (q : list string) (s : SessionManager) : SessionManager :=
  {| browser := browser s; actions := actions s; state := state s;
     stats := stats s; _shouldStop := _shouldStop s; _isPaused := _isPaused s;
     _currentSite := _currentSite s; _siteQueue := q |}.

Definition set_startTime (v : option Z) (st : Stats) : Stats :=
  {| startTime := v; endTime := endTime st; sitesVisited := sitesVisited st;
     sitesSuccessful := sitesSuccessful st; sitesFailed := sitesFailed st;
     searchesPerformed := searchesPerformed st; linksClicked := linksClicked st;
     totalScrollDistance := totalScrollDistance st; pagesViewed := pagesViewed st;
     errors := errors st; visitedUrls := visitedUrls st |}.

Definition set_endTime (v : option Z) (st : Stats) : Stats :=
  {| startTime := startTime st; endTime := v; sitesVisited := sitesVisited st;
     sitesSuccessful := sitesSuccessful st; sitesFailed := sitesFailed st;
     searchesPerformed := searchesPerformed st; linksClicked := linksClicked st;
     totalScrollDistance := totalScrollDistance st; pagesViewed := pagesViewed st;
     errors := errors st; visitedUrls := visitedUrls st |}.

Definition incr_sitesVisited (st : Stats) : Stats :=
  {| startTime := startTime st; endTime := endTime st;
     sitesVisited := sitesVisited st + 1;
     sitesSuccessful := sitesSuccessful st; sitesFailed := sitesFailed st;
     searchesPerformed := searchesPerformed st; linksClicked := linksClicked st;
     totalScrollDistance := totalScrollDistance st; pagesViewed := pagesViewed st;
     errors := errors st; visitedUrls := visitedUrls st |}.

Definition incr_sitesSuccessful (st : Stats) : Stats :=
  {| startTime := startTime st; endTime := endTime st;
     sitesVisited := sitesVisited st;
     sitesSuccessful := sitesSuccessful st + 1; sitesFailed := sitesFailed st;
     searchesPerformed := searchesPerformed st; linksClicked := linksClicked st;
     totalScrollDistance := totalScrollDistance st; pagesViewed := pagesViewed st;
     errors := errors st; visitedUrls := visitedUrls st |}.

Definition incr_sitesFailed (st : Stats) : Stats :=
  {| startTime := startTime st; endTime := endTime st;
     sitesVisited := sitesVisited st;
     sitesSuccessful := sitesSuccessful st; sitesFailed := sitesFailed st + 1;
     searchesPerformed := searchesPerformed st; linksClicked := linksClicked st;
     totalScrollDistance := totalScrollDistance st; pagesViewed := pagesViewed st;
     errors := errors st; visitedUrls := visitedUrls st |}.

Definition incr_searchesPerformed (st : Stats) : Stats :=
  {| startTime := startTime st; endTime := endTime st;
     sitesVisited := sitesVisited st;
     sitesSuccessful := sitesSuccessful st; sitesFailed := sitesFailed st;
     searchesPerformed := searchesPerformed st + 1; linksClicked := linksClicked st;
     totalScrollDistance := totalScrollDistance st; pagesViewed := pagesViewed st;
     errors := errors st; visitedUrls := visitedUrls st |}.

Definition incr_linksClicked (st : Stats) : Stats :=
  {| startTime := startTime st; endTime := endTime st;
     sitesVisited := sitesVisited st;
     sitesSuccessful := sitesSuccessful st; sitesFailed := sitesFailed st;
     searchesPerformed := searchesPerformed st; linksClicked := linksClicked st + 1;
     totalScrollDistance := totalScrollDistance st; pagesViewed := pagesViewed st;
     errors := errors st; visitedUrls := visitedUrls st |}.

Definition add_totalScrollDistance (d : Q) (st : Stats) : Stats :=
  {| startTime := startTime st; endTime := endTime st;
     sitesVisited := sitesVisited st;
     sitesSuccessful := sitesSuccessful st; sitesFailed := sitesFailed st;
     searchesPerformed := searchesPerformed st; linksClicked := linksClicked st;
     totalScrollDistance := (totalScrollDistance st + d)%Q;
     pagesViewed := pagesViewed st;
     errors := errors st; visitedUrls := visitedUrls st |}.

Definition incr_pagesViewed (st : Stats) : Stats :=
  {| startTime := startTime st; endTime := endTime st;
     sitesVisited := sitesVisited st;
     sitesSuccessful := sitesSuccessful st; sitesFailed := sitesFailed st;
     searchesPerformed := searchesPerformed st; linksClicked := linksClicked st;
     totalScrollDistance := totalScrollDistance st; pagesViewed := pagesViewed st + 1;
     errors := errors st; visitedUrls := visitedUrls st |}.

Definition push_error (e : ErrorEntry) (st : Stats) : Stats :=
  {| startTime := startTime st; endTime := endTime st;
     sitesVisited := sitesVisited st;
     sitesSuccessful := sitesSuccessful st; sitesFailed := sitesFailed st;
     searchesPerformed := searchesPerformed st; linksClicked := linksClicked st;
     totalScrollDistance := totalScrollDistance st; pagesViewed := pagesViewed st;
     errors := errors st ++ [e]; visitedUrls := visitedUrls st |}.

Definition push_visitedUrl (u : string) (st : Stats) : Stats :=
  {| startTime := startTime st; endTime := endTime st;
     sitesVisited := sitesVisited st;
     sitesSuccessful := sitesSuccessful st; sitesFailed := sitesFailed st;
     searchesPerformed := searchesPerformed st; linksClicked := linksClicked st;
     totalScrollDistance := totalScrollDistance st; pagesViewed := pagesViewed st;
     errors := errors st; visitedUrls := visitedUrls st ++ [u] |}.

(** What the page reports to the session. *)
Record PageInfo : Type := {
  pi_url : string; pi_title : string; pi_domain : string; pi_path : string;
  pi_scrollHeight : Z; pi_viewportHeight : Z; pi_linkCount : Z;
  pi_imageCount : Z; pi_hasVideo : bool; pi_hasForm : bool; pi_textLength : Z
}.

(** An entry of [stayResult.actions]; a missing [totalScrolled] is 0 and a
    missing [clicked] is [false]. *)
Record StayAction : Type := {
  act_type : string;
  act_totalScrolled : Q;
  act_clicked : bool
}.

Record StayResult : Type := {
  stay_duration : Z;
  stay_actions : list StayAction;
  navigatedAway : bool
}.

Record SearchResult : Type := {
  searched : bool;
  search_engine : string;
  search_query : string
}.

(** The object returned by [getStats()], without its two formatted strings
    ([durationFormatted], [successRate]). *)
Record StatsSnapshot : Type := {
  snap_stats : Stats;
  snap_duration : Z;
  snap_state : SessionState;
  snap_currentSite : option string;
  snap_remainingSites : Z
}.

(** Events of the browser controller. *)
Inductive BrowserEvent : Type :=
| B_navigated (url : string) (status : Z) (attempt : Z)
| B_httpError (url : string) (status : Z)
| B_navigationFailed (url : string) (error : string).

(** Events of the session, by name. *)
Inductive SessionEvent : Type :=
| E_stateChange (st : SessionState)
| E_initialized
| E_started (siteCount : Z)
| E_searchPerformed (r : SearchResult)
| E_siteStart (url : string) (current total : Z)
| E_siteComplete (url : string) (duration : Z) (pageInfo : option PageInfo)
                 (current total : Z)
| E_siteFailed (url : string) (error : string) (duration : Z)
| E_captchaDetected (url : string)
| E_pageVisited (url : string) (status : Z)
| E_breakStart (duration : Z)
| E_breakEnd
| E_completed (snapshot : StatsSnapshot)
| E_error (message : string).

Definition SessionEvent_name (e : SessionEvent) : string :=
  match e with
  | E_stateChange _ => "stateChange"
  | E_initialized => "initialized"
  | E_started _ => "started"
  | E_searchPerformed _ => "searchPerformed"
  | E_siteStart _ _ _ => "siteStart"
  | E_siteComplete _ _ _ _ _ => "siteComplete"
  | E_siteFailed _ _ _ => "siteFailed"
  | E_captchaDetected _ => "captchaDetected"
  | E_pageVisited _ _ => "pageVisited"
  | E_breakStart _ => "breakStart"
  | E_breakEnd => "breakEnd"
  | E_completed _ => "completed"
  | E_error _ => "error"
  end.

(** What a run does to the outside, in order: the events it emits, the
    timers it waits on and the calls it makes to the page, with their
    results. *)
Inductive Effect : Type :=
| Emit (e : SessionEvent)
| BrowserEmit (e : BrowserEvent)
| SetTimeout (ms : Z)
| PageGoto (url : string) (r : result Z)
| BrowserLaunch (r : result unit)
| SitesLoad
| DismissPopups
| HasCaptcha (b : bool)
| GetPageInfo
| StayOnPage (contentType : string)
| PerformSearch.

(** The outside world: what each external call returns when it is made at
    a given tick.  [page_goto url] is the status of the response (0 when
    there is none) or the error thrown by [page.goto]. *)
Record Env : Type := {
  Date_now : nat -> Z;
  Math_random : nat -> Q;
  page_goto : string -> nat -> result Z;
  page_url : nat -> string;
  browser_launch : nat -> result unit;
  Sites_load : nat -> result SitesData;
  actions_hasCaptcha : nat -> bool;
  actions_getPageInfo : nat -> option PageInfo;
  actions_stayOnPage : string -> nat -> result StayResult;
  actions_performSearch : nat -> result SearchResult
}.

(** The mutable world of a run: the tick, the [Sites] singleton and the
    session object. *)
Record World : Type := {
  w_tick : nat;
  w_sites : SitesManager;
  w_session : SessionManager
}.

Definition on_session (f : SessionManager -> SessionManager) (w : World) : World :=
  {| w_tick := w_tick w; w_sites := w_sites w; w_session := f (w_session w) |}.

Definition advance_tick (n : nat) (w : World) : World :=
  {| w_tick := n; w_sites := w_sites w; w_session := w_session w |}.

Definition with_sites (m : SitesManager) (w : World) : World :=
  {| w_tick := w_tick w; w_sites := m; w_session := w_session w |}.

(** How an asynchronous call ends: it returns, it throws, or it is parked
    on the pause promise, which only [resume()] on another turn of the
    event loop resolves. *)
Inductive outcome (A : Type) : Type :=
| Returned (a : A)
| Threw (message : string)
| Parked.
Arguments Returned {A} a.
Arguments Threw {A} message.
Arguments Parked {A}.

Definition Run (A : Type) : Type := World -> outcome A * list Effect * World.

Definition ret {A} (a : A) : Run A := fun w => (Returned a, [], w).

Definition bind {A B} (c : Run A) (k : A -> Run B) : Run B :=
  fun w =>
    match c w with
    | (Returned a, fx, w1) =>
        let '(o, fx2, w2) := k a w1 in (o, fx ++ fx2, w2)
    | (Threw e, fx, w1) => (Threw e, fx, w1)
    | (Parked, fx, w1) => (Parked, fx, w1)
    end.

Definition throw {A} (message : string) : Run A := fun w => (Threw message, [], w).

(** [try { c } catch (error) { handler(error.message) }] *)
Definition try_catch {A} (c : Run A) (handler : string -> Run A) : Run A :=
  fun w =>
    match c w with
    | (Threw e, fx, w1) =>
        let '(o, fx2, w2) := handler e w1 in (o, fx ++ fx2, w2)
    | r => r
    end.

Definition effect (e : Effect) : Run unit := fun w => (Returned tt, [e], w).

Definition emit (e : SessionEvent) : Run unit := effect (Emit e).

Definition get_session : Run SessionManager := fun w => (Returned (w_session w), [], w).

Definition update (f : SessionManager -> SessionManager) : Run unit :=
  fun w => (Returned tt, [], on_session f w).

Definition update_stats (f : Stats -> Stats) : Run unit := update (with_stats f).

(** An external call: its result is read at the current tick, which then
    advances. *)
Definition external {A} (f : nat -> A) : Run A :=
  fun w => (Returned (f (w_tick w)), [], advance_tick (S (w_tick w)) w).

Definition of_result {A} (r : result A) : Run A :=
  match r with
  | Ok a => ret a
  | Throw e => throw e
  end.

(** A computation on the random source [Math.random], read at the tick. *)
Definition random {A} (c : Rand A) : Run A :=
  fun w => let '(a, t) := c (w_tick w) in (Returned a, [], advance_tick t w).

Declare Scope run_scope.
Delimit Scope run_scope with run.
Notation "x <- c ;; k" := (bind c (fun x => k))
  (at level 61, c at next level, right associativity) : run_scope.
Notation "c ;;; k" := (bind c (fun _ => k))
  (at level 61, right associativity) : run_scope.

(** [Timing.sleep(ms)] *)
Definition sleep (ms : Z) : Run unit :=
  bind (effect (SetTimeout ms)) (fun _ => external (fun _ => tt)).

(** The pause promise is pending: the caller is parked. *)
Definition park {A} : Run A := fun w => (Parked, [], w).

(* ================================================================== *)
(** ** core/browser.js and core/session.js: operations *)

Section Session.

Variable env : Env.
Variable Config : ConfigManager.
Variable toLowerCase : string -> string.
Variable RegExp_i : string -> option (string -> bool).

Local Open Scope run_scope.

(** [new Date()] and [Date.now()] *)
Definition Date_now_call : Run Z := external (Date_now env).

(** [Config.get()] *)
Definition Config_get_call : Run Configuration := of_result (Config_get Config).

(** The listeners that [initialize()] puts on the browser: [navigated] is
    forwarded as [pageVisited], [navigationFailed] is recorded in
    [stats.errors]; [httpError] has no listener. *)
Definition browser_emit (e : BrowserEvent) : Run unit :=
  effect (BrowserEmit e) ;;;
  match e with
  | B_navigated url status _ => emit (E_pageVisited url status)
  | B_navigationFailed url error =>
      t <- Date_now_call ;;
      update_stats (push_error {| err_type := "navigation"; err_url := Some url;
                                  err_error := error; err_time := t |})
  | B_httpError _ _ => ret tt
  end.

(** What [this.page.goto(url, ...)] does at tick [t]; a [TypeError] when
    no page is attached. *)
Definition page_goto_result (b : BrowserController) (url : string) (t : nat)
  : result Z :=
  if page_attached b then page_goto env url t
  else Throw "Cannot read properties of null (reading 'goto')".

Definition page_goto_call (b : BrowserController) (url : string) : Run Z :=
  r <- external (page_goto_result b url) ;;
  effect (PageGoto url r) ;;;
  of_result r.

(** The [for] loop of [goto]: [remaining] iterations are left, the next one
    is number [attempt]. *)
Fixpoint goto_attempts (remaining : nat) (b : BrowserController) (url : string)
  (maxRetries attempt : Z) (lastError : string) : Run Z :=
  match remaining with
  | O =>
      browser_emit (B_navigationFailed url lastError) ;;;
      throw lastError
  | S remaining' =>
      try_catch
        (status <- page_goto_call b url ;;
         (if status >=? 400 then browser_emit (B_httpError url status) else ret tt) ;;;
         browser_emit (B_navigated url status attempt) ;;;
         ret status)
        (fun error =>
           (if attempt <? maxRetries
            then sleep (Z.min (1000 * 2 ^ (attempt - 1)) 10000)
            else ret tt) ;;;
           goto_attempts remaining' b url maxRetries (attempt + 1) error)
  end.

(** [options.retries || 3], for a count of retries. *)
Definition goto_maxRetries (retries : option nat) : nat :=
  match retries with
  | Some (S n) => S n
  | _ => 3%nat
  end.

(** [BrowserController.goto(url, options)] *)
Definition BrowserController_goto (b : BrowserController) (url : string)
  (retries : option nat) : Run Z :=
  let maxRetries := goto_maxRetries retries in
  _ <- Config_get_call ;;
  goto_attempts maxRetries b url (Z.of_nat maxRetries) 1 "undefined".

(** [this.browser], [this.actions]: a [TypeError] on [null]. *)
Definition the_browser (method : string) : Run BrowserController :=
  s <- get_session ;;
  match browser s with
  | Some b => ret b
  | None => throw ("Cannot read properties of null (reading '" ++ method ++ "')")
  end.

Definition the_actions (method : string) : Run PageActions :=
  s <- get_session ;;
  match actions s with
  | Some a => ret a
  | None => throw ("Cannot read properties of null (reading '" ++ method ++ "')")
  end.

(** Calls on [this.actions].  [dismissPopups], [hasCaptcha] and
    [getPageInfo] catch their own errors. *)
Definition dismissPopups_call : Run unit :=
  _ <- the_actions "dismissPopups" ;;
  effect DismissPopups ;;;
  external (fun _ => tt).

Definition hasCaptcha_call : Run bool :=
  _ <- the_actions "hasCaptcha" ;;
  b <- external (actions_hasCaptcha env) ;;
  effect (HasCaptcha b) ;;;
  ret b.

Definition getPageInfo_call : Run (option PageInfo) :=
  _ <- the_actions "getPageInfo" ;;
  effect GetPageInfo ;;;
  external (actions_getPageInfo env).

Definition stayOnPage_call (contentType : string) : Run StayResult :=
  _ <- the_actions "stayOnPage" ;;
  effect (StayOnPage contentType) ;;;
  r <- external (actions_stayOnPage env contentType) ;;
  of_result r.

Definition performSearch_call : Run SearchResult :=
  _ <- the_actions "performSearch" ;;
  effect PerformSearch ;;;
  r <- external (actions_performSearch env) ;;
  of_result r.

(** [Sites.getContentType(url)] *)
Definition Sites_getContentType (url : string) : Run string :=
  fun w => (Returned (getContentType toLowerCase (w_sites w) url), [], w).

(** [Sites.getSites(categories, options)] *)
Definition Sites_getSites (cats : list string) (options : GetSitesOptions)
  : Run (list string) :=
  fun w =>
    match getSites toLowerCase RegExp_i (Math_random env) (w_sites w) cats options
                   (w_tick w) with
    | Ok (l, t) => (Returned l, [], advance_tick t w)
    | Throw e => (Threw e, [], w)
    end.

(** The loop of [_visitSite] over [stayResult.actions]. *)
Definition account_action (st : Stats) (a : StayAction) : Stats :=
  let st :=
    if String.eqb (act_type a) "scroll" && negb (Qeq_bool (act_totalScrolled a) 0)
    then add_totalScrollDistance (act_totalScrolled a) st else st in
  if String.eqb (act_type a) "click" && act_clicked a
  then incr_linksClicked st else st.

Definition account_actions (l : list StayAction) (st : Stats) : Stats :=
  fold_left account_action l st.

(** The body of [_followLinks(depth)], with its recursive call
    [_followLinks(depth + 1)] taken as [next].
    [this.browser.getPage().url()] is a [TypeError] without a page. *)
Definition followLinks_step (depth : Z) (next : Run unit) : Run unit :=
  config <- Config_get_call ;;
  if depth >=? maxDepth (behavior config) then ret tt
  else if negb (clickLinks (behavior config)) then ret tt
  else
    shouldFollow <- random (Random_bool (Math_random env) ((3 # 10) / inject_Z depth)) ;;
    if negb shouldFollow then ret tt
    else
      b <- the_browser "getPage" ;;
      url <- (if page_attached b then external (page_url env)
              else throw "Cannot read properties of null (reading 'url')") ;;
      contentType <- Sites_getContentType url ;;
      stayResult <- stayOnPage_call contentType ;;
      update_stats incr_pagesViewed ;;;
      if navigatedAway stayResult then next else ret tt.

(** [_followLinks(depth)]: the recursion deepens by one and stops at
    [maxDepth], so [fuel = maxDepth - depth] nested calls are enough. *)
Fixpoint _followLinks_from (fuel : nat) (depth : Z) : Run unit :=
  followLinks_step depth
    (match fuel with
     | O => ret tt
     | S fuel' => _followLinks_from fuel' (depth + 1)
     end).

Definition _followLinks (depth : Z) : Run unit :=
  config <- Config_get_call ;;
  _followLinks_from (Z.to_nat (maxDepth (behavior config) - depth)) depth.

(** The [try] block of [_visitSite]. *)
Definition visit_body (url : string) (current total startTime : Z) : Run unit :=
  b <- the_browser "goto" ;;
  _ <- BrowserController_goto b url None ;;
  update_stats incr_pagesViewed ;;;
  update_stats (push_visitedUrl url) ;;;
  dismissPopups_call ;;;
  hasCaptcha <- hasCaptcha_call ;;
  if hasCaptcha
  then
    update_stats incr_sitesFailed ;;;
    emit (E_captchaDetected url)
  else
    pageInfo <- getPageInfo_call ;;
    contentType <- Sites_getContentType url ;;
    stayResult <- stayOnPage_call contentType ;;
    update_stats (account_actions (stay_actions stayResult)) ;;;
    (if navigatedAway stayResult
     then update_stats incr_pagesViewed ;;; _followLinks 1
     else ret tt) ;;;
    now <- Date_now_call ;;
    update_stats incr_sitesSuccessful ;;;
    emit (E_siteComplete url (now - startTime) pageInfo current total).

(** The [catch] block of [_visitSite]. *)
Definition visit_failed (url : string) (startTime : Z) (error : string) : Run unit :=
  now <- Date_now_call ;;
  update_stats incr_sitesFailed ;;;
  t <- Date_now_call ;;
  update_stats (push_error {| err_type := "visit"; err_url := Some url;
                              err_error := error; err_time := t |}) ;;;
  emit (E_siteFailed url error (now - startTime)).

(** [_visitSite(url, current, total)] *)
Definition _visitSite (url : string) (current total : Z) : Run unit :=
  startTime <- Date_now_call ;;
  update_stats incr_sitesVisited ;;;
  emit (E_siteStart url current total) ;;;
  try_catch (visit_body url current total startTime)
            (visit_failed url startTime).

(** [_waitBetweenSites()] *)
Definition _waitBetweenSites : Run Z :=
  config <- Config_get_call ;;
  delay <- random (Timing_betweenSitesDelay (Math_random env)) ;;
  let clampedDelay :=
    Z.max (minWait (timing config) * 1000)
          (Z.min (maxWait (timing config) * 1000) delay) in
  sleep clampedDelay ;;;
  ret clampedDelay.

(** [_takeBreak(durationConfig)] *)
Definition _takeBreak (durationConfig : BreakDuration) : Run unit :=
  duration <- random (Random_int (Math_random env)
                        (bd_min durationConfig * 1000) (bd_max durationConfig * 1000)) ;;
  emit (E_breakStart duration) ;;;
  sleep duration ;;;
  emit E_breakEnd.

(** [_checkPaused()]: [await this._pausePromise] when paused. *)
Definition _checkPaused : Run unit :=
  s <- get_session ;;
  if _isPaused s then park else ret tt.

(** [_handleError(error)] *)
Definition _handleError (error : string) : Run unit :=
  update (with_state ERROR) ;;;
  t <- Date_now_call ;;
  update_stats (set_endTime (Some t)) ;;;
  t' <- Date_now_call ;;
  update_stats (push_error {| err_type := "fatal"; err_url := None;
                              err_error := error; err_time := t' |}) ;;;
  emit (E_stateChange ERROR) ;;;
  emit (E_error error).

(** [getStats()] *)
Definition getStats : Run StatsSnapshot :=
  now <- Date_now_call ;;
  s <- get_session ;;
  let duration :=
    match startTime (stats s) with
    | Some t0 => match endTime (stats s) with
                 | Some t1 => t1 - t0
                 | None => now - t0
                 end
    | None => 0
    end in
  ret {| snap_stats := stats s; snap_duration := duration;
         snap_state := state s; snap_currentSite := _currentSite s;
         snap_remainingSites :=
           Z.of_nat (List.length (_siteQueue s)) - sitesVisited (stats s) |}.

(** [(Date.now() - this.stats.startTime.getTime()) / 1000 / 60]; a
    [TypeError] when [startTime] is [null]. *)
Definition elapsed_minutes : Run Q :=
  now <- Date_now_call ;;
  s <- get_session ;;
  match startTime (stats s) with
  | Some t0 => ret (inject_Z (now - t0) / 1000 / 60)%Q
  | None => throw "Cannot read properties of null (reading 'getTime')"
  end.

(** The scheduled break inside the loop of [_visitSites]. *)
Definition scheduled_break (config : Configuration) : Run unit :=
  if breakInterval (session config) >? 0
  then
    elapsed <- elapsed_minutes ;;
    s <- get_session ;;
    let breaksDue := Qfloor (elapsed / inject_Z (breakInterval (session config))) in
    let breaksTaken := sitesVisited (stats s) / 10 in
    if (breaksDue >? breaksTaken) && (sitesVisited (stats s) >? 0)
    then _takeBreak (breakDuration (session config))
    else ret tt
  else ret tt.

(** The [for] loop of [_visitSites]: [rest] is the queue from index [i]
    on, [len] its whole length. *)
Fixpoint visit_loop (config : Configuration) (rest : list string)
  (i len totalSites : Z) : Run unit :=
  match rest with
  | [] => ret tt
  | site :: rest' =>
      s <- get_session ;;
      if _shouldStop s then ret tt
      else
        _checkPaused ;;;
        s <- get_session ;;
        if (maxPages (session config) >? 0)
           && (pagesViewed (stats s) >=? maxPages (session config))
        then ret tt
        else
          over <- (if maxDuration (session config) >? 0
                   then
                     elapsed <- elapsed_minutes ;;
                     ret (Qle_bool (inject_Z (maxDuration (session config))) elapsed)
                   else ret false) ;;
          if over then ret tt
          else
            update (with_currentSite (Some site)) ;;;
            scheduled_break config ;;;
            _visitSite site (i + 1) totalSites ;;;
            s <- get_session ;;
            (if (i <? len - 1) && negb (_shouldStop s)
             then _ <- _waitBetweenSites ;; ret tt
             else ret tt) ;;;
            visit_loop config rest' (i + 1) len totalSites
  end.

(** [_visitSites()] *)
Definition _visitSites : Run unit :=
  config <- Config_get_call ;;
  s <- get_session ;;
  let len := Z.of_nat (List.length (_siteQueue s)) in
  visit_loop config (_siteQueue s) 0 len len.

(** The [for] loop of [_performSearches(count)], from index [i]. *)
Fixpoint search_loop (remaining : nat) (i count : Z) : Run unit :=
  match remaining with
  | O => ret tt
  | S remaining' =>
      s <- get_session ;;
      if _shouldStop s then ret tt
      else
        _checkPaused ;;;
        try_catch
          (result <- performSearch_call ;;
           (if searched result
            then
              update_stats incr_searchesPerformed ;;;
              emit (E_searchPerformed result) ;;;
              _ <- stayOnPage_call "search" ;;
              ret tt
            else ret tt) ;;;
           (if i <? count - 1
            then _ <- _waitBetweenSites ;; ret tt
            else ret tt))
          (fun error =>
             t <- Date_now_call ;;
             update_stats (push_error {| err_type := "search"; err_url := None;
                                         err_error := error; err_time := t |})) ;;;
        search_loop remaining' (i + 1) count
  end.

Definition _performSearches (count : Z) : Run unit :=
  search_loop (Z.to_nat count) 0 count.

(** [initialize()] *)
Definition initialize : Run bool :=
  update (with_state STARTING) ;;;
  emit (E_stateChange STARTING) ;;;
  try_catch
    (effect SitesLoad ;;;
     loaded <- external (Sites_load env) ;;
     data <- of_result loaded ;;
     (fun w => (Returned tt, [], with_sites {| _sites := Some data |} w)) ;;;
     update (with_browser (Some {| page_attached := false |})) ;;;
     launched <- external (browser_launch env) ;;
     effect (BrowserLaunch launched) ;;;
     of_result launched ;;;
     update (with_browser (Some {| page_attached := true |})) ;;;
     update (with_actions (Some (PageActionsOf {| page_attached := true |}))) ;;;
     emit E_initialized ;;;
     ret true)
    (fun error =>
       update (with_state ERROR) ;;;
       emit (E_stateChange ERROR) ;;;
       emit (E_error error) ;;;
       throw error).

(** The options that [start()] passes to [Sites.getSites]. *)
Definition siteOptions (config : Configuration) : GetSitesOptions :=
  {| opt_custom := cfg_custom (sites config);
     opt_exclude := cfg_exclude (sites config);
     opt_maxSites := cfg_maxSites (sites config);
     opt_shuffle := shuffleSites (sites config) |}.

(** The [try] block of [start()]. *)
Definition start_body (config : Configuration) : Run unit :=
  (if searches (behavior config) && (searchCount (behavior config) >? 0)
   then _performSearches (searchCount (behavior config))
   else ret tt) ;;;
  _visitSites ;;;
  t' <- Date_now_call ;;
  update_stats (set_endTime (Some t')) ;;;
  update (with_state STOPPED) ;;;
  emit (E_stateChange STOPPED) ;;;
  snapshot <- getStats ;;
  emit (E_completed snapshot).

(** The guard at the head of [start()], with the call of
    [this.initialize()] in its first branch taken as the argument [init]. *)
Definition start_guard (init : Run bool) (s : SessionManager) : Run unit :=
  if negb (SessionState_eqb (state s) STARTING) && negb (SessionState_eqb (state s) IDLE)
  then
    if SessionState_eqb (state s) IDLE
    then _ <- init ;; ret tt
    else throw ("Cannot start session in state: " ++ SessionState_name (state s))
  else ret tt.

(** [start()] after its guard. *)
Definition start_run : Run unit :=
  config <- Config_get_call ;;
  queue <- Sites_getSites (cfg_categories (sites config)) (siteOptions config) ;;
  update (with_siteQueue queue) ;;;
  if (List.length queue =? 0)%nat
  then throw "No sites to visit. Check your configuration."
  else
    update (with_state RUNNING) ;;;
    t <- Date_now_call ;;
    update_stats (set_startTime (Some t)) ;;;
    emit (E_stateChange RUNNING) ;;;
    emit (E_started (Z.of_nat (List.length queue))) ;;;
    try_catch (start_body config)
              (fun error => _handleError error ;;; throw error).

Definition start_with (init : Run bool) : Run unit :=
  s <- get_session ;;
  start_guard init s ;;;
  start_run.

(** [start()] *)
Definition start : Run unit := start_with initialize.

End Session.

(** *** Observations on a run *)

(** The control fields of the session, which a visit never writes. *)
Definition keeps (w w' : World) : Prop :=
  w_sites w' = w_sites w
  /\ browser (w_session w') = browser (w_session w)
  /\ actions (w_session w') = actions (w_session w)
  /\ state (w_session w') = state (w_session w)
  /\ _shouldStop (w_session w') = _shouldStop (w_session w)
  /\ _isPaused (w_session w') = _isPaused (w_session w)
  /\ _siteQueue (w_session w') = _siteQueue (w_session w)
  /\ startTime (stats (w_session w')) = startTime (stats (w_session w)).

(** [sitesVisited], [sitesSuccessful], [sitesFailed]. *)
Definition counters (w : World) : Z * Z * Z :=
  let st := stats (w_session w) in
  (sitesVisited st, sitesSuccessful st, sitesFailed st).

(** The session is running and not paused. *)
Definition ready (w : World) : Prop :=
  _isPaused (w_session w) = false /\ startTime (stats (w_session w)) <> None.

(** The events that close a visit. *)
Definition is_closer (e : Effect) : bool :=
  match e with
  | Emit (E_siteComplete _ _ _ _ _) | Emit (E_siteFailed _ _ _)
  | Emit (E_captchaDetected _) => true
  | _ => false
  end.

Definition is_siteComplete (e : Effect) : bool :=
  match e with Emit (E_siteComplete _ _ _ _ _) => true | _ => false end.

Definition is_siteFailed (e : Effect) : bool :=
  match e with Emit (E_siteFailed _ _ _) => true | _ => false end.

Definition is_PageGoto (e : Effect) : bool :=
  match e with PageGoto _ _ => true | _ => false end.

(** The delays of the timers among the effects. *)
Definition timeouts (fx : list Effect) : list Z :=
  flat_map (fun e => match e with SetTimeout ms => [ms] | _ => [] end) fx.

(** How a visit ends: the last effects, and what it adds to
    [sitesSuccessful] and to [sitesFailed]. *)
Inductive visit_end (url : string) (current total : Z)
  : list Effect -> Z -> Z -> Prop :=
| end_complete duration pageInfo :
    visit_end url current total
      [Emit (E_siteComplete url duration pageInfo current total)] 1 0
| end_captcha :
    visit_end url current total
      [HasCaptcha true; Emit (E_captchaDetected url)] 0 1
| end_failed error duration :
    visit_end url current total
      [Emit (E_siteFailed url error duration)] 0 1.

(** An effect that neither closes a visit nor reports a CAPTCHA. *)
Definition quiet_effect (e : Effect) : Prop :=
  is_closer e = false /\ e <> HasCaptcha true.

(** A quiet computation never parks, keeps the control fields and the
    three counters, and has quiet effects only. *)
Definition quiet {A} (c : Run A) : Prop :=
  forall w,
    let '(o, fx, w') := c w in
    o <> Parked /\ keeps w w' /\ counters w' = counters w /\ Forall quiet_effect fx.

(** An update of the statistics that leaves [startTime] and the three
    counters alone. *)
Definition neutral (f : Stats -> Stats) : Prop :=
  forall st,
    startTime (f st) = startTime st
    /\ sitesVisited (f st) = sitesVisited st
    /\ sitesSuccessful (f st) = sitesSuccessful st
    /\ sitesFailed (f st) = sitesFailed st.

(** The delay after the failed attempt number [attempt], and the delays
    between the attempts of a navigation with [n] attempts. *)
Definition backoff (attempt : nat) : Z :=
  Z.min (1000 * 2 ^ (Z.of_nat attempt - 1)) 10000.

Definition backoff_delays (n : nat) : list Z := map backoff (seq 1 (n - 1)).

(** A run that returns, related to its start by [Q]. *)
Definition ends {A} (Q : World -> World -> Prop) (w : World)
  (r : outcome A * list Effect * World) : Prop :=
  exists a fx w', r = (Returned a, fx, w') /\ Q w w'.

(** The control fields are kept, [sitesVisited] has grown by [n] and so has
    the sum of [sitesSuccessful] and [sitesFailed], neither of which has
    decreased. *)
Definition tally (n : Z) (w w' : World) : Prop :=
  let st := stats (w_session w) in
  let st' := stats (w_session w') in
  keeps w w'
  /\ sitesVisited st' = sitesVisited st + n
  /\ sitesSuccessful st' + sitesFailed st' = sitesSuccessful st + sitesFailed st + n
  /\ sitesSuccessful st <= sitesSuccessful st'
  /\ sitesFailed st <= sitesFailed st'.

(** No limit on pages or duration is configured. *)
Definition unbounded (config : Configuration) : Prop :=
  maxPages (session config) <= 0 /\ maxDuration (session config) <= 0.

(** What the [try] block guarantees, from the world [w] it starts in. *)
Definition body_post (url : string) (current total : Z) (w : World)
  (r : outcome unit * list Effect * World) : Prop :=
  let '(o, fx, w') := r in
  keeps w w'
  /\ sitesVisited (stats (w_session w')) = sitesVisited (stats (w_session w))
  /\ match o with
     | Returned _ =>
         exists fx0 tail ds df,
           fx = fx0 ++ tail /\ Forall quiet_effect fx0
           /\ visit_end url current total tail ds df
           /\ (forall e d, tail <> [Emit (E_siteFailed url e d)])
           /\ sitesSuccessful (stats (w_session w'))
              = sitesSuccessful (stats (w_session w)) + ds
           /\ sitesFailed (stats (w_session w'))
              = sitesFailed (stats (w_session w)) + df
     | Threw _ =>
         Forall quiet_effect fx
         /\ sitesSuccessful (stats (w_session w')) = sitesSuccessful (stats (w_session w))
         /\ sitesFailed (stats (w_session w')) = sitesFailed (stats (w_session w))
     | Parked => False
     end.


(** *** Sample configuration and environment, to run the session *)

(** [DEFAULT_CONFIG] of utils/config.js, with the warm-up searches switched
    as asked. *)
Definition default_config (with_searches : bool) : ConfigManager :=
  {| _loaded := true;
     _config :=
       {| timing := {| minStay := 10; maxStay := 60; minWait := 5; maxWait := 30;
                       pageTimeout := 30; navigationTimeout := 30 |};
          behavior := {| clickLinks := true; searches := with_searches;
                         searchCount := 3; maxDepth := 2 |};
          sites := {| cfg_categories := ["all"%string]; cfg_custom := Some [];
                      cfg_exclude := Some []; cfg_maxSites := Some 0;
                      shuffleSites := Some true |};
          session := {| maxDuration := 0; maxPages := 0; breakInterval := 0;
                        breakDuration := {| bd_min := 60; bd_max := 300 |} |} |} |}.

(** A page that scrolls and clicks once and stays where it is. *)
Definition sample_stay : StayResult :=
  {| stay_duration := 15000;
     stay_actions :=
       [ {| act_type := "scroll"; act_totalScrolled := 420; act_clicked := false |};
         {| act_type := "click"; act_totalScrolled := 0; act_clicked := true |} ];
     navigatedAway := false |}.

(** An outside world in which the navigation to the URLs of [bad] always
    throws, every other navigation answers 200, and every page shows a
    CAPTCHA or none according to [captcha]. *)
Definition sample_env (bad : string -> bool) (captcha : bool) : Env :=
  {| Date_now := fun t => 1000 * Z.of_nat t;
     Math_random := fun _ => 1 # 2;
     page_goto := fun url _ =>
       if bad url then Throw "net::ERR_CONNECTION_REFUSED" else Ok 200;
     page_url := fun _ => "https://a.example/next"%string;
     browser_launch := fun _ => Ok tt;
     Sites_load := fun _ => Ok sample_sites;
     actions_hasCaptcha := fun _ => captcha;
     actions_getPageInfo := fun _ => None;
     actions_stayOnPage := fun _ _ => Ok sample_stay;
     actions_performSearch := fun _ =>
       Ok {| searched := true; search_engine := "google";
             search_query := "news today" |} |}.

(** A new session in a world where nothing has been loaded yet. *)
Definition fresh_world : World :=
  {| w_tick := 0; w_sites := {| _sites := None |};
     w_session := new_SessionManager |}.

(** The world after [initialize()] in the sample environment. *)
Definition initialized_world : World :=
  snd (initialize (sample_env (fun _ => false) false) fresh_world).

(** The first visit of an initialized session, on a page that shows a
    CAPTCHA. *)
Definition captcha_visit : outcome unit * list Effect * World :=
  _visitSite (sample_env (fun _ => false) true) (default_config false)
             ascii_toLowerCase "https://a.example" 1 3 initialized_world.

(** Two destinations, the first of which is down. *)
Definition two_sites : SitesData :=
  {| categories :=
       [ ("general", ["https://down.example"; "https://up.example"]) ]%string;
     excludePatterns := None;
     contentTypeHints := None |}.

Definition two_sites_world : World :=
  with_sites {| _sites := Some two_sites |} initialized_world.

Definition down_env : Env := sample_env (String.eqb "https://down.example") false.

(** A configuration of sites without any site, loaded for a new session. *)
Definition no_sites : SitesData :=
  {| categories := [ ("general"%string, []) ];
     excludePatterns := None;
     contentTypeHints := None |}.

Definition no_sites_world : World :=
  with_sites {| _sites := Some no_sites |} fresh_world.

(** A session that has run and stopped. *)
Definition stopped_world : World :=
  on_session (with_state STOPPED) two_sites_world.

(** An outside world whose first navigation attempt times out. *)
Definition flaky_env : Env :=
  {| Date_now := fun t => 1000 * Z.of_nat t;
     Math_random := fun _ => 1 # 2;
     page_goto := fun _ t =>
       if (t =? 0)%nat then Throw "Navigation timeout of 30000 ms exceeded" else Ok 200;
     page_url := fun _ => "https://a.example/next"%string;
     browser_launch := fun _ => Ok tt;
     Sites_load := fun _ => Ok sample_sites;
     actions_hasCaptcha := fun _ => false;
     actions_getPageInfo := fun _ => None;
     actions_stayOnPage := fun _ _ => Ok sample_stay;
     actions_performSearch := fun _ =>
       Ok {| searched := false; search_engine := ""; search_query := "" |} |}.

(** An outside world like the sample one, whose sites file lists no site. *)
Definition empty_env : Env :=
  {| Date_now := fun t => 1000 * Z.of_nat t;
     Math_random := fun _ => 1 # 2;
     page_goto := fun _ _ => Ok 200;
     page_url := fun _ => "https://a.example/next"%string;
     browser_launch := fun _ => Ok tt;
     Sites_load := fun _ => Ok no_sites;
     actions_hasCaptcha := fun _ => false;
     actions_getPageInfo := fun _ => None;
     actions_stayOnPage := fun _ _ => Ok sample_stay;
     actions_performSearch := fun _ =>
       Ok {| searched := true; search_engine := "google";
             search_query := "news today" |} |}.

(** A session that has made a full run over the sample sites
    ([initialize()] then [start()]) and is initialized again after the sites
    file has been emptied. *)
Definition rerun_world : World :=
  snd (initialize empty_env
         (snd (bind (initialize (sample_env (fun _ => false) false))
                    (fun _ => start (sample_env (fun _ => false) false)
                                    (default_config false) ascii_toLowerCase
                                    literal_RegExp_i)
                    fresh_world))).

(** [start()] on that session. *)
Definition rerun_start : outcome unit * list Effect * World :=
  start empty_env (default_config false) ascii_toLowerCase literal_RegExp_i
        rerun_world.

(* ================================================================== *)
(** ** handlers/websocket.js: the control protocol *)

Module MessageType.
Definition COMMAND : string := "command".
Definition SUBSCRIBE : string := "subscribe".
Definition UNSUBSCRIBE : string := "unsubscribe".
Definition PING : string := "ping".
Definition RESPONSE : string := "response".
Definition EVENT : string := "event".
Definition ERROR : string := "error".
Definition PONG : string := "pong".
Definition WELCOME : string := "welcome".
End MessageType.

Module Commands.
Definition START : string := "start".
Definition STOP : string := "stop".
Definition PAUSE : string := "pause".
Definition RESUME : string := "resume".
Definition STATUS : string := "status".
Definition STATS : string := "stats".
Definition CONFIG : string := "config".
Definition SCREENSHOT : string := "screenshot".
Definition GOTO : string := "goto".
Definition LIST_CLIENTS : string := "list_clients".
End Commands.

(** The commands that need a session, and those that do not. *)
Definition session_commands : list string :=
  [Commands.START; Commands.STOP; Commands.PAUSE; Commands.RESUME;
   Commands.STATS; Commands.SCREENSHOT; Commands.GOTO].

(** [client.getInfo()] *)
Record ClientInfo : Type := {
  info_id : string;
  info_connectedAt : Z;
  info_lastActivity : Z;
  info_messageCount : Z;
  info_subscriptions : list string
}.

(** The [data] of a response. *)
Inductive ResponseData : Type :=
| D_null
| D_message (message : string)
| D_status (sessionState : string) (connectedClients : Z) (serverUptime : Q)
| D_stats (snapshot : StatsSnapshot)
| D_config (config : Configuration)
| D_screenshot (image mimeType : string)
| D_url (url : string)
| D_clients (clients : list ClientInfo).

(** A message of type [response]; [error] is present only after a throw. *)
Record Response : Type := {
  r_type : string;
  r_command : string;
  r_requestId : option string;
  r_success : bool;
  r_data : ResponseData;
  r_error : option string
}.

(** A connected client: [c_open] is [ws.readyState === WebSocket.OPEN],
    [c_sent] the messages handed to [ws.send], in order. *)
Record Client : Type := {
  c_id : string;
  c_open : bool;
  c_subscriptions : list string;
  c_connectedAt : Z;
  c_lastActivity : Z;
  c_messageCount : Z;
  c_sent : list Response
}.

(** [client.send(message)] *)
Definition Client_send (c : Client) (message : Response) : bool * Client :=
  if c_open c
  then (true,
        {| c_id := c_id c; c_open := c_open c;
           c_subscriptions := c_subscriptions c;
           c_connectedAt := c_connectedAt c; c_lastActivity := c_lastActivity c;
           c_messageCount := c_messageCount c;
           c_sent := c_sent c ++ [message] |})
  else (false, c).

Definition Client_getInfo (c : Client) : ClientInfo :=
  {| info_id := c_id c; info_connectedAt := c_connectedAt c;
     info_lastActivity := c_lastActivity c; info_messageCount := c_messageCount c;
     info_subscriptions := c_subscriptions c |}.

(** The attached session, as the handler uses it: what each of the methods
    it calls does when called.  [start()] is called without being awaited
    and its rejection is caught, so it has no part in the response. *)
Record AttachedSession : Type := {
  on_initialize : result bool;
  on_stop : result unit;
  on_pause : bool;
  on_resume : bool;
  on_getState : string;
  on_getStats : StatsSnapshot;
  on_screenshot : result string;
  on_browser_goto : string -> result unit
}.

Record WebSocketHandler : Type := {
  h_clients : list (string * Client);
  h_session : option AttachedSession
}.

(** The [data] of a command; [url] is absent or a string. *)
Record CommandData : Type := { data_url : option string }.

Section ControlProtocol.

Variable Config : ConfigManager.

(** [process.uptime()] *)
Variable process_uptime : Q.

(** [if (!this.session) throw new Error('No session attached')] *)
Definition require_session (h : WebSocketHandler) : result AttachedSession :=
  match h_session h with
  | Some s => Ok s
  | None => Throw "No session attached"
  end.

(** [data?.url], when it is truthy. *)
Definition url_of (data : option CommandData) : option string :=
  match data with
  | Some d => match data_url d with
              | Some EmptyString => None
              | u => u
              end
  | None => None
  end.

(** The [switch] of [_handleCommand]: the values of [response.success] and
    [response.data] when the branch ends, or the error it throws. *)
Definition run_command (h : WebSocketHandler) (command : string)
  (data : option CommandData) : result (bool * ResponseData) :=
  if String.eqb command Commands.START then
    match require_session h with
    | Throw e => Throw e
    | Ok s => match on_initialize s with
              | Throw e => Throw e
              | Ok _ => Ok (true, D_message "Session starting")
              end
    end
  else if String.eqb command Commands.STOP then
    match require_session h with
    | Throw e => Throw e
    | Ok s => match on_stop s with
              | Throw e => Throw e
              | Ok _ => Ok (true, D_message "Session stopped")
              end
    end
  else if String.eqb command Commands.PAUSE then
    match require_session h with
    | Throw e => Throw e
    | Ok s => let paused := on_pause s in
              Ok (paused, D_message (if paused then "Session paused" else "Cannot pause"))
    end
  else if String.eqb command Commands.RESUME then
    match require_session h with
    | Throw e => Throw e
    | Ok s => let resumed := on_resume s in
              Ok (resumed,
                  D_message (if resumed then "Session resumed" else "Cannot resume"))
    end
  else if String.eqb command Commands.STATUS then
    Ok (true,
        D_status (match h_session h with
                  | Some s => if String.eqb (on_getState s) "" then "no-session"
                              else on_getState s
                  | None => "no-session"
                  end)
                 (Z.of_nat (List.length (h_clients h)))
                 process_uptime)
  else if String.eqb command Commands.STATS then
    match require_session h with
    | Throw e => Throw e
    | Ok s => Ok (true, D_stats (on_getStats s))
    end
  else if String.eqb command Commands.CONFIG then
    match Config_get Config with
    | Throw e => Throw e
    | Ok config => Ok (true, D_config config)
    end
  else if String.eqb command Commands.SCREENSHOT then
    match require_session h with
    | Throw e => Throw e
    | Ok s => match on_screenshot s with
              | Throw e => Throw e
              | Ok image => Ok (true, D_screenshot image "image/png")
              end
    end
  else if String.eqb command Commands.GOTO then
    match require_session h with
    | Throw e => Throw e
    | Ok s =>
        match url_of data with
        | None => Throw "URL required"
        | Some url => match on_browser_goto s url with
                      | Throw e => Throw e
                      | Ok _ => Ok (true, D_url url)
                      end
        end
    end
  else if String.eqb command Commands.LIST_CLIENTS then
    Ok (true, D_clients (map (fun entry => Client_getInfo (snd entry)) (h_clients h)))
  else Throw ("Unknown command: " ++ command).

(** The response that [_handleCommand] builds. *)
Definition command_response (h : WebSocketHandler) (command : string)
  (data : option CommandData) (requestId : option string) : Response :=
  match run_command h command data with
  | Ok (success, d) =>
      {| r_type := MessageType.RESPONSE; r_command := command;
         r_requestId := requestId; r_success := success; r_data := d;
         r_error := None |}
  | Throw e =>
      {| r_type := MessageType.RESPONSE; r_command := command;
         r_requestId := requestId; r_success := false; r_data := D_null;
         r_error := Some e |}
  end.

(** [_handleCommand(client, command, data, requestId)]: the client after
    [client.send(response)]. *)
Definition _handleCommand (h : WebSocketHandler) (client : Client)
  (command : string) (data : option CommandData) (requestId : option string)
  : Client :=
  snd (Client_send client (command_response h command data requestId)).

End ControlProtocol.

(** A client with an open connection, and a handler that knows it and has
    no session. *)
Definition sample_client : Client :=
  {| c_id := "3f2a9c01be"; c_open := true; c_subscriptions := ["*"%string];
     c_connectedAt := 0; c_lastActivity := 0; c_messageCount := 1; c_sent := [] |}.

Definition detached_handler : WebSocketHandler :=
  {| h_clients := [("3f2a9c01be"%string, sample_client)]; h_session := None |}.

(* ================================================================== *)
(** ** utils/random.js: picking, weights, delays, mouse paths, profiles *)


(** [array.slice(0, end)] for an integer [end]; a negative [end] counts
    from the end of the array. *)
Definition Array_slice0 {A} (array : list A) (e : Z) : list A :=
  if e <? 0 then firstn (Z.to_nat (Z.of_nat (List.length array) + e)) array
  else firstn (Z.to_nat e) array.

(** [Math.round] *)
Definition Math_round (x : Q) : Z := Qfloor (x + (1 # 2)).

(** An item of [Random.weighted]: [{ value, weight }], the weight being
    optional. *)
Record Weighted (A : Type) : Type := {
  item_value : A;
  item_weight : option Q
}.
Arguments item_value {A} _.
Arguments item_weight {A} _.

(** [item.weight || 1]: an absent or zero weight counts as 1. *)
Definition weight_or_1 {A} (item : Weighted A) : Q :=
  match item_weight item with
  | Some w => if Qeq_bool w 0 then 1%Q else w
  | None => 1%Q
  end.

(** *** Rounding

    The numbers of the code are doubles: an arithmetic operation returns
    its exact result rounded to a double, and a decimal literal is the
    double nearest to it.  Where a result depends on that rounding, the
    definitions take the rounding [fl] as an argument and apply it at every
    operation and literal of the source that is not exact.  What is proved
    of them is proved for every [fl] that is monotone and leaves a rounded
    value as it is, as rounding to the nearest double does. *)

(** A rounding to run the definitions on: to the nearest multiple of
    [1/k], halves upwards. *)
Definition round_to (k : positive) (x : Q) : Q :=
  Math_round (x * inject_Z (Zpos k)) # k.

(** [items.reduce((sum, item) => sum + (item.weight || 1), 0)] *)
Definition total_weight {A} (fl : Q -> Q) (items : list (Weighted A)) : Q :=
  fold_left (fun sum item => fl (sum + weight_or_1 item)%Q) items 0%Q.

(** The [for] loop of [Random.weighted]; [None] when it falls through. *)
Fixpoint weighted_loop {A} (fl : Q -> Q) (items : list (Weighted A)) (random : Q)
  : option A :=
  match items with
  | [] => None
  | item :: rest =>
      let random := fl (random - weight_or_1 item)%Q in
      if Qle_bool random 0 then Some (item_value item)
      else weighted_loop fl rest random
  end.

(** The table of [Timing.pageStayDuration]. *)
Record StayRange : Type := { range_min : Q; range_max : Q; range_mean : Q }.

Definition durations : JSObject StayRange :=
  [ ("homepage", {| range_min := 5000; range_max := 30000; range_mean := 15000 |});
    ("article", {| range_min := 15000; range_max := 180000; range_mean := 60000 |});
    ("search", {| range_min := 3000; range_max := 20000; range_mean := 8000 |});
    ("video", {| range_min := 30000; range_max := 300000; range_mean := 120000 |});
    ("social", {| range_min := 10000; range_max := 120000; range_mean := 45000 |});
    ("shopping", {| range_min := 20000; range_max := 180000; range_mean := 60000 |});
    ("form", {| range_min := 30000; range_max := 300000; range_mean := 90000 |});
    ("quick", {| range_min := 2000; range_max := 10000; range_mean := 5000 |})
  ]%string.

Definition durations_article : StayRange :=
  {| range_min := 15000; range_max := 180000; range_mean := 60000 |}.

(** The names that every object literal inherits from [Object.prototype]:
    a lookup of one of them in [durations] finds the inherited member, which
    is truthy and has no [min], [max] or [mean]. *)
Definition Object_prototype_names : list string :=
  [ "constructor"; "__defineGetter__"; "__defineSetter__"; "hasOwnProperty";
    "__lookupGetter__"; "__lookupSetter__"; "isPrototypeOf";
    "propertyIsEnumerable"; "toString"; "valueOf"; "__proto__";
    "toLocaleString" ]%string.

(** The [linkData] argument of [Behavior.shouldClickLink]; a missing
    [textLength] makes both of its comparisons false. *)
Record LinkData : Type := {
  isNavigation : bool;
  isInternal : bool;
  hasImage : bool;
  isAboveFold : bool;
  textLength : option Q;
  isExternal : bool;
  isAd : bool;
  isSocial : bool
}.

(** The probability that [shouldClickLink] accumulates before clamping. *)
Definition click_probability (fl : Q -> Q) (linkData : LinkData) : Q :=
  let probability := fl (3 # 10) in
  let probability :=
    if isNavigation linkData then fl (probability + fl (2 # 10))%Q else probability in
  let probability :=
    if isInternal linkData then fl (probability + fl (15 # 100))%Q else probability in
  let probability :=
    if hasImage linkData then fl (probability + fl (1 # 10))%Q else probability in
  let probability :=
    if isAboveFold linkData then fl (probability + fl (15 # 100))%Q else probability in
  let probability :=
    match textLength linkData with
    | Some n => if Qltb 20 n && Qltb n 100
                then fl (probability + fl (1 # 10))%Q else probability
    | None => probability
    end in
  let probability :=
    if isExternal linkData then fl (probability - fl (2 # 10))%Q else probability in
  let probability :=
    if isAd linkData then fl (probability - fl (4 # 10))%Q else probability in
  if isSocial linkData then fl (probability - fl (1 # 10))%Q else probability.



(** The object returned by [Behavior.generateSessionProfile]. *)
Record SessionProfile : Type := {
  userType : option string;
  speedMultiplier : Q;
  engagement : Q;
  clickTendency : Q;
  scrollDepth : option string;
  attentionSpan : option string
}.

Definition userType_items : list (Weighted string) :=
  [ {| item_value := "casual"; item_weight := Some 50%Q |};
    {| item_value := "focused"; item_weight := Some 30%Q |};
    {| item_value := "scanner"; item_weight := Some 15%Q |};
    {| item_value := "researcher"; item_weight := Some 5%Q |} ]%string.

Definition scrollDepth_items : list (Weighted string) :=
  [ {| item_value := "shallow"; item_weight := Some 30%Q |};
    {| item_value := "medium"; item_weight := Some 45%Q |};
    {| item_value := "deep"; item_weight := Some 25%Q |} ]%string.

Definition attentionSpan_items : list (Weighted string) :=
  [ {| item_value := "short"; item_weight := Some 25%Q |};
    {| item_value := "medium"; item_weight := Some 50%Q |};
    {| item_value := "long"; item_weight := Some 25%Q |} ]%string.

Section RandomSamplers.

Variable rng : nat -> Q.
Variable M : MathFns.
Variable fl : Q -> Q.

Local Open Scope rand_scope.

(** [Random.float(min, max, rng)] with its rounding: of the difference, of
    the product and of the sum. *)
Definition Random_float_rounded (min max : Q) : Rand Q :=
  u <- rng_next rng ;;
  rret (fl (fl (u * fl (max - min)) + min))%Q.


(** [Random.pickMultiple(array, count, rng)] *)
Definition Random_pickMultiple {A} (array : list A) (count : Z) : Rand (list A) :=
  match array with
  | [] => rret []
  | _ =>
      shuffled <- Random_shuffle rng array ;;
      rret (Array_slice0 shuffled (Z.min count (Z.of_nat (List.length array))))
  end.

(** [Random.weighted(items, rng)] *)
Definition Random_weighted {A} (items : list (Weighted A)) : Rand (option A) :=
  match items with
  | [] => rret None
  | _ =>
      let totalWeight := total_weight fl items in
      u <- rng_next rng ;;
      rret (match weighted_loop fl items (fl (u * totalWeight)) with
            | Some v => Some v
            | None =>
                option_map item_value (nth_error items (List.length items - 1))
            end)
  end.

(** [Timing.humanDelay(minMs, maxMs, rng)] *)
Definition Timing_humanDelay (fuel : nat) (minMs maxMs : Q) (p : nat)
  : option (Z * nat) :=
  let mean := ((minMs + maxMs) / 2)%Q in
  let stdDev := ((maxMs - minMs) / 4)%Q in
  match Distribution_gaussianBounded rng M fuel (mean * (8 # 10)) stdDev
                                     minMs maxMs p with
  | Some (v, p1) => Some (Math_round v, p1)
  | None => None
  end.


(** [Timing.typingDelay(rng)] *)
Definition Timing_typingDelay (fuel : nat) (p : nat) : option (Q * nat) :=
  let '(thinking, p1) := Random_bool rng (1 # 10) p in
  if thinking
  then let '(v, p2) := Random_int rng 300 800 p1 in Some (inject_Z v, p2)
  else Distribution_gaussianBounded rng M fuel 100 40 30 250 p1.

(** [Timing.pageStayDuration(contentType, rng)].  The inner [None] is
    [NaN], the result for a content type that names a member of
    [Object.prototype]: the sampler is then called with [undefined] bounds
    and makes its draws all the same. *)
Definition Timing_pageStayDuration (fuel : nat) (contentType : string) (p : nat)
  : option (option Z * nat) :=
  if includes Object_prototype_names contentType
  then
    match gaussian_draws rng fuel p with
    | Some (_, _, p1) => Some (None, p1)
    | None => None
    end
  else
    let config :=
      match js_get durations contentType with
      | Some c => c
      | None => durations_article
      end in
    let stdDev := ((range_max config - range_min config) / 4)%Q in
    match Distribution_gaussianBounded rng M fuel (range_mean config) stdDev
                                       (range_min config) (range_max config) p with
    | Some (v, p1) => Some (Some (Math_round v), p1)
    | None => None
    end.

(** [Behavior.shouldClickLink(linkData, rng)] *)
Definition Behavior_shouldClickLink (linkData : LinkData) : Rand bool :=
  Random_bool rng (Math_min (fl (8 # 10))
                            (Math_max (fl (5 # 100)) (click_probability fl linkData))).




(** [Behavior.generateSessionProfile(rng)] *)
Definition Behavior_generateSessionProfile (fuel : nat) (p : nat)
  : option (SessionProfile * nat) :=
  let '(type, p) := Random_weighted userType_items p in
  match Distribution_gaussianBounded rng M fuel 1 (fl (3 # 10)) (5 # 10) 2 p with
  | None => None
  | Some (speed, p) =>
      let '(e, p) := Random_float_rounded (fl (3 # 10)) 1 p in
      let '(c, p) := Random_float_rounded (fl (2 # 10)) (fl (8 # 10)) p in
      let '(depth, p) := Random_weighted scrollDepth_items p in
      let '(span, p) := Random_weighted attentionSpan_items p in
      Some ({| userType := type; speedMultiplier := speed; engagement := e;
               clickTendency := c; scrollDepth := depth; attentionSpan := span |},
            p)
  end.

End RandomSamplers.

(** *** Observations on a weighted pick *)

(** The number of items that the loop of [Random.weighted] passes over
    before it returns. *)
Fixpoint weighted_passed {A} (fl : Q -> Q) (items : list (Weighted A)) (random : Q)
  : nat :=
  match items with
  | [] => 0%nat
  | item :: rest =>
      let random := fl (random - weight_or_1 item)%Q in
      if Qle_bool random 0 then 0%nat else S (weighted_passed fl rest random)
  end.

(** The index of the item that [Random.weighted] returns at the draw [u]:
    the last one when the loop falls through. *)
Definition weighted_index {A} (fl : Q -> Q) (items : list (Weighted A)) (u : Q) : nat :=
  Nat.min (weighted_passed fl items (fl (u * total_weight fl items)%Q))
          (List.length items - 1).

(** *** Observations on a scroll pattern *)

(** A continuous path of scroll actions from the offset [y]: every action
    starts where the one before it ended. *)
Fixpoint chained (y : Q) (actions : list ScrollAction) : Prop :=
  match actions with
  | [] => True
  | a :: rest => sa_from a = y /\ chained (sa_to a) rest
  end.

(** The offset that the actions lead to, from [y]. *)
Definition path_end (y : Q) (actions : list ScrollAction) : Q :=
  fold_left (fun _ a => sa_to a) actions y.

(** The ranges of the duration and of the pause of an action. *)
Definition scroll_timing_ok (a : ScrollAction) : Prop :=
  match sa_type a with
  | scroll =>
      200 <= sa_duration a <= 600
      /\ (100 <= sa_pause a <= 500 \/ 800 <= sa_pause a <= 3000)
  | scrollToTop =>
      500 <= sa_duration a <= 1000 /\ 1000 <= sa_pause a <= 3000
  end.

(* ================================================================== *)
(** ** core/session.js: pause, resume, stop, statistics *)

Definition with_isPaused (b : bool) (s : SessionManager) : SessionManager :=
  {| browser := browser s; actions := actions s; state := state s;
     stats := stats s; _shouldStop := _shouldStop s; _isPaused := b;
     _currentSite := _currentSite s; _siteQueue := _siteQueue s |}.

Definition with_shouldStop (b : bool) (s : SessionManager) : SessionManager :=
  {| browser := browser s; actions := actions s; state := state s;
     stats := stats s; _shouldStop := b; _isPaused := _isPaused s;
     _currentSite := _currentSite s; _siteQueue := _siteQueue s |}.

(** The events that the control methods emit. *)
Inductive ControlEvent : Type :=
| K_stateChange (st : SessionState)
| K_paused
| K_resumed
| K_stopped (snapshot : StatsSnapshot).

(** [pause()].  The flag [_isPaused] stands for the pause promise as well:
    [pause()] creates the promise when it sets the flag, [resume()]
    resolves and drops it when it clears the flag, and nothing else writes
    either. *)
Definition pause (s : SessionManager) : bool * list ControlEvent * SessionManager :=
  if negb (SessionState_eqb (state s) RUNNING) then (false, [], s)
  else (true, [K_stateChange PAUSED; K_paused],
        with_state PAUSED (with_isPaused true s)).

(** [resume()] *)
Definition resume (s : SessionManager) : bool * list ControlEvent * SessionManager :=
  if negb (SessionState_eqb (state s) PAUSED) then (false, [], s)
  else (true, [K_stateChange RUNNING; K_resumed],
        with_state RUNNING (with_isPaused false s)).

(** [BrowserController.close()]: it catches the error of the browser's own
    [close()] and drops the page. *)
Definition BrowserController_close (b : BrowserController) : BrowserController :=
  {| page_attached := false |}.

(** The object that [getStats()] builds when the clock reads [now]. *)
Definition getStats_at (now : Z) (s : SessionManager) : StatsSnapshot :=
  let duration :=
    match startTime (stats s) with
    | Some t0 => match endTime (stats s) with
                 | Some t1 => t1 - t0
                 | None => now - t0
                 end
    | None => 0
    end in
  {| snap_stats := stats s; snap_duration := duration;
     snap_state := state s; snap_currentSite := _currentSite s;
     snap_remainingSites :=
       Z.of_nat (List.length (_siteQueue s)) - sitesVisited (stats s) |}.

(** [stop()], with the two readings of the clock that it makes (for
    [stats.endTime] and inside [getStats()]).  What other turns of the event
    loop do while it awaits [browser.close()] is not part of it. *)
Definition stop (now now' : Z) (s : SessionManager)
  : list ControlEvent * SessionManager :=
  if SessionState_eqb (state s) STOPPED || SessionState_eqb (state s) STOPPING
  then ([], s)
  else
    let s1 := with_state STOPPING (with_shouldStop true s) in
    let '(_, resumed, s2) :=
      if _isPaused s1 then resume s1 else (false, [], s1) in
    let s3 :=
      match browser s2 with
      | Some b => with_browser (Some (BrowserController_close b)) s2
      | None => s2
      end in
    let s4 := with_state STOPPED (with_stats (set_endTime (Some now)) s3) in
    ([K_stateChange STOPPING] ++ resumed
     ++ [K_stateChange STOPPED; K_stopped (getStats_at now' s4)],
     s4).

(** [isRunning()], [isPaused()] *)
Definition isRunning (s : SessionManager) : bool := SessionState_eqb (state s) RUNNING.
Definition isPaused (s : SessionManager) : bool := SessionState_eqb (state s) PAUSED.

(** [BrowserController.screenshot()], [capture] being what
    [page.screenshot] does. *)
Definition BrowserController_screenshot (capture : result string)
  (b : BrowserController) : result string :=
  if page_attached b then capture else Throw "No active page".

(** [SessionManager.screenshot()] *)
Definition screenshot (capture : result string) (s : SessionManager)
  : result string :=
  match browser s with
  | None => Throw "Browser not initialized"
  | Some b => BrowserController_screenshot capture b
  end.

From Stdlib Require DecimalString.

(** [String(n)] for an integer, as a template literal prints it. *)
Definition Number_toString (n : Z) : string :=
  DecimalString.NilZero.string_of_int (Z.to_int n).

(** [_formatDuration(ms)], for an integer number of milliseconds;
    [Math.floor] of a quotient is [Z.div] and [%] is [Z.rem]. *)
Definition _formatDuration (ms : Z) : string :=
  let seconds := ms / 1000 in
  let minutes := seconds / 60 in
  let hours := minutes / 60 in
  if hours >? 0
  then (Number_toString hours ++ "h " ++ Number_toString (Z.rem minutes 60) ++ "m "
        ++ Number_toString (Z.rem seconds 60) ++ "s")%string
  else if minutes >? 0
  then (Number_toString minutes ++ "m " ++ Number_toString (Z.rem seconds 60) ++ "s")%string
  else (Number_toString seconds ++ "s")%string.

(* ================================================================== *)
(** ** utils/config.js: [validateConfig] *)

(** The parts of the configuration that [validateConfig] reads and the
    session does not. *)
Record BrowserAndSocketConfig : Type := {
  viewport_width : Z;
  viewport_height : Z;
  websocket_enabled : bool;
  websocket_port : Z
}.

Record Validation : Type := {
  v_errors : list string;
  v_warnings : list string;
  valid : bool
}.

(** [errors.push(m)] under a condition. *)
Definition push_if (c : bool) (m : string) (l : list string) : list string :=
  if c then l ++ [m] else l.

(** [validateConfig(config)] *)
Definition validateConfig (config : Configuration) (rest : BrowserAndSocketConfig)
  : Validation :=
  let errors := [] in
  let warnings := [] in
  let errors :=
    push_if (minStay (timing config) >? maxStay (timing config))
            "timing.minStay cannot be greater than timing.maxStay" errors in
  let errors :=
    push_if (minWait (timing config) >? maxWait (timing config))
            "timing.minWait cannot be greater than timing.maxWait" errors in
  let warnings :=
    push_if (minStay (timing config) <? 1)
            "timing.minStay less than 1 second may trigger bot detection" warnings in
  let warnings :=
    push_if (viewport_width rest <? 800)
            "Viewport width less than 800px may trigger bot detection" warnings in
  let warnings :=
    push_if (viewport_height rest <? 600)
            "Viewport height less than 600px may trigger bot detection" warnings in
  let warnings :=
    push_if (maxDepth (behavior config) >? 5)
            "maxDepth greater than 5 may cause very long sessions" warnings in
  let warnings :=
    push_if (websocket_enabled rest && (websocket_port rest <? 1024))
            "WebSocket port below 1024 may require elevated permissions" warnings in
  {| v_errors := errors; v_warnings := warnings;
     valid := (List.length errors =? 0)%nat |}.

(** The default viewport and WebSocket settings of [DEFAULT_CONFIG]. *)
Definition default_rest : BrowserAndSocketConfig :=
  {| viewport_width := 1366; viewport_height := 768;
     websocket_enabled := false; websocket_port := 8765 |}.

(** A session that is visiting its queue. *)
Definition running_session : SessionManager :=
  with_state RUNNING
    (with_stats (set_startTime (Some 1000))
       (with_siteQueue ["https://a.example"; "https://b.example"]%string
          (w_session initialized_world))).

(** The same session after [pause()]. *)
Definition paused_session : SessionManager := snd (pause running_session).

(** The world after the [start] command has run once over the sample
    sites. *)
Definition first_run_world : World :=
  snd (bind (initialize down_env)
            (fun _ => start down_env (default_config false) ascii_toLowerCase
                            literal_RegExp_i)
            fresh_world).

(** The [searchPerformed] events among the effects. *)
Definition is_searchPerformed (e : Effect) : bool :=
  match e with Emit (E_searchPerformed _) => true | _ => false end.

(** A computation that adds between 0 and [n] to [pagesViewed], however it
    ends. *)
Definition pages_within {A} (n : Z) (c : Run A) : Prop :=
  forall w,
    let '(_, _, w') := c w in
    pagesViewed (stats (w_session w)) <= pagesViewed (stats (w_session w'))
    <= pagesViewed (stats (w_session w)) + n.

(* ================================================================== *)
(** ** handlers/websocket.js: subscriptions and broadcast *)

Module EventTypes.
Definition STATE_CHANGE : string := "stateChange".
Definition SITE_START : string := "siteStart".
Definition SITE_COMPLETE : string := "siteComplete".
Definition SITE_FAILED : string := "siteFailed".
Definition SEARCH_PERFORMED : string := "searchPerformed".
Definition PAGE_VISITED : string := "pageVisited".
Definition ERROR : string := "error".
Definition STATS_UPDATE : string := "statsUpdate".
Definition ALL : string := "*".
End EventTypes.

(** [Object.values(EventTypes)] *)
Definition EventTypes_values : list string :=
  [EventTypes.STATE_CHANGE; EventTypes.SITE_START; EventTypes.SITE_COMPLETE;
   EventTypes.SITE_FAILED; EventTypes.SEARCH_PERFORMED; EventTypes.PAGE_VISITED;
   EventTypes.ERROR; EventTypes.STATS_UPDATE; EventTypes.ALL].

(** The session events that [attachSession] forwards to [broadcast]. *)
Definition sessionEvents : list string :=
  [ "stateChange"; "siteStart"; "siteComplete"; "siteFailed"; "searchPerformed";
    "pageVisited"; "error"; "paused"; "resumed"; "started"; "stopped";
    "completed" ]%string.

(** A [Set] of strings, in insertion order: [add] and [delete]. *)
Definition Set_add (x : string) (s : list string) : list string :=
  if includes s x then s else s ++ [x].

Definition Set_delete (x : string) (s : list string) : list string :=
  filter (fun y => negb (String.eqb y x)) s.

Definition with_subscriptions (l : list string) (c : Client) : Client :=
  {| c_id := c_id c; c_open := c_open c; c_subscriptions := l;
     c_connectedAt := c_connectedAt c; c_lastActivity := c_lastActivity c;
     c_messageCount := c_messageCount c; c_sent := c_sent c |}.

(** [client.subscribe(eventType)], [client.unsubscribe(eventType)] *)
Definition Client_subscribe (c : Client) (eventType : string) : Client :=
  with_subscriptions (Set_add eventType (c_subscriptions c)) c.

Definition Client_unsubscribe (c : Client) (eventType : string) : Client :=
  with_subscriptions (Set_delete eventType (c_subscriptions c)) c.

(** [client.isSubscribed(eventType)] *)
Definition Client_isSubscribed (c : Client) (eventType : string) : bool :=
  includes (c_subscriptions c) eventType
  || includes (c_subscriptions c) EventTypes.ALL.

(** The [data] of a [subscribe] or [unsubscribe] message: [events] when it
    is an array (of strings), [event] when it is present. *)
Record SubscriptionData : Type := {
  data_events : option (list string);
  data_event : option string
}.

(** The response to a [subscribe] or [unsubscribe] message. *)
Record SubscriptionResponse : Type := {
  sub_type : string;
  sub_command : string;
  sub_requestId : option string;
  sub_success : bool;
  sub_subscriptions : list string
}.

(** [Array.isArray(data?.events) ? data.events : [data?.event || '*']] *)
Definition subscribe_events (data : option SubscriptionData) : list string :=
  match data with
  | Some d =>
      match data_events d with
      | Some events => events
      | None =>
          [ match data_event d with
            | Some EmptyString => EventTypes.ALL
            | Some event => event
            | None => EventTypes.ALL
            end ]
      end
  | None => [EventTypes.ALL]
  end.

(** [Array.isArray(data?.events) ? data.events : [data?.event]]; [None] is
    [undefined]. *)
Definition unsubscribe_events (data : option SubscriptionData)
  : list (option string) :=
  match data with
  | Some d =>
      match data_events d with
      | Some events => map Some events
      | None => [data_event d]
      end
  | None => [None]
  end.

(** What [client.send(message)] hands to the socket for such a response;
    nothing when the socket is not open. *)
Definition send_subscriptions (c : Client) (command : string)
  (requestId : option string) : option SubscriptionResponse :=
  if c_open c
  then Some {| sub_type := MessageType.RESPONSE; sub_command := command;
               sub_requestId := requestId; sub_success := true;
               sub_subscriptions := c_subscriptions c |}
  else None.

(** [_handleSubscribe(client, data, requestId)]: the client afterwards and
    the response sent. *)
Definition _handleSubscribe (client : Client) (data : option SubscriptionData)
  (requestId : option string) : Client * option SubscriptionResponse :=
  let client :=
    fold_left (fun c event =>
                 if includes EventTypes_values event
                 then Client_subscribe c event else c)
              (subscribe_events data) client in
  (client, send_subscriptions client "subscribe" requestId).

(** [_handleUnsubscribe(client, data, requestId)] *)
Definition _handleUnsubscribe (client : Client) (data : option SubscriptionData)
  (requestId : option string) : Client * option SubscriptionResponse :=
  let client :=
    fold_left (fun c event =>
                 match event with
                 | Some e => Client_unsubscribe c e
                 | None => c
                 end)
              (unsubscribe_events data) client in
  (client, send_subscriptions client "unsubscribe" requestId).

(** [broadcast(eventType, data)]: the identifiers of the clients whose
    socket was handed the event message, in the order of the map, and the
    count [sent]. *)
Definition broadcast (h : WebSocketHandler) (eventType : string)
  : list string * Z :=
  let recipients :=
    filter (fun entry =>
              Client_isSubscribed (snd entry) eventType && c_open (snd entry))
           (h_clients h) in
  (map fst recipients, Z.of_nat (List.length recipients)).

(** [sendTo(clientId, message)]: whether the message was handed to the
    socket of that client. *)
Definition sendTo (h : WebSocketHandler) (clientId : string) : bool :=
  match js_get (h_clients h) clientId with
  | Some client => c_open client
  | None => false
  end.

(** One tick of the heartbeat: the clients that are pinged, and the handler
    without the others. *)
Definition heartbeat (h : WebSocketHandler) : list string * WebSocketHandler :=
  (map fst (filter (fun entry => c_open (snd entry)) (h_clients h)),
   {| h_clients := filter (fun entry => c_open (snd entry)) (h_clients h);
      h_session := h_session h |}).

(** A client that follows the failures only, one that follows everything,
    and one whose socket has closed. *)
Definition failures_client : Client :=
  {| c_id := "aa01"; c_open := true; c_subscriptions := ["siteFailed"%string];
     c_connectedAt := 0; c_lastActivity := 0; c_messageCount := 1; c_sent := [] |}.

Definition closed_client : Client :=
  {| c_id := "cc03"; c_open := false; c_subscriptions := ["*"%string];
     c_connectedAt := 0; c_lastActivity := 0; c_messageCount := 1; c_sent := [] |}.

Definition three_clients : WebSocketHandler :=
  {| h_clients := [ ("aa01"%string, failures_client);
                    ("3f2a9c01be"%string, sample_client);
                    ("cc03"%string, closed_client) ];
     h_session := None |}.

(* ================================================================== *)
(** ** utils/sites.js: [addSites] *)

(** [o[k] = v] on an object: the value of an existing key is replaced in
    place, a new key comes last. *)
Fixpoint js_set {V} (o : JSObject V) (k : string) (v : V) : JSObject V :=
  match o with
  | [] => [(k, v)]
  | (k', v') :: r =>
      if String.eqb k' k then (k', v) :: r else (k', v') :: js_set r k v
  end.

(** The [sites] argument of [addSites]: one URL or an array of URLs. *)
Inductive SitesArgument : Type :=
| one_site (site : string)
| several_sites (sites : list string).

(** The configuration that [addSites] creates when none is loaded. *)
Definition created_sites : SitesData :=
  {| categories := []; excludePatterns := None; contentTypeHints := None |}.

(** [addSites(category, sites)]: the manager after the call, and how the
    call ends.  [_sites] is created first when there is none.  The lookup
    [categories[category]] finds the list of an own category; for a missing
    category whose name is that of a member of [Object.prototype] it finds
    that inherited member, which is truthy, so that no list is created and
    the call of its [push] is a [TypeError]; any other missing category is
    created empty. *)
Definition addSites (mgr : SitesManager) (category : string)
  (sites : SitesArgument) : SitesManager * result unit :=
  let data :=
    match _sites mgr with
    | Some data => data
    | None => created_sites
    end in
  let newSites :=
    match sites with
    | one_site s => [s]
    | several_sites l => l
    end in
  let merged existing :=
    ({| _sites :=
          Some {| categories :=
                    js_set (categories data) category
                           (set_spread [] (existing ++ newSites));
                  excludePatterns := excludePatterns data;
                  contentTypeHints := contentTypeHints data |} |},
     Ok tt) in
  match js_get (categories data) category with
  | Some existing => merged existing
  | None =>
      if includes Object_prototype_names category
      then ({| _sites := Some data |},
            Throw "this._sites.categories[category].push is not a function")
      else merged []
  end.

(** The own category of that name, if the configuration has one. *)
Definition own_category (mgr : SitesManager) (category : string)
  : option (list string) :=
  match _sites mgr with
  | Some data => js_get (categories data) category
  | None => None
  end.

(** The sites listed under a category, none when the category or the
    configuration is missing; the URLs of an argument. *)
Definition category_sites (mgr : SitesManager) (category : string) : list string :=
  match own_category mgr category with
  | Some l => l
  | None => []
  end.

Definition argument_sites (sites : SitesArgument) : list string :=
  match sites with
  | one_site s => [s]
  | several_sites l => l
  end.

(** A configuration with a category named [constructor] of its own. *)
Definition shadowing_sites : SitesData :=
  {| categories := [ ("constructor", ["https://a.example"]) ]%string;
     excludePatterns := None;
     contentTypeHints := None |}.

(* ================================================================== *)
(** * Properties *)

(** ** 32-bit operators *)

Section JS32Facts.
Import JS32.

Lemma ToInt32_range z : - two31 <= ToInt32 z < two31.
Proof.
  unfold ToInt32.
  pose proof (Z.mod_pos_bound (z + two31) two32 eq_refl) as H.
  unfold two31, two32 in *. lia.
Qed.

Lemma ToUint32_range z : 0 <= ToUint32 z < two32.
Proof. unfold ToUint32. apply Z.mod_pos_bound. reflexivity. Qed.

Lemma ToInt32_add_l a b : ToInt32 (ToInt32 a + b) = ToInt32 (a + b).
Proof.
  unfold ToInt32. f_equal.
  replace ((a + two31) mod two32 - two31 + b + two31)
    with ((a + two31) mod two32 + b) by lia.
  rewrite Zplus_mod_idemp_l. f_equal. lia.
Qed.

Lemma or32_0_r a : or32 a 0 = ToInt32 a.
Proof. unfold or32. change (ToInt32 0) with 0. apply Z.lor_0_r. Qed.

Lemma ushr32_0_range a : 0 <= ushr32 a 0 < two32.
Proof. unfold ushr32. rewrite Z.shiftr_0_r. apply ToUint32_range. Qed.

End JS32Facts.

(** ** [SeededRandom] *)

Section SeededRandomFacts.
Import JS32 SeededRandom.

Lemma advance_closed st : advance st = ToInt32 (st + weyl).
Proof. unfold advance. rewrite !or32_0_r. apply ToInt32_add_l. Qed.

Lemma draw_closed k : forall r,
  draw r k =
  (inject_Z (scramble (ToInt32 (state r + Z.of_nat (S k) * weyl))) / inject_Z two32)%Q.
Proof.
  induction k as [|k IH]; intros r.
  - cbn [draw next fst]. rewrite advance_closed.
    replace (state r + Z.of_nat 1 * weyl) with (state r + weyl) by lia.
    reflexivity.
  - cbn [draw]. rewrite IH. cbn [next snd state].
    rewrite advance_closed, ToInt32_add_l.
    replace (state r + weyl + Z.of_nat (S k) * weyl)
      with (state r + Z.of_nat (S (S k)) * weyl) by lia.
    reflexivity.
Qed.

Lemma draws_spec k : forall r, fst (draws k r) = map (draw r) (seq 0 k).
Proof.
  induction k as [|k IH]; intros r; [reflexivity|].
  cbn [draws]. destruct (next r) as [u r1] eqn:En.
  specialize (IH r1). destruct (draws k r1) as [us r2]. cbn [fst] in *.
  cbn [seq map]. rewrite <- seq_shift, map_map.
  cbn [draw]. rewrite En. cbn [fst snd]. now rewrite IH.
Qed.

Lemma unit_interval_of_uint32 n :
  0 <= n < two32 -> (0 <= inject_Z n / inject_Z two32 < 1)%Q.
Proof.
  intros [H0 H1]. unfold Qdiv, Qmult, Qinv, Qle, Qlt, inject_Z, two32 in *.
  cbn. lia.
Qed.

Lemma draw_range r k : (0 <= draw r k < 1)%Q.
Proof.
  rewrite draw_closed. apply unit_interval_of_uint32.
  unfold scramble. apply ushr32_0_range.
Qed.

Lemma seed_after_draws k : forall r, seed (snd (draws k r)) = seed r.
Proof.
  induction k as [|k IH]; intros r; [reflexivity|].
  cbn [draws]. unfold next at 1.
  specialize (IH {| seed := seed r; state := advance (state r) |}).
  destruct (draws k _) as [us r2]. exact IH.
Qed.

(** C3. Two instances constructed with the same seed give the same sequence
    of draws: call number [k] returns a value that depends on the seed and
    on [k] only (it is the scrambled Weyl state [seed + (k+1) * 0x6D2B79F5]
    wrapped to 32 bits); an instance re-seeded with [setSeed] or rewound
    with [reset()] replays that sequence whatever was drawn before; and
    every draw lies in [0, 1). *)
Theorem seeded_random_reproducible (s : Z) (n : nat) :
  (forall k,
      draw (new s) k =
      (inject_Z (scramble (ToInt32 (s + Z.of_nat (S k) * weyl))) / inject_Z two32)%Q)
  /\ fst (draws n (new s)) = map (draw (new s)) (seq 0 n)
  /\ (forall s0 j, fst (draws n (setSeed (snd (draws j (new s0))) s))
                   = fst (draws n (new s)))
  /\ (forall j, fst (draws n (reset (snd (draws j (new s))))) = fst (draws n (new s)))
  /\ Forall (fun u => 0 <= u < 1)%Q (fst (draws n (new s))).
Proof.
  split; [intro k; apply draw_closed|].
  split; [apply draws_spec|].
  split; [reflexivity|].
  split.
  - intro j. unfold reset. rewrite seed_after_draws. reflexivity.
  - rewrite draws_spec. apply Forall_forall. intros u Hu.
    apply in_map_iff in Hu. destruct Hu as [k [<- _]]. apply draw_range.
Qed.

End SeededRandomFacts.

(** ** Numbers: comparisons, [Math.max], [Math.min], [Math.floor] *)

Lemma Qle_bool_false a b : Qle_bool a b = false -> (b < a)%Q.
Proof.
  intro H. apply Qnot_le_lt. intro Hle.
  apply Qle_bool_iff in Hle. congruence.
Qed.

Lemma Qltb_true a b : Qltb a b = true <-> (a < b)%Q.
Proof.
  unfold Qltb. split.
  - intro H. apply negb_true_iff in H. now apply Qle_bool_false.
  - intro H. apply negb_true_iff. destruct (Qle_bool b a) eqn:E; [|reflexivity].
    apply Qle_bool_iff in E. exfalso. lra.
Qed.

Lemma Qltb_false a b : Qltb a b = false <-> (b <= a)%Q.
Proof.
  unfold Qltb. rewrite negb_false_iff. apply Qle_bool_iff.
Qed.

(** Case analysis on every comparison met in the goal, innermost first. *)
Ltac qcases :=
  repeat match goal with
  | |- context [Qle_bool ?a ?b] =>
      lazymatch a with
      | context [Qle_bool _ _] => fail
      | _ =>
        lazymatch b with
        | context [Qle_bool _ _] => fail
        | _ =>
          let E := fresh "E" in
          destruct (Qle_bool a b) eqn:E;
          [apply Qle_bool_iff in E | apply Qle_bool_false in E]
        end
      end
  end.


Lemma Math_min_ub a b : (Math_min a b <= a)%Q.
Proof. unfold Math_min. qcases; lra. Qed.

Lemma clamp_range lo hi v :
  (lo <= hi)%Q -> (lo <= Math_max lo (Math_min hi v) <= hi)%Q.
Proof. intro H. unfold Math_max, Math_min. qcases; lra. Qed.

Lemma clamp_inverted lo hi v :
  (hi < lo)%Q -> (Math_max lo (Math_min hi v) == lo)%Q.
Proof. intro H. unfold Math_max, Math_min. qcases; lra. Qed.

Lemma clamp_inside lo hi v :
  (lo <= v <= hi)%Q -> (Math_max lo (Math_min hi v) == v)%Q.
Proof. intro H. unfold Math_max, Math_min. qcases; lra. Qed.

Lemma clamp_compat lo hi v w :
  (v == w)%Q -> (Math_max lo (Math_min hi v) == Math_max lo (Math_min hi w))%Q.
Proof. intro H. unfold Math_max, Math_min. qcases; lra. Qed.

Lemma Qfloor_scaled_range (u : Q) (n : Z) :
  (0 <= u < 1)%Q -> 0 < n -> 0 <= Qfloor (u * inject_Z n) < n.
Proof.
  intros [H0 H1] Hn.
  assert (Hq : (0 < inject_Z n)%Q) by (change 0%Q with (inject_Z 0); now rewrite <- Zlt_Qlt).
  split.
  - change 0 with (Qfloor (inject_Z 0)). apply Qfloor_resp_le.
    change (inject_Z 0) with 0%Q. apply Qmult_le_0_compat; [exact H0|].
    now apply Qlt_le_weak.
  - rewrite Zlt_Qlt. apply Qle_lt_trans with (u * inject_Z n)%Q.
    + apply Qfloor_le.
    + setoid_replace (inject_Z n) with (1 * inject_Z n)%Q at 2 by ring.
      now apply Qmult_lt_compat_r.
Qed.

(** ** [Random.int] *)

Section RandomFacts.
Variable rng : nat -> Q.
Hypothesis rng_range : forall k, (0 <= rng k < 1)%Q.

Lemma Random_int_range lo hi p :
  lo <= hi -> lo <= fst (Random_int rng lo hi p) <= hi.
Proof.
  intro H. unfold Random_int, rbind, rng_next, rret. cbn [fst].
  pose proof (Qfloor_scaled_range (rng p) (hi - lo + 1) (rng_range p)). lia.
Qed.

End RandomFacts.

(** ** [Behavior.scrollPattern] *)


Section ScrollPatternFacts.
Variable rng : nat -> Q.
Variables maxScroll viewportHeight : Q.




Hypothesis rng_range : forall k, (0 <= rng k < 1)%Q.





End ScrollPatternFacts.





(** The same page with the seeded generator as the source: nine iterations,
    nine scrolls down the page. *)
Example scrollPattern_seeded_run :
  map (fun a => (sa_type a, Qred (sa_from a), Qred (sa_to a)))
      (fst (Behavior_scrollPattern (seeded_source 42) 5000 800 0%nat))
  = [ (scroll, 0, 318); (scroll, 318, 689); (scroll, 689, 786);
      (scroll, 786, 1379); (scroll, 1379, 1609); (scroll, 1609, 1811);
      (scroll, 1811, 1979); (scroll, 1979, 2365); (scroll, 2365, 2534) ]%Q.
Proof. vm_compute. reflexivity. Qed.


(** ** [Distribution.gaussianBounded] *)

Section GaussianFacts.
Variable rng : nat -> Q.
Variable M : MathFns.

Lemma gaussian_draws_some fuel : forall p j,
  (j < fuel)%nat -> ~ (rng (p + 2 * j) == 0)%Q ->
  exists u1 u2 p1, gaussian_draws rng fuel p = Some (u1, u2, p1).
Proof.
  induction fuel as [|fuel IH]; intros p j Hj Hnz; [lia|].
  cbn [gaussian_draws]. destruct (Qeq_bool (rng p) 0) eqn:E.
  - destruct j as [|j].
    + apply Qeq_bool_iff in E. exfalso. apply Hnz.
      now replace (p + 2 * 0)%nat with p by lia.
    + apply (IH (S (S p)) j); [lia|].
      now replace (S (S p) + 2 * j)%nat with (p + 2 * S j)%nat by lia.
  - eauto.
Qed.

(** The source is [fuel]-live when from every position a non-zero first
    draw comes within [fuel] pairs. *)
Variable fuel : nat.
Hypothesis rng_live : forall p, exists j, (j < fuel)%nat /\ ~ (rng (p + 2 * j) == 0)%Q.

Lemma Distribution_gaussian_some mean stdDev p :
  exists v p1, Distribution_gaussian rng M fuel mean stdDev p = Some (v, p1).
Proof.
  unfold Distribution_gaussian.
  destruct (rng_live p) as (j & Hj & Hnz).
  destruct (gaussian_draws_some fuel p j Hj Hnz) as (u1 & u2 & p1 & ->).
  eauto.
Qed.

Lemma gaussianBounded_loop_some mean stdDev min max k : forall attempts p,
  (k + attempts = 100)%nat -> (0 < k)%nat ->
  exists v p1,
    gaussianBounded_loop rng M k fuel mean stdDev min max attempts p = Some (v, p1).
Proof.
  induction k as [|k IH]; intros attempts p Hk Hpos; [lia|].
  cbn [gaussianBounded_loop].
  destruct (Distribution_gaussian_some mean stdDev p) as (v & p1 & ->).
  destruct ((Qltb v min || Qltb max v) && (S attempts <? 100)%nat) eqn:E; [|eauto].
  apply andb_true_iff in E. destruct E as [_ E]. apply Nat.ltb_lt in E.
  apply IH; lia.
Qed.

End GaussianFacts.

(** On a source that only draws 0 the Box-Muller loop never ends: no
    amount of fuel makes [gaussian] return. *)
Lemma gaussian_zero_source_never_returns M fuel mean stdDev p :
  Distribution_gaussian (fun _ => 0%Q) M fuel mean stdDev p = None.
Proof.
  unfold Distribution_gaussian.
  assert (H : gaussian_draws (fun _ => 0%Q) fuel p = None).
  { revert p. induction fuel as [|fuel IH]; intro p; [reflexivity|].
    cbn [gaussian_draws]. change (Qeq_bool 0 0) with true. cbn iota. apply IH. }
  now rewrite H.
Qed.

Lemma gaussian_zero_sd rng M fuel mean stdDev p v p1 :
  (stdDev == 0)%Q ->
  Distribution_gaussian rng M fuel mean stdDev p = Some (v, p1) -> (v == mean)%Q.
Proof.
  intro Hz. unfold Distribution_gaussian.
  destruct (gaussian_draws rng fuel p) as [[[u1 u2] q]|]; [|discriminate].
  intro H. injection H as <- _. rewrite Hz. ring.
Qed.

Lemma gaussianBounded_loop_zero_sd rng M fuel mean stdDev min max k :
  (stdDev == 0)%Q ->
  forall attempts p v p1,
  gaussianBounded_loop rng M k fuel mean stdDev min max attempts p = Some (v, p1) ->
  (v == mean)%Q.
Proof.
  intro Hz. induction k as [|k IH]; intros attempts p v p1; [discriminate|].
  cbn [gaussianBounded_loop].
  destruct (Distribution_gaussian rng M fuel mean stdDev p) as [[w q]|] eqn:Eg;
    [|discriminate].
  destruct ((Qltb w min || Qltb max w) && (S attempts <? 100)%nat).
  - apply IH.
  - intro H. injection H as <- _. eapply gaussian_zero_sd; eassumption.
Qed.

(** C4 (as the code has it). When [min <= max] and the source is live
    (a non-zero first draw always comes within [fuel] pairs, so that the
    Box-Muller loop ends), [gaussianBounded] returns, and returns a value in
    [min, max]; with a standard deviation of 0 that value is the mean
    clamped into [min, max], hence the mean itself when it lies inside. *)
Theorem gaussianBounded_in_bounds (rng : nat -> Q) (M : MathFns) (fuel : nat)
  (mean stdDev min max : Q) (p : nat) :
  (min <= max)%Q ->
  (forall q : nat, exists j : nat, (j < fuel)%nat /\ ~ (rng (q + 2 * j)%nat == 0)%Q) ->
  exists v p1,
    Distribution_gaussianBounded rng M fuel mean stdDev min max p = Some (v, p1)
    /\ (min <= v <= max)%Q
    /\ ((stdDev == 0)%Q -> (v == Math_max min (Math_min max mean))%Q)
    /\ ((stdDev == 0)%Q -> (min <= mean <= max)%Q -> (v == mean)%Q).
Proof.
  intros Hle Hlive. unfold Distribution_gaussianBounded.
  destruct (gaussianBounded_loop_some rng M fuel Hlive mean stdDev min max 100 0 p)
    as (v & p1 & E); [lia|lia|].
  rewrite E. eexists _, _. split; [reflexivity|].
  split; [now apply clamp_range|].
  assert (Hsd : (stdDev == 0)%Q -> (v == mean)%Q).
  { intro Hz. eapply gaussianBounded_loop_zero_sd; eassumption. }
  split.
  - intro Hz. apply clamp_compat. auto.
  - intros Hz Hin. rewrite (clamp_compat min max v mean (Hsd Hz)).
    now apply clamp_inside.
Qed.

(** The theorem at the parameters of [Timing.typingDelay], on a constant
    source. *)
Lemma gaussianBounded_in_bounds_witness :
  (30 <= 250)%Q
  /\ (forall q : nat, exists j : nat,
        (j < 1)%nat /\ ~ ((fun _ : nat => 1 # 2) (q + 2 * j)%nat == 0)%Q)
  /\ exists v p1,
       Distribution_gaussianBounded (fun _ => 1 # 2) sample_math 1 100 40 30 250 0%nat
       = Some (v, p1)
       /\ (30 <= v <= 250)%Q.
Proof.
  assert (H1 : (30 <= 250)%Q) by (compute; discriminate).
  assert (H2 : forall q : nat, exists j : nat,
             (j < 1)%nat /\ ~ ((fun _ : nat => 1 # 2) (q + 2 * j)%nat == 0)%Q).
  { intro q. exists 0%nat. split; [lia|]. compute. discriminate. }
  split; [exact H1|]. split; [exact H2|].
  destruct (gaussianBounded_in_bounds (fun _ => 1 # 2) sample_math 1 100 40 30 250 0%nat
              H1 H2) as (v & p1 & E & Hr & _).
  exists v, p1. split; [exact E | exact Hr].
Defined.

(** C4 as stated fails when the bounds are inverted: with [min = 5] and
    [max = 3] every sample is outside, the loop runs its 100 attempts and
    the final clamp returns [min], which is not at most [max]. *)
Lemma gaussianBounded_inverted_bounds :
  Distribution_gaussianBounded (fun _ => 1 # 2) sample_math 1 0 1 5 3 0%nat
  = Some (5%Q, 200%nat)
  /\ ~ (5 <= 5 <= 3)%Q.
Proof.
  split; [vm_compute; reflexivity|].
  intros [_ H]. revert H. compute. intro H. now apply H.
Qed.

(** ** [Random.shuffle] permutes *)

Section ShuffleFacts.
Context {A : Type}.

Lemma set_nth_perm (l : list A) : forall i a x,
  nth_error l i = Some a -> Permutation (a :: set_nth l i x) (x :: l).
Proof.
  induction l as [|y l IH]; intros [|i] a x H; cbn in H; try discriminate.
  - injection H as ->. cbn. apply perm_swap.
  - cbn [set_nth]. eapply perm_trans; [apply perm_swap|].
    eapply perm_trans; [apply perm_skip, (IH _ _ _ H)|]. apply perm_swap.
Qed.

Lemma nth_error_set_nth_keep (l : list A) : forall i j a b,
  nth_error l i = Some a -> nth_error l j = Some b ->
  nth_error (set_nth l i b) j = Some b.
Proof.
  induction l as [|y l IH]; intros [|i] [|j] a b Hi Hj; cbn in *;
    try discriminate; try assumption; try reflexivity.
  eapply IH; eassumption.
Qed.

Lemma swap_perm (l : list A) i j : Permutation (swap l i j) l.
Proof.
  unfold swap.
  destruct (nth_error l i) as [a|] eqn:Hi; [|reflexivity].
  destruct (nth_error l j) as [b|] eqn:Hj; [|reflexivity].
  apply Permutation_cons_inv with (a := b).
  eapply perm_trans.
  - apply set_nth_perm. eapply nth_error_set_nth_keep; eassumption.
  - now apply set_nth_perm.
Qed.

Lemma shuffle_loop_perm rng i : forall (l : list A) p,
  Permutation (fst (shuffle_loop rng i l p)) l.
Proof.
  induction i as [|i IH]; intros l p; [reflexivity|].
  cbn [shuffle_loop]. unfold rbind, rng_next.
  eapply perm_trans; [apply IH|]. apply swap_perm.
Qed.

Lemma Random_shuffle_perm rng (l : list A) p :
  Permutation (fst (Random_shuffle rng l p)) l.
Proof. apply shuffle_loop_perm. Qed.

End ShuffleFacts.

(** With draws in [0, 1) the index [j] drawn at step [i] is at most [i]:
    the exchange stays inside the array. *)
Lemma shuffle_index_inside (u : Q) (i : nat) :
  (0 <= u < 1)%Q ->
  (Z.to_nat (Qfloor (u * inject_Z (Z.of_nat i + 1))) <= i)%nat.
Proof.
  intro Hu. pose proof (Qfloor_scaled_range u (Z.of_nat i + 1) Hu). lia.
Qed.

(** ** [SitesManager.getSites] *)

Lemma includes_In l x : includes l x = true <-> In x l.
Proof.
  unfold includes. rewrite existsb_exists. split.
  - intros (y & Hy & E). apply String.eqb_eq in E. now subst.
  - intro H. exists x. split; [exact H|apply String.eqb_refl].
Qed.

Lemma set_spread_spec array : forall seen,
  NoDup (set_spread seen array)
  /\ forall x, In x (set_spread seen array) <-> In x array /\ ~ In x seen.
Proof.
  induction array as [|y r IH]; intros seen.
  - cbn. split; [constructor|]. tauto.
  - cbn [set_spread]. destruct (includes seen y) eqn:E.
    + apply includes_In in E. destruct (IH seen) as [Hnd Hin].
      split; [exact Hnd|]. intro x. rewrite Hin. cbn [In].
      split; [tauto|]. intros [[->|H] Hn]; tauto.
    + assert (Hy : ~ In y seen).
      { intro H. apply includes_In in H. congruence. }
      destruct (IH (y :: seen)) as [Hnd Hin]. split.
      * constructor; [|exact Hnd]. rewrite Hin. cbn [In]. tauto.
      * intro x. cbn [In]. rewrite Hin. cbn [In].
        destruct (string_dec y x) as [->|Hne]; tauto.
Qed.

Lemma NoDup_firstn {A} n : forall l : list A, NoDup l -> NoDup (firstn n l).
Proof.
  induction n as [|n IH]; intros [|x l] H; cbn; try constructor.
  - inversion H; subst. intro Hin. apply H2.
    rewrite <- (firstn_skipn n l). apply in_or_app. now left.
  - inversion H; subst. now apply IH.
Qed.

Lemma In_firstn {A} n : forall (l : list A) x, In x (firstn n l) -> In x l.
Proof.
  intros l x H. rewrite <- (firstn_skipn n l). apply in_or_app. now left.
Qed.

Section GetSitesFacts.
Variable toLowerCase : string -> string.
Variable RegExp_i : string -> option (string -> bool).
Variable Math_random : nat -> Q.

Lemma compilePatterns_ok ps :
  Forall (fun pat => RegExp_i pat <> None) ps ->
  exists tests, compilePatterns RegExp_i ps = Ok tests.
Proof.
  induction 1 as [|pat ps Hp _ IH]; cbn [compilePatterns]; [eauto|].
  destruct (RegExp_i pat); [|congruence].
  destruct IH as [tests ->]. eauto.
Qed.

Lemma limitSites_NoDup options l : NoDup l -> NoDup (limitSites options l).
Proof.
  unfold limitSites. destruct (opt_maxSites options) as [n|]; [|auto].
  destruct (0 <? n); [apply NoDup_firstn|auto].
Qed.

Lemma limitSites_In options l x : In x (limitSites options l) -> In x l.
Proof.
  unfold limitSites. destruct (opt_maxSites options) as [n|]; [|auto].
  destruct (0 <? n); [apply In_firstn|auto].
Qed.

Lemma limitSites_length options l n :
  opt_maxSites options = Some n -> 0 < n ->
  Z.of_nat (List.length (limitSites options l)) <= n.
Proof.
  intros E Hn. unfold limitSites. rewrite E.
  apply Z.ltb_lt in Hn. rewrite Hn. apply Z.ltb_lt in Hn.
  pose proof (firstn_le_length (Z.to_nat n) l). lia.
Qed.

Lemma limitSites_unlimited options l : unlimited options -> limitSites options l = l.
Proof.
  unfold unlimited, limitSites. destruct (opt_maxSites options) as [n|]; [|auto].
  intro H. destruct (0 <? n) eqn:E; [|reflexivity]. apply Z.ltb_lt in E. lia.
Qed.

Lemma removeExcluded_In options l x : In x (removeExcluded toLowerCase options l) -> In x l.
Proof.
  unfold removeExcluded. destruct (opt_exclude options); [|auto].
  intro H. now apply filter_In in H.
Qed.

(** The list before the limit is a duplicate-free permutation of a
    duplicate-free list. *)
Lemma shuffle_step_spec options (l : list string) p :
  Permutation
    (fst (match opt_shuffle options with
          | Some false => (l, p)
          | _ => Random_shuffle Math_random l p
          end)) l.
Proof.
  destruct (opt_shuffle options) as [[|]|]; try apply Random_shuffle_perm.
  reflexivity.
Qed.

End GetSitesFacts.

(** C5. On a loaded configuration whose exclude patterns are regular
    expressions, and with [Math.random] drawing in [0, 1), [getSites]
    returns a list without duplicates (a URL listed in two selected
    categories, or twice in one, or again among the custom sites, appears
    once) that has at most [maxSites] entries when [maxSites] is positive.
    Every returned site comes from the selected categories or the custom
    sites; without a limit and without exclude patterns, every collected
    site that is not excluded is returned. *)
Theorem getSites_unique_and_limited
  (toLowerCase : string -> string) (RegExp_i : string -> option (string -> bool))
  (Math_random : nat -> Q) (data : SitesData) (cats : list string)
  (options : GetSitesOptions) (p : nat) :
  (forall k, (0 <= Math_random k < 1)%Q) ->
  (forall ps, excludePatterns data = Some ps ->
              Forall (fun pat => RegExp_i pat <> None) ps) ->
  exists sites p1,
    getSites toLowerCase RegExp_i Math_random {| _sites := Some data |} cats options p
    = Ok (sites, p1)
    /\ NoDup sites
    /\ (forall n, opt_maxSites options = Some n -> 0 < n ->
                  Z.of_nat (List.length sites) <= n)
    /\ (forall u, In u sites -> In u (collectSites data cats options))
    /\ (unlimited options -> excludePatterns data = None ->
        forall u, In u sites <->
                  In u (removeExcluded toLowerCase options (collectSites data cats options))).
Proof.
  intros _ Hpat. unfold getSites. cbn [_sites].
  set (collected := collectSites data cats options).
  set (kept := removeExcluded toLowerCase options collected).
  destruct (set_spread_spec kept []) as [Hnd Hin].
  assert (Hfilt : exists l,
    match excludePatterns data with
    | Some ps => match compilePatterns RegExp_i ps with
                 | Ok patterns => Ok (applyPatterns patterns (set_spread [] kept))
                 | Throw e => Throw e
                 end
    | None => Ok (set_spread [] kept)
    end = Ok l
    /\ NoDup l /\ (forall u, In u l -> In u kept)
    /\ (excludePatterns data = None -> l = set_spread [] kept)).
  { destruct (excludePatterns data) as [ps|].
    - destruct (compilePatterns_ok RegExp_i ps (Hpat ps eq_refl)) as [tests ->].
      eexists. split; [reflexivity|]. split; [now apply NoDup_filter|].
      split; [|discriminate].
      intros u Hu. apply filter_In in Hu. now apply Hin.
    - eexists. split; [reflexivity|]. split; [exact Hnd|].
      split; [|reflexivity]. intros u Hu. now apply Hin. }
  destruct Hfilt as (l & -> & Hl & Hsub & Hnone).
  pose proof (shuffle_step_spec Math_random options l p) as Hperm.
  destruct (match opt_shuffle options with
            | Some false => (l, p)
            | _ => Random_shuffle Math_random l p
            end) as [shuffled p1].
  cbn [fst] in Hperm.
  exists (limitSites options shuffled), p1.
  split; [reflexivity|].
  split.
  { apply limitSites_NoDup. eapply Permutation_NoDup; [|exact Hl].
    now apply Permutation_sym. }
  split; [intros n; apply limitSites_length|].
  split.
  { intros u Hu. apply limitSites_In in Hu.
    apply (Permutation_in _ Hperm) in Hu.
    eapply removeExcluded_In. apply Hsub. exact Hu. }
  intros Hun Hno u. rewrite (limitSites_unlimited _ _ Hun).
  specialize (Hnone Hno). subst l. split.
  - intro Hu. apply (Permutation_in _ Hperm) in Hu. now apply Hin.
  - intro Hu. apply (Permutation_in _ (Permutation_sym Hperm)).
    apply Hin. split; [exact Hu|]. intros [].
Qed.

(** The theorem on two categories that share a URL, with a limit of five
    sites and a source that always draws 1/2. *)
Lemma getSites_unique_and_limited_witness :
  (forall k : nat, (0 <= (fun _ : nat => 1 # 2) k < 1)%Q)
  /\ (forall ps, excludePatterns sample_sites = Some ps ->
                 Forall (fun pat => literal_RegExp_i pat <> None) ps)
  /\ exists sites p1,
       getSites ascii_toLowerCase literal_RegExp_i (fun _ => 1 # 2)
                {| _sites := Some sample_sites |}
                ["news"; "tech"]%string sample_options 0%nat = Ok (sites, p1)
       /\ NoDup sites
       /\ Z.of_nat (List.length sites) <= 5.
Proof.
  assert (H1 : forall k : nat, (0 <= (fun _ : nat => 1 # 2) k < 1)%Q)
    by (intro k; split; [discriminate|reflexivity]).
  assert (H2 : forall ps, excludePatterns sample_sites = Some ps ->
                 Forall (fun pat => literal_RegExp_i pat <> None) ps).
  { intros ps E. injection E as <-. repeat constructor. discriminate. }
  split; [exact H1|]. split; [exact H2|].
  destruct (getSites_unique_and_limited ascii_toLowerCase literal_RegExp_i
              (fun _ => 1 # 2) sample_sites ["news"; "tech"]%string sample_options 0%nat H1 H2)
    as (sites & p1 & E & Hnd & Hlen & _).
  exists sites, p1. split; [exact E|]. split; [exact Hnd|].
  apply Hlen; [reflexivity|lia].
Defined.

(** The same call shuffled by the seeded generator, and without shuffling:
    three distinct URLs, in the second case in their order of first
    occurrence. *)
Example getSites_sample_seeded :
  getSites ascii_toLowerCase literal_RegExp_i (seeded_source 7)
           {| _sites := Some sample_sites |} ["news"; "tech"]%string
           sample_options 0%nat
  = Ok (["https://b.example"; "https://c.example"; "https://a.example"]%string, 2%nat).
Proof. vm_compute. reflexivity. Qed.

Example getSites_sample_unshuffled :
  getSites ascii_toLowerCase literal_RegExp_i (fun _ => 0%Q)
           {| _sites := Some sample_sites |} ["news"; "tech"]%string
           {| opt_custom := None; opt_exclude := None;
              opt_maxSites := Some 5; opt_shuffle := Some false |} 0%nat
  = Ok (["https://a.example"; "https://b.example"; "https://c.example"]%string, 0%nat).
Proof. vm_compute. reflexivity. Qed.

(** ** The run monad *)

Lemma keeps_refl w : keeps w w.
Proof. unfold keeps. tauto. Qed.

Lemma keeps_trans w1 w2 w3 : keeps w1 w2 -> keeps w2 w3 -> keeps w1 w3.
Proof.
  unfold keeps. intros (a1 & a2 & a3 & a4 & a5 & a6 & a7 & a8)
    (b1 & b2 & b3 & b4 & b5 & b6 & b7 & b8).
  repeat split; congruence.
Qed.

Lemma keeps_ready w w' : keeps w w' -> ready w -> ready w'.
Proof.
  unfold keeps, ready. intros (_ & _ & _ & _ & _ & H6 & _ & H8) [H1 H2].
  rewrite H6, H8. now split.
Qed.

Lemma keeps_tick n w : keeps w (advance_tick n w).
Proof. unfold keeps. cbn. tauto. Qed.

(** Split the conjunctions of the goal, and nothing else. *)
Ltac splits := repeat match goal with |- _ /\ _ => split end.

Section QuietRules.
Context {A B : Type}.

Lemma quiet_ret (a : A) : quiet (ret a).
Proof. intro w. cbn. repeat split; auto using keeps_refl. discriminate. Qed.

Lemma quiet_throw e : quiet (@throw A e).
Proof. intro w. cbn. repeat split; auto using keeps_refl. discriminate. Qed.

Lemma quiet_of_result (r : result A) : quiet (of_result r).
Proof. destruct r; [apply quiet_ret|apply quiet_throw]. Qed.

Lemma quiet_external (f : nat -> A) : quiet (external f).
Proof. intro w. cbn. repeat split; auto using keeps_tick. discriminate. Qed.

Lemma quiet_random (c : Rand A) : quiet (random c).
Proof.
  intro w. unfold random. destruct (c (w_tick w)) as [a t].
  repeat split; auto using keeps_tick. discriminate.
Qed.

Lemma quiet_bind (c : Run A) (k : A -> Run B) :
  quiet c -> (forall a, quiet (k a)) -> quiet (bind c k).
Proof.
  intros Hc Hk w. unfold bind. specialize (Hc w).
  destruct (c w) as [[[a|e|] fx1] w1]; destruct Hc as (Hp & Hkeep & Hcnt & Hfx).
  - specialize (Hk a w1). destruct (k a w1) as [[o fx2] w2].
    destruct Hk as (Hp2 & Hkeep2 & Hcnt2 & Hfx2).
    split; [exact Hp2|]. split; [eapply keeps_trans; eassumption|].
    split; [congruence|]. apply Forall_app. now split.
  - split; [discriminate|split; [assumption|split; assumption]].
  - contradiction.
Qed.

Lemma quiet_try_catch (c : Run A) (h : string -> Run A) :
  quiet c -> (forall e, quiet (h e)) -> quiet (try_catch c h).
Proof.
  intros Hc Hh w. unfold try_catch. specialize (Hc w).
  destruct (c w) as [[[a|e|] fx1] w1]; destruct Hc as (Hp & Hkeep & Hcnt & Hfx).
  - split; [discriminate|split; [assumption|split; assumption]].
  - specialize (Hh e w1). destruct (h e w1) as [[o fx2] w2].
    destruct Hh as (Hp2 & Hkeep2 & Hcnt2 & Hfx2).
    split; [exact Hp2|]. split; [eapply keeps_trans; eassumption|].
    split; [congruence|]. apply Forall_app. now split.
  - contradiction.
Qed.

End QuietRules.

Lemma quiet_effect_op e : quiet_effect e -> quiet (effect e).
Proof.
  intros He w. cbn. repeat split; auto using keeps_refl; try discriminate.
  all: try (constructor; [exact He|constructor]).
Qed.

Lemma quiet_get_session : quiet get_session.
Proof. intro w. cbn. repeat split; auto using keeps_refl. discriminate. Qed.

Lemma quiet_update_stats f : neutral f -> quiet (update_stats f).
Proof.
  intros Hf w. cbn. destruct (Hf (stats (w_session w))) as (H1 & H2 & H3 & H4).
  split; [discriminate|]. split; [unfold keeps; cbn; tauto|].
  split; [unfold counters; cbn; congruence|constructor].
Qed.

Lemma neutral_incr_pagesViewed : neutral incr_pagesViewed.
Proof. intro st. cbn. tauto. Qed.

Lemma neutral_push_visitedUrl u : neutral (push_visitedUrl u).
Proof. intro st. cbn. tauto. Qed.

Lemma neutral_push_error e : neutral (push_error e).
Proof. intro st. cbn. tauto. Qed.

Lemma neutral_incr_searchesPerformed : neutral incr_searchesPerformed.
Proof. intro st. cbn. tauto. Qed.

Lemma neutral_account_action a : neutral (fun st => account_action st a).
Proof.
  intro st. unfold account_action.
  destruct (_ && _)%bool; destruct (_ && _)%bool; cbn; tauto.
Qed.

Lemma neutral_account_actions l : neutral (account_actions l).
Proof.
  unfold account_actions. induction l as [|a l IH]; intro st; [cbn; tauto|].
  cbn [fold_left]. destruct (IH (account_action st a)) as (H1 & H2 & H3 & H4).
  destruct (neutral_account_action a st) as (G1 & G2 & G3 & G4).
  repeat split; congruence.
Qed.

(** Structural proof that a computation built from quiet parts is quiet. *)
Ltac quiet_effect_tac :=
  split; [reflexivity|discriminate].

Ltac quiet_step :=
  lazymatch goal with
  | |- quiet (bind _ _) => apply quiet_bind; [|intro]
  | |- quiet (try_catch _ _) => apply quiet_try_catch; [|intro]
  | |- quiet (ret _) => apply quiet_ret
  | |- quiet (throw _) => apply quiet_throw
  | |- quiet (of_result _) => apply quiet_of_result
  | |- quiet (external _) => apply quiet_external
  | |- quiet (random _) => apply quiet_random
  | |- quiet get_session => apply quiet_get_session
  | |- quiet (effect _) => apply quiet_effect_op; quiet_effect_tac
  | |- quiet (emit _) => apply quiet_effect_op; quiet_effect_tac
  | |- quiet (update_stats _) =>
      apply quiet_update_stats;
      first [ apply neutral_incr_pagesViewed | apply neutral_push_visitedUrl
            | apply neutral_push_error | apply neutral_incr_searchesPerformed
            | apply neutral_account_actions ]
  | |- quiet (if ?b then _ else _) => destruct b
  | |- quiet (match ?x with _ => _ end) => destruct x
  | |- quiet _ => assumption
  end.

Ltac quiet_auto := repeat quiet_step.

Section SessionFacts.

Variable env : Env.
Variable Config : ConfigManager.
Variable toLowerCase : string -> string.
Variable RegExp_i : string -> option (string -> bool).

Lemma quiet_sleep ms : quiet (sleep ms).
Proof. unfold sleep. quiet_auto. Qed.

Lemma quiet_Date_now_call : quiet (Date_now_call env).
Proof. unfold Date_now_call. quiet_auto. Qed.

Lemma quiet_Config_get_call : quiet (Config_get_call Config).
Proof. unfold Config_get_call. quiet_auto. Qed.

Lemma quiet_browser_emit e : quiet (browser_emit env e).
Proof. unfold browser_emit, Date_now_call. quiet_auto. Qed.

Lemma quiet_page_goto_call b url : quiet (page_goto_call env b url).
Proof. unfold page_goto_call. quiet_auto. Qed.

Lemma quiet_goto_attempts n : forall b url maxRetries attempt lastError,
  quiet (goto_attempts env n b url maxRetries attempt lastError).
Proof.
  induction n as [|n IH]; intros; cbn [goto_attempts].
  - pose proof (quiet_browser_emit (B_navigationFailed url lastError)). quiet_auto.
  - pose proof (quiet_page_goto_call b url).
    pose proof (fun u s => quiet_browser_emit (B_httpError u s)).
    pose proof (fun u s a => quiet_browser_emit (B_navigated u s a)).
    pose proof quiet_sleep.
    quiet_auto; auto.
Qed.

Lemma quiet_BrowserController_goto b url retries :
  quiet (BrowserController_goto env Config b url retries).
Proof.
  unfold BrowserController_goto.
  pose proof quiet_Config_get_call. pose proof quiet_goto_attempts.
  quiet_auto; auto.
Qed.

Lemma quiet_the_browser m : quiet (the_browser m).
Proof. unfold the_browser. quiet_auto. Qed.

Lemma quiet_the_actions m : quiet (the_actions m).
Proof. unfold the_actions. quiet_auto. Qed.

Lemma quiet_dismissPopups_call : quiet dismissPopups_call.
Proof. unfold dismissPopups_call. pose proof quiet_the_actions. quiet_auto; auto. Qed.

Lemma quiet_getPageInfo_call : quiet (getPageInfo_call env).
Proof. unfold getPageInfo_call. pose proof quiet_the_actions. quiet_auto; auto. Qed.

Lemma quiet_stayOnPage_call ct : quiet (stayOnPage_call env ct).
Proof. unfold stayOnPage_call. pose proof quiet_the_actions. quiet_auto; auto. Qed.

Lemma quiet_performSearch_call : quiet (performSearch_call env).
Proof. unfold performSearch_call. pose proof quiet_the_actions. quiet_auto; auto. Qed.

Lemma quiet_Sites_getContentType url : quiet (Sites_getContentType toLowerCase url).
Proof. intro w. cbn. repeat split; auto using keeps_refl. discriminate. Qed.

Lemma quiet_followLinks_step depth next :
  quiet next -> quiet (followLinks_step env Config toLowerCase depth next).
Proof.
  intro Hn. unfold followLinks_step.
  pose proof quiet_Config_get_call. pose proof quiet_the_browser.
  pose proof quiet_Sites_getContentType. pose proof quiet_stayOnPage_call.
  quiet_auto; auto.
Qed.

Lemma quiet__followLinks_from fuel : forall depth,
  quiet (_followLinks_from env Config toLowerCase fuel depth).
Proof.
  induction fuel as [|fuel IH]; intro depth; cbn [_followLinks_from];
    apply quiet_followLinks_step; [apply quiet_ret|apply IH].
Qed.

Lemma quiet__followLinks depth : quiet (_followLinks env Config toLowerCase depth).
Proof.
  unfold _followLinks.
  pose proof quiet_Config_get_call. pose proof quiet__followLinks_from.
  quiet_auto; auto.
Qed.

Lemma quiet__waitBetweenSites : quiet (_waitBetweenSites env Config).
Proof.
  unfold _waitBetweenSites.
  pose proof quiet_Config_get_call. pose proof quiet_sleep.
  quiet_auto; auto.
Qed.

End SessionFacts.

(** ** [_visitSite] *)

Section VisitFacts.

Variable env : Env.
Variable Config : ConfigManager.
Variable toLowerCase : string -> string.

Lemma body_post_shift url current total w w1 fx1 o fx2 w2 :
  keeps w w1 -> counters w1 = counters w -> Forall quiet_effect fx1 ->
  body_post url current total w1 (o, fx2, w2) ->
  body_post url current total w (o, fx1 ++ fx2, w2).
Proof.
  unfold body_post, counters. intros Hk Hc Hq (Hk2 & Hv & Ho).
  injection Hc as Hc1 Hc2 Hc3.
  split; [eapply keeps_trans; eassumption|]. split; [congruence|].
  destruct o as [[]|e|]; [| |exact Ho].
  - destruct Ho as (fx0 & tail & ds & df & -> & Hq0 & He & Hn & Hs & Hf).
    exists (fx1 ++ fx0), tail, ds, df. rewrite app_assoc.
    split; [reflexivity|]. split; [apply Forall_app; now split|].
    split; [exact He|]. split; [exact Hn|]. split; congruence.
  - destruct Ho as (Hq2 & Hs & Hf).
    split; [apply Forall_app; now split|]. split; congruence.
Qed.

Lemma body_post_bind {A} url current total (c : Run A) (k : A -> Run unit) :
  quiet c ->
  (forall a w1, body_post url current total w1 (k a w1)) ->
  forall w, body_post url current total w (bind c k w).
Proof.
  intros Hc Hk w. unfold bind. specialize (Hc w).
  destruct (c w) as [[[a|e|] fx1] w1]; destruct Hc as (Hp & Hkeep & Hcnt & Hfx).
  - specialize (Hk a w1). destruct (k a w1) as [[o fx2] w2].
    eapply body_post_shift; eassumption.
  - unfold body_post, counters in *. injection Hcnt as H1 H2 H3.
    split; [exact Hkeep|]. split; [congruence|]. split; [exact Hfx|]. split; congruence.
  - contradiction.
Qed.

End VisitFacts.

Lemma bind_assoc {A B C} (c : Run A) (f : A -> Run B) (g : B -> Run C) w :
  bind (bind c f) g w = bind c (fun a => bind (f a) g) w.
Proof.
  unfold bind. destruct (c w) as [[[a|e|] fx1] w1]; try reflexivity.
  destruct (f a w1) as [[[b|e|] fx2] w2]; try reflexivity.
  destruct (g b w2) as [[o fx3] w3]. now rewrite app_assoc.
Qed.

Lemma bind_ret_l {A B} (a : A) (k : A -> Run B) w : bind (ret a) k w = k a w.
Proof. unfold bind, ret. now destruct (k a w) as [[o fx] w']. Qed.

Section VisitBodyFacts.

Variable env : Env.
Variable Config : ConfigManager.
Variable toLowerCase : string -> string.

Lemma visit_body_post url current total t0 w :
  body_post url current total w
    (visit_body env Config toLowerCase url current total t0 w).
Proof.
  unfold visit_body.
  apply body_post_bind; [apply quiet_the_browser|intros b w1].
  apply body_post_bind; [apply quiet_BrowserController_goto|intros _ w2].
  apply body_post_bind; [quiet_auto|intros _ w3].
  apply body_post_bind; [quiet_auto|intros _ w4].
  apply body_post_bind; [apply quiet_dismissPopups_call|intros _ w5].
  unfold hasCaptcha_call. rewrite bind_assoc.
  apply body_post_bind; [apply quiet_the_actions|intros _ w6].
  rewrite bind_assoc.
  apply body_post_bind; [apply quiet_external|intros [|] w7].
  - (* a CAPTCHA is reported *)
    cbn. split; [unfold keeps; cbn; tauto|]. split; [reflexivity|].
    exists [], [HasCaptcha true; Emit (E_captchaDetected url)], 0, 1.
    repeat split; try constructor; try discriminate; lia.
  - rewrite bind_assoc.
    apply body_post_bind; [quiet_auto|intros _ w8].
    rewrite bind_ret_l.
    apply body_post_bind; [apply quiet_getPageInfo_call|intros pageInfo w10].
    apply body_post_bind; [apply quiet_Sites_getContentType|intros ct w11].
    apply body_post_bind; [apply quiet_stayOnPage_call|intros stay w12].
    apply body_post_bind; [quiet_auto|intros _ w13].
    apply body_post_bind.
    { pose proof (quiet__followLinks env Config toLowerCase 1). quiet_auto. }
    intros _ w14.
    apply body_post_bind; [apply quiet_Date_now_call|intros now w15].
    cbn. split; [unfold keeps; cbn; tauto|]. split; [reflexivity|].
    exists [], [Emit (E_siteComplete url (now - t0) pageInfo current total)], 1, 0.
    repeat split; try constructor; try discriminate; lia.
Qed.

End VisitBodyFacts.

Section VisitSiteFacts.

Variable env : Env.
Variable Config : ConfigManager.
Variable toLowerCase : string -> string.

(** The shape of every visit: it returns, keeps the control fields, counts
    itself in [sitesVisited], starts with [siteStart], goes on quietly and
    ends in one of the three ways of [visit_end]. *)
Lemma _visitSite_shape url current total w :
  exists fx0 tail ds df w',
    _visitSite env Config toLowerCase url current total w
    = (Returned tt, Emit (E_siteStart url current total) :: fx0 ++ tail, w')
    /\ keeps w w'
    /\ Forall quiet_effect fx0
    /\ visit_end url current total tail ds df
    /\ sitesVisited (stats (w_session w')) = sitesVisited (stats (w_session w)) + 1
    /\ sitesSuccessful (stats (w_session w')) = sitesSuccessful (stats (w_session w)) + ds
    /\ sitesFailed (stats (w_session w')) = sitesFailed (stats (w_session w)) + df.
Proof.
  unfold _visitSite, Date_now_call.
  cbn -[visit_body visit_failed try_catch].
  set (t0 := Date_now env (w_tick w)).
  set (w1 := on_session _ _).
  assert (Hk1 : keeps w w1) by (unfold keeps; cbn; tauto).
  pose proof (visit_body_post env Config toLowerCase url current total t0 w1) as Hb.
  unfold try_catch.
  destruct (visit_body env Config toLowerCase url current total t0 w1)
    as [[[[]|e|] fx] w2]; cbn [body_post] in Hb;
    destruct Hb as (Hk2 & Hv & Hb).
  3: contradiction.
  - destruct Hb as (fx0 & tail & ds & df & -> & Hq & He & _ & Hs & Hf).
    exists fx0, tail, ds, df, w2.
    split; [reflexivity|]. split; [exact (keeps_trans _ _ _ Hk1 Hk2)|].
    split; [exact Hq|]. split; [exact He|].
    subst w1. cbn in Hv, Hs, Hf. split; [exact Hv|split; [exact Hs|exact Hf]].
  - destruct Hb as (Hq & Hs & Hf).
    unfold visit_failed, Date_now_call. cbn.
    eexists fx, [_], 0, 1, _.
    split; [reflexivity|].
    split; [apply (keeps_trans _ _ _ Hk1); apply (keeps_trans _ _ _ Hk2);
            unfold keeps; cbn; tauto|].
    split; [exact Hq|]. split; [constructor|].
    subst w1. cbn in Hv, Hs, Hf. cbn. split; [lia|split; lia].
Qed.

End VisitSiteFacts.

Lemma quiet_no_captcha fx : Forall quiet_effect fx -> ~ In (HasCaptcha true) fx.
Proof.
  intros H Hin. rewrite Forall_forall in H. destruct (H _ Hin) as [_ Hne]. now apply Hne.
Qed.

Lemma quiet_filter_closer fx (f : Effect -> bool) :
  (forall e, f e = true -> is_closer e = true) ->
  Forall quiet_effect fx -> filter f fx = [].
Proof.
  intros Hf H. induction H as [|e fx [He _] _ IH]; [reflexivity|].
  cbn [filter]. destruct (f e) eqn:E; [|exact IH].
  apply Hf in E. congruence.
Qed.

(** C9. Every call of [_visitSite] returns, adds exactly 1 to
    [sitesVisited] and exactly 1 to exactly one of [sitesSuccessful] and
    [sitesFailed]: to [sitesSuccessful] when the visit ends with
    [siteComplete], to [sitesFailed] when a CAPTCHA is reported or an error
    is caught ([siteFailed]).  Hence [sitesVisited = sitesSuccessful +
    sitesFailed] is kept by every visit. *)
Theorem visitSite_counts_once
  (env : Env) (Config : ConfigManager) (toLowerCase : string -> string)
  (url : string) (current total : Z) (w : World) :
  exists fx w',
    _visitSite env Config toLowerCase url current total w = (Returned tt, fx, w')
    /\ let st := stats (w_session w) in
       let st' := stats (w_session w') in
       sitesVisited st' = sitesVisited st + 1
       /\ ((sitesSuccessful st' = sitesSuccessful st + 1
            /\ sitesFailed st' = sitesFailed st
            /\ List.length (filter is_siteComplete fx) = 1%nat
            /\ ~ In (HasCaptcha true) fx
            /\ filter is_siteFailed fx = [])
           \/ (sitesSuccessful st' = sitesSuccessful st
               /\ sitesFailed st' = sitesFailed st + 1
               /\ filter is_siteComplete fx = []
               /\ (In (HasCaptcha true) fx
                   \/ List.length (filter is_siteFailed fx) = 1%nat)))
       /\ (sitesVisited st = sitesSuccessful st + sitesFailed st ->
           sitesVisited st' = sitesSuccessful st' + sitesFailed st').
Proof.
  destruct (_visitSite_shape env Config toLowerCase url current total w)
    as (fx0 & tail & ds & df & w' & E & _ & Hq & He & Hv & Hs & Hf).
  exists (Emit (E_siteStart url current total) :: fx0 ++ tail), w'.
  split; [exact E|]. cbn zeta.
  split; [exact Hv|].
  assert (Hc : filter is_siteComplete fx0 = [])
    by (apply quiet_filter_closer; [now intros [[]| | | | | | | | | |]|exact Hq]).
  assert (Hfl : filter is_siteFailed fx0 = [])
    by (apply quiet_filter_closer; [now intros [[]| | | | | | | | | |]|exact Hq]).
  pose proof (quiet_no_captcha fx0 Hq) as Hnc.
  split.
  - cbn [filter is_siteComplete is_siteFailed]. rewrite !filter_app, Hc, Hfl.
    destruct He; cbn [filter is_siteComplete is_siteFailed app List.length].
    + left. repeat split; try lia.
      cbn [In]. rewrite in_app_iff. cbn [In].
      intros [Hin|[Hin|[Hin|[]]]]; try discriminate. now apply Hnc.
    + right. repeat split; try lia. left. right. apply in_or_app. right. now left.
    + right. repeat split; lia.
  - destruct He; lia.
Qed.

(** The theorem on the first visit of an initialized session. *)
Lemma visitSite_counts_once_witness :
  sitesVisited (stats (w_session initialized_world))
  = sitesSuccessful (stats (w_session initialized_world))
    + sitesFailed (stats (w_session initialized_world))
  /\ exists fx w',
       _visitSite (sample_env (fun _ => false) false) (default_config false)
                  ascii_toLowerCase "https://a.example" 1 3 initialized_world
       = (Returned tt, fx, w')
       /\ sitesVisited (stats (w_session w'))
          = sitesSuccessful (stats (w_session w')) + sitesFailed (stats (w_session w')).
Proof.
  split; [reflexivity|].
  destruct (visitSite_counts_once (sample_env (fun _ => false) false)
              (default_config false) ascii_toLowerCase "https://a.example" 1 3
              initialized_world)
    as (fx & w' & E & _ & _ & Hinv).
  exists fx, w'. split; [exact E|]. apply Hinv. reflexivity.
Defined.

Lemma last_app_tail {A} (l : list A) (x d : A) : last (l ++ [x]) d = x.
Proof. apply last_last. Qed.

(** C1 (as the code has it). Every visit returns to the loop of the
    session with the control fields (state, stop flag, queue) untouched,
    and closes with exactly one of [siteComplete], [siteFailed] and
    [captchaDetected], emitted last.  When a CAPTCHA is reported the visit
    stops there: the report is followed by [captchaDetected] and nothing
    else (no further navigation), [sitesFailed] grows by 1,
    [sitesSuccessful] does not move, and neither [siteComplete] nor
    [siteFailed] is emitted.  When no CAPTCHA is reported, exactly one of
    [siteComplete] and [siteFailed] is emitted. *)
Theorem visitSite_closing_event
  (env : Env) (Config : ConfigManager) (toLowerCase : string -> string)
  (url : string) (current total : Z) (w : World) :
  exists fx w',
    _visitSite env Config toLowerCase url current total w = (Returned tt, fx, w')
    /\ keeps w w'
    /\ (exists closer, filter is_closer fx = [closer]
                       /\ last fx (Emit E_breakEnd) = closer)
    /\ (In (HasCaptcha true) fx ->
        (exists fx0, fx = fx0 ++ [HasCaptcha true; Emit (E_captchaDetected url)]
                     /\ ~ In (HasCaptcha true) fx0)
        /\ sitesFailed (stats (w_session w')) = sitesFailed (stats (w_session w)) + 1
        /\ sitesSuccessful (stats (w_session w')) = sitesSuccessful (stats (w_session w))
        /\ filter is_siteComplete fx = []
        /\ filter is_siteFailed fx = [])
    /\ (~ In (HasCaptcha true) fx ->
        (List.length (filter is_siteComplete fx)
         + List.length (filter is_siteFailed fx) = 1)%nat).
Proof.
  destruct (_visitSite_shape env Config toLowerCase url current total w)
    as (fx0 & tail & ds & df & w' & E & Hk & Hq & He & Hv & Hs & Hf).
  exists (Emit (E_siteStart url current total) :: fx0 ++ tail), w'.
  split; [exact E|]. split; [exact Hk|].
  assert (Hcl : filter is_closer fx0 = [])
    by (apply quiet_filter_closer; [auto|exact Hq]).
  assert (Hc : filter is_siteComplete fx0 = [])
    by (apply quiet_filter_closer; [now intros [[]| | | | | | | | | |]|exact Hq]).
  assert (Hfl : filter is_siteFailed fx0 = [])
    by (apply quiet_filter_closer; [now intros [[]| | | | | | | | | |]|exact Hq]).
  pose proof (quiet_no_captcha fx0 Hq) as Hnc.
  split.
  { cbn [filter is_closer]. rewrite filter_app, Hcl.
    destruct He; cbn [filter is_closer app]; eexists; (split; [reflexivity|]).
    - rewrite app_comm_cons. apply last_app_tail.
    - change [HasCaptcha true; Emit (E_captchaDetected url)]
        with ([HasCaptcha true] ++ [Emit (E_captchaDetected url)]).
      rewrite app_comm_cons, app_assoc. apply last_app_tail.
    - rewrite app_comm_cons. apply last_app_tail. }
  cbn [filter is_siteComplete is_siteFailed In]. rewrite !filter_app, Hc, Hfl.
  rewrite in_app_iff.
  destruct He; cbn [filter is_siteComplete is_siteFailed app List.length In].
  - split; [|reflexivity].
    intros [Hin|[Hin|[Hin|[]]]]; try discriminate. now elim Hnc.
  - split; [|intro Hn; elim Hn; right; right; now left].
    intros _. split.
    + exists (Emit (E_siteStart url current total) :: fx0). split; [reflexivity|].
      cbn [In]. intros [Hin|Hin]; [discriminate|now apply Hnc].
    + repeat split; lia.
  - split; [|reflexivity].
    intros [Hin|[Hin|[Hin|[]]]]; try discriminate. now elim Hnc.
Qed.

(** C1 as stated fails on the CAPTCHA path: the visit closes with
    [captchaDetected] and emits neither [siteComplete] nor [siteFailed]. *)
Lemma visitSite_captcha_emits_neither :
  snd (fst captcha_visit)
  = [ Emit (E_siteStart "https://a.example" 1 3);
      PageGoto "https://a.example" (Ok 200);
      BrowserEmit (B_navigated "https://a.example" 200 1);
      Emit (E_pageVisited "https://a.example" 200);
      DismissPopups;
      HasCaptcha true;
      Emit (E_captchaDetected "https://a.example") ]
  /\ filter (fun e => is_siteComplete e || is_siteFailed e) (snd (fst captcha_visit)) = []
  /\ sitesFailed (stats (w_session (snd captcha_visit))) = 1.
Proof. vm_compute. repeat split; reflexivity. Qed.

(** The theorem on a visit whose page shows a CAPTCHA. *)
Lemma visitSite_closing_event_witness :
  exists fx w',
    _visitSite (sample_env (fun _ => false) true) (default_config false)
               ascii_toLowerCase "https://a.example" 1 3 initialized_world
    = (Returned tt, fx, w')
    /\ In (HasCaptcha true) fx
    /\ sitesFailed (stats (w_session w')) = 1
    /\ filter is_siteComplete fx = []
    /\ filter is_siteFailed fx = [].
Proof.
  destruct (visitSite_closing_event (sample_env (fun _ => false) true)
              (default_config false) ascii_toLowerCase "https://a.example" 1 3
              initialized_world)
    as (fx & w' & E & _ & _ & Hcap & _).
  assert (Hin : In (HasCaptcha true) fx).
  { pose proof (f_equal (fun r => snd (fst r)) E) as E2. cbn beta in E2.
    cbn [fst snd] in E2. rewrite <- E2. vm_compute. do 5 right. left. reflexivity. }
  destruct (Hcap Hin) as (_ & Hf & _ & Hc & Hfl).
  exists fx, w'. repeat split; assumption.
Defined.

(** ** The fuel of [_followLinks] is enough *)

Lemma bind_ext {A B} (c : Run A) (k1 k2 : A -> Run B) w :
  (forall a w1, k1 a w1 = k2 a w1) -> bind c k1 w = bind c k2 w.
Proof.
  intro H. unfold bind. destruct (c w) as [[[a|e|] fx] w1]; try reflexivity.
  now rewrite H.
Qed.

Section FollowLinksFuel.

Variable env : Env.
Variable Config : ConfigManager.
Variable toLowerCase : string -> string.

Lemma followLinks_step_ext depth (n1 n2 : Run unit) :
  (forall w, n1 w = n2 w) ->
  forall w, followLinks_step env Config toLowerCase depth n1 w
            = followLinks_step env Config toLowerCase depth n2 w.
Proof.
  intros H w. unfold followLinks_step.
  apply bind_ext. intros config w1.
  destruct (depth >=? _); [reflexivity|]. destruct (negb _); [reflexivity|].
  apply bind_ext. intros shouldFollow w2. destruct (negb _); [reflexivity|].
  do 5 (apply bind_ext; intros). destruct (navigatedAway _); [apply H|reflexivity].
Qed.

Lemma followLinks_step_at_limit depth (n1 n2 : Run unit) w :
  maxDepth (behavior (_config Config)) <= depth ->
  followLinks_step env Config toLowerCase depth n1 w
  = followLinks_step env Config toLowerCase depth n2 w.
Proof.
  intro H. unfold followLinks_step, Config_get_call, Config_get.
  destruct (_loaded Config); [|reflexivity].
  cbn [of_result]. rewrite !bind_ret_l.
  replace (depth >=? maxDepth (behavior (_config Config))) with true; [reflexivity|].
  symmetry. apply Z.geb_le. exact H.
Qed.

Lemma _followLinks_from_S fuel depth :
  _followLinks_from env Config toLowerCase (S fuel) depth
  = followLinks_step env Config toLowerCase depth
      (_followLinks_from env Config toLowerCase fuel (depth + 1)).
Proof. reflexivity. Qed.

(** Beyond [maxDepth - depth], more fuel changes nothing: the bound on the
    recursion is never the reason why [_followLinks] stops. *)
Lemma _followLinks_fuel_enough fuel : forall depth w,
  maxDepth (behavior (_config Config)) - depth <= Z.of_nat fuel ->
  _followLinks_from env Config toLowerCase (S fuel) depth w
  = _followLinks_from env Config toLowerCase fuel depth w.
Proof.
  induction fuel as [|fuel IH]; intros depth w H.
  - rewrite _followLinks_from_S. cbn [_followLinks_from].
    apply followLinks_step_at_limit. cbn in H. lia.
  - rewrite (_followLinks_from_S (S fuel)), (_followLinks_from_S fuel).
    apply followLinks_step_ext. intro w1. apply IH. lia.
Qed.

End FollowLinksFuel.

(** ** Navigation with retries *)

Section GotoFacts.

Variable env : Env.
Variable Config : ConfigManager.
Hypothesis Config_loaded : _loaded Config = true.

Lemma Config_get_call_loaded w :
  Config_get_call Config w = (Returned (_config Config), [], w).
Proof. unfold Config_get_call, Config_get. now rewrite Config_loaded. Qed.

Lemma goto_attempts_all_fail n : forall b url k lastError w,
  (forall t, exists e, page_goto_result env b url t = Throw e) ->
  exists e fx w',
    goto_attempts env n b url (Z.of_nat (k + n) - 1) (Z.of_nat k) lastError w
    = (Threw e, fx, w')
    /\ List.length (filter is_PageGoto fx) = n
    /\ timeouts fx = map backoff (seq k (n - 1)).
Proof.
  induction n as [|n IH]; intros b url k lastError w Hfail.
  - cbn. eexists _, _, _. split; [reflexivity|]. split; reflexivity.
  - cbn [goto_attempts]. unfold try_catch, page_goto_call, bind at 1 2 3.
    cbn [external]. destruct (Hfail (w_tick w)) as [e He]. rewrite He.
    cbn [effect of_result throw app].
    replace (Z.of_nat (k + S n) - 1) with (Z.of_nat (S k + n) - 1) by lia.
    replace (Z.of_nat k + 1) with (Z.of_nat (S k)) by lia.
    unfold bind at 1.
    destruct n as [|n].
    + replace (Z.of_nat k <? Z.of_nat (S k + 0) - 1) with false
        by (symmetry; apply Z.ltb_ge; lia).
      cbn [ret].
      destruct (IH b url (S k) e (advance_tick (S (w_tick w)) w) Hfail)
        as (e' & fx & w' & E & Hn & Ht).
      rewrite E. eexists _, _, _. split; [reflexivity|].
      cbn [app filter is_PageGoto List.length timeouts flat_map].
      fold (timeouts fx). rewrite Hn, Ht. split; reflexivity.
    + replace (Z.of_nat k <? Z.of_nat (S k + S n) - 1) with true
        by (symmetry; apply Z.ltb_lt; lia).
      unfold sleep. cbn [bind effect external app].
      match goal with
      | |- context [goto_attempts env (S n) b url _ _ e ?w1] =>
          destruct (IH b url (S k) e w1 Hfail) as (e' & fx & w' & E & Hn & Ht)
      end.
      rewrite E. eexists _, _, _. split; [reflexivity|].
      cbn [app filter is_PageGoto List.length timeouts flat_map].
      fold (timeouts fx). rewrite Hn, Ht.
      split; [reflexivity|]. cbn [Nat.sub seq map]. rewrite Nat.sub_0_r.
      reflexivity.
Qed.

End GotoFacts.

Section NavigationFailure.

Variable env : Env.
Variable Config : ConfigManager.
Variable toLowerCase : string -> string.
Hypothesis Config_loaded : _loaded Config = true.

Lemma BrowserController_goto_all_fail b url retries w :
  (forall t, exists e, page_goto_result env b url t = Throw e) ->
  exists e fx w',
    BrowserController_goto env Config b url retries w = (Threw e, fx, w')
    /\ List.length (filter is_PageGoto fx) = goto_maxRetries retries
    /\ timeouts fx = backoff_delays (goto_maxRetries retries)
    /\ keeps w w' /\ counters w' = counters w /\ Forall quiet_effect fx.
Proof.
  intro Hfail.
  pose proof (quiet_BrowserController_goto env Config b url retries w) as Hq.
  unfold BrowserController_goto in *. unfold bind in *.
  rewrite (Config_get_call_loaded Config Config_loaded) in *.
  set (n := goto_maxRetries retries) in *.
  destruct (goto_attempts_all_fail env n b url 1 "undefined" w Hfail)
    as (e & fx & w' & E & Hn & Ht).
  replace (Z.of_nat (1 + n) - 1) with (Z.of_nat n) in E by lia.
  change (Z.of_nat 1) with 1 in E. rewrite E in *.
  destruct Hq as (_ & Hk & Hc & Hfx).
  exists e, fx, w'. cbn [app] in *. splits; try assumption; reflexivity.
Qed.

Lemma _visitSite_navigation_fails url current total w b :
  browser (w_session w) = Some b ->
  (forall t, exists e, page_goto_result env b url t = Throw e) ->
  exists e d fx w',
    _visitSite env Config toLowerCase url current total w
    = (Returned tt,
       Emit (E_siteStart url current total) :: fx ++ [Emit (E_siteFailed url e d)], w')
    /\ List.length (filter is_PageGoto fx) = 3%nat
    /\ timeouts fx = [1000; 2000]
    /\ Forall quiet_effect fx
    /\ keeps w w'
    /\ sitesVisited (stats (w_session w')) = sitesVisited (stats (w_session w)) + 1
    /\ sitesFailed (stats (w_session w')) = sitesFailed (stats (w_session w)) + 1
    /\ sitesSuccessful (stats (w_session w')) = sitesSuccessful (stats (w_session w)).
Proof.
  intros Hb Hfail.
  unfold _visitSite, Date_now_call.
  cbn -[visit_body visit_failed try_catch].
  set (t0 := Date_now env (w_tick w)).
  set (w1 := on_session _ _).
  unfold try_catch, visit_body. unfold bind at 1. unfold the_browser.
  unfold bind at 1. cbn [get_session].
  replace (browser (w_session w1)) with (Some b) by (subst w1; cbn; now rewrite Hb).
  cbn [ret app]. unfold bind at 1.
  destruct (BrowserController_goto_all_fail b url None w1 Hfail)
    as (e & fx & w2 & E & Hn & Ht & Hk & Hc & Hq).
  rewrite E. unfold visit_failed, Date_now_call. cbn.
  eexists e, (Date_now env (w_tick w2) - t0), fx, _.
  split; [reflexivity|]. split; [exact Hn|]. split; [exact Ht|]. split; [exact Hq|].
  unfold counters in Hc. subst w1. cbn in Hc. injection Hc as Hc1 Hc2 Hc3.
  split.
  { apply keeps_trans with w2; [|unfold keeps; cbn; tauto].
    eapply keeps_trans; [|exact Hk]. unfold keeps; cbn; tauto. }
  cbn. splits; lia.
Qed.

End NavigationFailure.

(** ** Runs that return *)

Lemma tally_refl w : tally 0 w w.
Proof. unfold tally. cbn zeta. splits; try lia. apply keeps_refl. Qed.

Lemma tally_trans n m w w1 w2 : tally n w w1 -> tally m w1 w2 -> tally (n + m) w w2.
Proof.
  unfold tally. cbn zeta. intros (K1 & V1 & S1 & A1 & B1) (K2 & V2 & S2 & A2 & B2).
  splits; try lia. eapply keeps_trans; eassumption.
Qed.

Lemma tally_ready n w w' : tally n w w' -> ready w -> ready w'.
Proof. intros [K _]. now apply keeps_ready. Qed.

Lemma tally_stop n w w' :
  tally n w w' -> _shouldStop (w_session w') = _shouldStop (w_session w).
Proof. intros [K _]. unfold keeps in K. tauto. Qed.

Lemma ends_ret {A} (a : A) w : ends (tally 0) w (ret a w).
Proof. exists a, [], w. split; [reflexivity|apply tally_refl]. Qed.

Lemma ends_bind {A B} n m (c : Run A) (k : A -> Run B) w :
  ends (tally n) w (c w) ->
  (forall a w1, tally n w w1 -> ends (tally m) w1 (k a w1)) ->
  ends (tally (n + m)) w (bind c k w).
Proof.
  intros (a & fx & w1 & E & T1) Hk. unfold bind. rewrite E.
  destruct (Hk a w1 T1) as (b & fx2 & w2 & E2 & T2). rewrite E2.
  exists b, (fx ++ fx2), w2. split; [reflexivity|]. eapply tally_trans; eassumption.
Qed.

Lemma quiet_ends {A} (c : Run A) w :
  quiet c -> (exists a, fst (fst (c w)) = Returned a) -> ends (tally 0) w (c w).
Proof.
  intros Hq [a Ha]. specialize (Hq w).
  destruct (c w) as [[o fx] w']. cbn in Ha. subst o.
  destruct Hq as (_ & K & C & _). exists a, fx, w'. split; [reflexivity|].
  unfold tally, counters in *. cbn zeta. injection C as C1 C2 C3.
  splits; try lia. exact K.
Qed.

Lemma bind_get_session {B} (k : SessionManager -> Run B) w :
  bind get_session k w = k (w_session w) w.
Proof. unfold bind, get_session. now destruct (k (w_session w) w) as [[o fx] w']. Qed.

Lemma bind_update_stats {B} f (k : unit -> Run B) w :
  bind (update_stats f) k w = k tt (on_session (with_stats f) w).
Proof.
  unfold bind, update_stats, update.
  now destruct (k tt (on_session (with_stats f) w)) as [[o fx] w'].
Qed.

Section LoopFacts.

Variable env : Env.
Variable Config : ConfigManager.
Variable toLowerCase : string -> string.
Hypothesis Config_loaded : _loaded Config = true.

Lemma bind_Config_get_call {B} (k : Configuration -> Run B) w :
  bind (Config_get_call Config) k w = k (_config Config) w.
Proof.
  unfold bind. rewrite (Config_get_call_loaded Config Config_loaded).
  now destruct (k (_config Config) w) as [[o fx] w'].
Qed.

Lemma bind__checkPaused {B} (k : unit -> Run B) w :
  ready w -> bind _checkPaused k w = k tt w.
Proof.
  intros [Hp _]. unfold _checkPaused. rewrite bind_assoc, bind_get_session.
  rewrite Hp. apply bind_ret_l.
Qed.

Lemma sleep_ends ms w : ends (tally 0) w (sleep ms w).
Proof. apply quiet_ends; [apply quiet_sleep|]. cbn. eauto. Qed.

Lemma _waitBetweenSites_ends w : ends (tally 0) w (_waitBetweenSites env Config w).
Proof.
  apply quiet_ends; [apply quiet__waitBetweenSites|].
  unfold _waitBetweenSites. rewrite bind_Config_get_call.
  unfold bind, random. destruct (Timing_betweenSitesDelay _ _) as [d t].
  cbn. eauto.
Qed.

Lemma quiet_elapsed_minutes : quiet (elapsed_minutes env).
Proof. unfold elapsed_minutes. pose proof (quiet_Date_now_call env). quiet_auto. Qed.

Lemma elapsed_minutes_ends w : ready w -> ends (tally 0) w (elapsed_minutes env w).
Proof.
  intros [_ Hs]. apply quiet_ends; [apply quiet_elapsed_minutes|].
  unfold elapsed_minutes, Date_now_call, bind, external, get_session. cbn.
  destruct (startTime (stats (w_session w))); [cbn; eauto|contradiction].
Qed.

Lemma quiet__takeBreak d : quiet (_takeBreak env d).
Proof. unfold _takeBreak. pose proof quiet_sleep. quiet_auto; auto. Qed.

Lemma _takeBreak_ends d w : ends (tally 0) w (_takeBreak env d w).
Proof.
  apply quiet_ends; [apply quiet__takeBreak|].
  unfold _takeBreak, bind, random. destruct (Random_int _ _ _ _) as [x t].
  cbn. eauto.
Qed.

Lemma scheduled_break_ends config w :
  ready w -> ends (tally 0) w (scheduled_break env config w).
Proof.
  intro Hr. unfold scheduled_break.
  destruct (breakInterval (session config) >? 0); [|apply ends_ret].
  change 0 with (0 + 0). apply ends_bind; [now apply elapsed_minutes_ends|].
  intros elapsed w1 T1. rewrite bind_get_session.
  destruct (_ && _)%bool; [apply _takeBreak_ends|apply ends_ret].
Qed.

Lemma _visitSite_ends url current total w :
  ends (tally 1) w (_visitSite env Config toLowerCase url current total w).
Proof.
  destruct (_visitSite_shape env Config toLowerCase url current total w)
    as (fx0 & tail & ds & df & w' & E & K & _ & He & Hv & Hs & Hf).
  rewrite E. eexists _, _, _. split; [reflexivity|].
  unfold tally. cbn zeta. destruct He; splits; try lia; exact K.
Qed.

End LoopFacts.

Lemma ends_bind_ex {A B} n (P : Z -> Prop) (g : Z -> Z)
  (c : Run A) (k : A -> Run B) w :
  ends (tally n) w (c w) ->
  (forall a w1, tally n w w1 -> exists m, P m /\ ends (tally (g m)) w1 (k a w1)) ->
  exists m, P m /\ ends (tally (n + g m)) w (bind c k w).
Proof.
  intros (a & fx & w1 & E & T1) Hk. unfold bind. rewrite E.
  destruct (Hk a w1 T1) as (m & Hm & b & fx2 & w2 & E2 & T2). rewrite E2.
  exists m. split; [exact Hm|].
  exists b, (fx ++ fx2), w2. split; [reflexivity|]. eapply tally_trans; eassumption.
Qed.

Lemma update_currentSite_ends u w :
  ends (tally 0) w (update (with_currentSite u) w).
Proof.
  exists tt, [], (on_session (with_currentSite u) w). split; [reflexivity|].
  unfold tally, keeps. cbn. splits; try reflexivity; lia.
Qed.

Section VisitLoopFacts.

Variable env : Env.
Variable Config : ConfigManager.
Variable toLowerCase : string -> string.
Hypothesis Config_loaded : _loaded Config = true.

(** The loop of [_visitSites] returns; it visits [n] sites, all of them when
    no limit is configured and no stop is requested. *)
Lemma visit_loop_ends config rest : forall i len tot w,
  ready w ->
  exists n,
    (0 <= n <= Z.of_nat (List.length rest)
     /\ (unbounded config -> _shouldStop (w_session w) = false ->
         n = Z.of_nat (List.length rest)))
    /\ ends (tally n) w (visit_loop env Config toLowerCase config rest i len tot w).
Proof.
  induction rest as [|site rest IH]; intros i len tot w Hr.
  { exists 0. cbn. splits; try lia; apply ends_ret. }
  cbn [visit_loop]. rewrite bind_get_session.
  destruct (_shouldStop (w_session w)) eqn:Es.
  { exists 0. cbn [List.length]. splits; try lia; try discriminate; apply ends_ret. }
  rewrite bind__checkPaused by exact Hr. rewrite bind_get_session.
  destruct ((maxPages (session config) >? 0) && _)%bool eqn:Ep.
  { exists 0. cbn [List.length]. splits; try lia; [|apply ends_ret].
    intros [Hu _] _. exfalso. apply andb_true_iff in Ep. destruct Ep as [Ep _].
    apply Z.gtb_lt in Ep. lia. }
  match goal with
  | |- context [bind _ (fun over : bool => if over then ret tt else ?R)] =>
      set (REST := R)
  end.
  assert (Hrest : forall w1, tally 0 w w1 ->
            exists n,
              (0 <= n <= Z.of_nat (List.length (site :: rest))
               /\ (unbounded config -> _shouldStop (w_session w) = false ->
                   n = Z.of_nat (List.length (site :: rest))))
              /\ ends (tally n) w1 (REST w1)).
  { intros w1 T1. subst REST.
    assert (Hr1 : ready w1) by (eapply tally_ready; eassumption).
    pose proof (tally_stop _ _ _ T1) as Hs1.
    set (P := fun m => 0 <= m <= Z.of_nat (List.length rest)
                       /\ (unbounded config -> _shouldStop (w_session w) = false ->
                           m = Z.of_nat (List.length rest))).
    assert (H : exists m, P m /\ ends (tally (0 + (0 + (1 + (0 + m))))) w1
                  (bind (update (with_currentSite (Some site)))
                     (fun _ => bind (scheduled_break env config)
                       (fun _ => bind (_visitSite env Config toLowerCase site (i + 1) tot)
                         (fun _ => bind get_session
                           (fun s => bind (if (i <? len - 1) && negb (_shouldStop s)
                                           then bind (_waitBetweenSites env Config)
                                                     (fun _ => ret tt)
                                           else ret tt)
                             (fun _ => visit_loop env Config toLowerCase config rest
                                         (i + 1) len tot))))) w1)).
    { apply (ends_bind_ex 0 P (fun m => 0 + (1 + (0 + m))));
        [apply update_currentSite_ends|intros _ w2 T2].
      assert (Hr2 : ready w2) by (eapply tally_ready; eassumption).
      apply (ends_bind_ex 0 P (fun m => 1 + (0 + m)));
        [now apply scheduled_break_ends|intros _ w3 T3].
      apply (ends_bind_ex 1 P (fun m => 0 + m));
        [now apply _visitSite_ends|intros _ w4 T4].
      rewrite bind_get_session.
      apply (ends_bind_ex 0 P (fun m => m)).
      { destruct ((i <? len - 1) && negb (_shouldStop (w_session w4)))%bool;
          [|apply ends_ret].
        change 0 with (0 + 0). apply ends_bind; [now apply _waitBetweenSites_ends|].
        intros. apply ends_ret. }
      intros _ w5 T5.
      assert (Hr5 : ready w5).
      { eapply tally_ready; [exact T5|]. eapply tally_ready; [exact T4|].
        eapply tally_ready; [exact T3|]. exact Hr2. }
      destruct (IH (i + 1) len tot w5 Hr5) as (m & [Hm1 Hm2] & Hm3).
      exists m. split; [|exact Hm3]. split; [exact Hm1|].
      intros Hu Hs. apply Hm2; [exact Hu|].
      rewrite (tally_stop _ _ _ T5), (tally_stop _ _ _ T4), (tally_stop _ _ _ T3),
        (tally_stop _ _ _ T2), Hs1. exact Hs. }
    destruct H as (m & [Hm1 Hm2] & Hm3).
    exists (1 + m). cbn [List.length]. split.
    - split; [lia|]. intros Hu Hs. specialize (Hm2 Hu Hs). lia.
    - replace (1 + m) with (0 + (0 + (1 + (0 + m)))) by lia. exact Hm3. }
  destruct (maxDuration (session config) >? 0) eqn:Ed.
  - rewrite bind_assoc.
    destruct (elapsed_minutes_ends env w Hr) as (elapsed & fx & w1 & E & T1).
    unfold bind at 1. rewrite E. rewrite bind_ret_l.
    destruct (Qle_bool _ elapsed).
    + exists 0. cbn [List.length ret]. splits; try lia.
      * intros [_ Hu] _. exfalso. apply Z.gtb_lt in Ed. lia.
      * eexists _, _, _. split; [reflexivity|exact T1].
    + destruct (Hrest w1 T1) as (n & [Hn1 Hn2] & b & fx2 & w2 & E2 & T2).
      exists n. split; [split; [exact Hn1|intros Hu _; exact (Hn2 Hu Es)]|].
      rewrite E2. eexists _, _, _. split; [reflexivity|].
      replace n with (0 + n) by lia. eapply tally_trans; eassumption.
  - rewrite bind_ret_l.
    destruct (Hrest w (tally_refl w)) as (n & [Hn1 Hn2] & He).
    exists n. split; [split; [exact Hn1|intros Hu _; exact (Hn2 Hu Es)]|exact He].
Qed.

End VisitLoopFacts.

Lemma tally_0_intro w w' : keeps w w' -> counters w' = counters w -> tally 0 w w'.
Proof.
  intros K C. unfold tally, counters in *. cbn zeta. injection C as C1 C2 C3.
  splits; try lia. exact K.
Qed.

Lemma try_catch_ends {A} (c : Run A) (h : string -> Run A) w :
  quiet c -> (forall e w1, ends (tally 0) w1 (h e w1)) ->
  ends (tally 0) w (try_catch c h w).
Proof.
  intros Hq Hh. unfold try_catch. specialize (Hq w).
  destruct (c w) as [[[a|e|] fx] w1]; destruct Hq as (Hp & K & C & _);
    [| |contradiction].
  - exists a, fx, w1. split; [reflexivity|now apply tally_0_intro].
  - destruct (Hh e w1) as (b & fx2 & w2 & E & T). rewrite E.
    exists b, (fx ++ fx2), w2. split; [reflexivity|].
    change 0 with (0 + 0). eapply tally_trans; [|exact T]. now apply tally_0_intro.
Qed.

Section StartFacts.

Variable env : Env.
Variable Config : ConfigManager.
Variable toLowerCase : string -> string.
Variable RegExp_i : string -> option (string -> bool).
Hypothesis Config_loaded : _loaded Config = true.

Lemma search_loop_ends n : forall i count w,
  ready w -> ends (tally 0) w (search_loop env Config n i count w).
Proof.
  induction n as [|n IH]; intros i count w Hr; cbn [search_loop].
  { apply ends_ret. }
  rewrite bind_get_session.
  destruct (_shouldStop (w_session w)); [apply ends_ret|].
  rewrite bind__checkPaused by exact Hr.
  change 0 with (0 + 0). apply ends_bind.
  - apply try_catch_ends.
    + pose proof (quiet_performSearch_call env).
      pose proof (quiet_stayOnPage_call env).
      pose proof (quiet__waitBetweenSites env Config).
      quiet_auto; auto.
    + intros e w1. apply quiet_ends.
      * pose proof (quiet_Date_now_call env). quiet_auto.
      * cbn. eauto.
  - intros _ w1 T1. apply IH. eapply tally_ready; eassumption.
Qed.

Lemma _visitSites_ends w :
  ready w ->
  exists n,
    (0 <= n <= Z.of_nat (List.length (_siteQueue (w_session w)))
     /\ (unbounded (_config Config) -> _shouldStop (w_session w) = false ->
         n = Z.of_nat (List.length (_siteQueue (w_session w)))))
    /\ ends (tally n) w (_visitSites env Config toLowerCase w).
Proof.
  intro Hr. unfold _visitSites.
  rewrite (bind_Config_get_call Config Config_loaded), bind_get_session.
  now apply visit_loop_ends.
Qed.

(** The [try] block of [start()] returns with the state [stopped]; [w3] is
    the world when the loop over the queue is left. *)
Lemma start_body_ends w :
  ready w ->
  exists n fx w3 w' t,
    start_body env Config toLowerCase (_config Config) w = (Returned tt, fx, w')
    /\ (0 <= n <= Z.of_nat (List.length (_siteQueue (w_session w)))
        /\ (unbounded (_config Config) -> _shouldStop (w_session w) = false ->
            n = Z.of_nat (List.length (_siteQueue (w_session w)))))
    /\ tally n w w3
    /\ w_session w'
       = with_state STOPPED (with_stats (set_endTime (Some t)) (w_session w3)).
Proof.
  intro Hr. unfold start_body.
  assert (H1 : ends (tally 0) w
                 ((if searches (behavior (_config Config))
                      && (searchCount (behavior (_config Config)) >? 0)
                   then _performSearches env Config (searchCount (behavior (_config Config)))
                   else ret tt) w)).
  { destruct (_ && _)%bool; [now apply search_loop_ends|apply ends_ret]. }
  destruct H1 as (a1 & fx1 & w1 & E1 & T1). unfold bind at 1. rewrite E1.
  assert (Hr1 : ready w1) by (eapply tally_ready; eassumption).
  destruct (_visitSites_ends w1 Hr1) as (n & [Hn1 Hn2] & a2 & fx2 & w2 & E2 & T2).
  unfold bind at 1. rewrite E2.
  unfold Date_now_call, getStats. cbn.
  destruct T1 as (K1 & T1'). pose proof K1 as K1'.
  unfold keeps in K1'. destruct K1' as (_ & _ & _ & _ & Hs1 & _ & Hq1 & _).
  rewrite Hq1, Hs1 in *.
  exists n. eexists _, w2, _, _. split; [reflexivity|].
  split; [split; assumption|].
  split; [|reflexivity].
  replace n with (0 + n) by lia. eapply tally_trans; [|exact T2].
  split; assumption.
Qed.

End StartFacts.

Lemma bind_update {B} f (k : unit -> Run B) w :
  bind (update f) k w = k tt (on_session f w).
Proof. unfold bind, update. now destruct (k tt (on_session f w)) as [[o fx] w']. Qed.

Lemma bind_external {A B} (f : nat -> A) (k : A -> Run B) w :
  bind (external f) k w = k (f (w_tick w)) (advance_tick (S (w_tick w)) w).
Proof. unfold bind, external. now destruct (k _ _) as [[o fx] w']. Qed.

Lemma bind_emit {B} e (k : unit -> Run B) w :
  bind (emit e) k w = let '(o, fx, w') := k tt w in (o, Emit e :: fx, w').
Proof. reflexivity. Qed.

Section StartRuns.

Variable env : Env.
Variable Config : ConfigManager.
Variable toLowerCase : string -> string.
Variable RegExp_i : string -> option (string -> bool).
Hypothesis Config_loaded : _loaded Config = true.

Lemma start_guard_passes (init : Run bool) (k : unit -> Run unit) w :
  state (w_session w) = IDLE \/ state (w_session w) = STARTING ->
  bind (start_guard init (w_session w)) k w = k tt w.
Proof.
  unfold start_guard.
  intros [-> | ->]; cbn [SessionState_eqb negb andb]; apply bind_ret_l.
Qed.

(** A session that is idle or starting, not paused, with a configuration
    loaded and a queue of at least one site, runs to the state [stopped]. *)
Lemma start_with_runs (init : Run bool) w queue t1 :
  state (w_session w) = IDLE \/ state (w_session w) = STARTING ->
  _isPaused (w_session w) = false ->
  getSites toLowerCase RegExp_i (Math_random env) (w_sites w)
           (cfg_categories (sites (_config Config))) (siteOptions (_config Config))
           (w_tick w) = Ok (queue, t1) ->
  queue <> [] ->
  exists fx w' n,
    start_with env Config toLowerCase RegExp_i init w = (Returned tt, fx, w')
    /\ state (w_session w') = STOPPED
    /\ _siteQueue (w_session w') = queue
    /\ browser (w_session w') = browser (w_session w)
    /\ 0 <= n <= Z.of_nat (List.length queue)
    /\ (unbounded (_config Config) -> _shouldStop (w_session w) = false ->
        n = Z.of_nat (List.length queue))
    /\ sitesVisited (stats (w_session w')) = sitesVisited (stats (w_session w)) + n
    /\ sitesSuccessful (stats (w_session w')) + sitesFailed (stats (w_session w'))
       = sitesSuccessful (stats (w_session w)) + sitesFailed (stats (w_session w)) + n
    /\ sitesSuccessful (stats (w_session w)) <= sitesSuccessful (stats (w_session w'))
    /\ sitesFailed (stats (w_session w)) <= sitesFailed (stats (w_session w')).
Proof.
  intros Hst Hp Hget Hne. unfold start_with.
  rewrite bind_get_session, (start_guard_passes init _ w Hst).
  unfold start_run.
  rewrite (bind_Config_get_call Config Config_loaded).
  unfold bind at 1. unfold Sites_getSites at 1. rewrite Hget.
  rewrite bind_update.
  destruct queue as [|site queue]; [contradiction|].
  cbn [List.length Nat.eqb].
  rewrite bind_update. unfold Date_now_call. rewrite bind_external.
  rewrite bind_update_stats.
  rewrite !bind_emit.
  set (w_run := on_session _ _).
  assert (Hr : ready w_run) by (subst w_run; split; cbn; [exact Hp|discriminate]).
  destruct (start_body_ends env Config toLowerCase Config_loaded w_run Hr)
    as (n & fx & w3 & w' & t & E & [Hn1 Hn2] & T & Hw').
  unfold try_catch. rewrite E.
  exists ([] ++ Emit (E_stateChange RUNNING)
          :: Emit (E_started (Z.of_nat (S (List.length queue)))) :: fx), w', n.
  split; [reflexivity|].
  destruct T as (K & V & SF & S1 & F1). unfold keeps in K.
  destruct K as (_ & Kb & _ & _ & Ks & _ & Kq & _).
  rewrite Hw'. subst w_run. cbn in *.
  splits; try assumption; try reflexivity; lia.
Qed.

End StartRuns.

(** C2. With a configuration loaded:
    - a navigation whose every attempt throws makes [goto] try as many times
      as its attempt count (3 unless [options.retries] says otherwise),
      waiting [min(1000 * 2^(attempt-1), 10000)] ms after each failed
      attempt but the last, and then throw;
    - the visit of such a site makes 3 attempts with delays of 1000 and
      2000 ms, ends with [siteFailed], adds 1 to [sitesVisited] and to
      [sitesFailed] and nothing to [sitesSuccessful], and returns to the
      session with the control fields untouched;
    - a session that is idle or starting and not paused, whose queue has at
      least one site, returns from [start()] in the state [stopped]
      whatever the navigations did; every visit made is counted as
      successful or failed, and without limits and without a stop request
      every site of the queue is visited. *)
Theorem navigation_failure_is_site_failure
  (env : Env) (Config : ConfigManager) (toLowerCase : string -> string)
  (RegExp_i : string -> option (string -> bool)) :
  _loaded Config = true ->
  (forall b url retries w,
      (forall t, exists e, page_goto_result env b url t = Throw e) ->
      exists e fx w',
        BrowserController_goto env Config b url retries w = (Threw e, fx, w')
        /\ List.length (filter is_PageGoto fx) = goto_maxRetries retries
        /\ timeouts fx
           = map (fun attempt => Z.min (1000 * 2 ^ (Z.of_nat attempt - 1)) 10000)
                 (seq 1 (goto_maxRetries retries - 1)))
  /\ goto_maxRetries None = 3%nat
  /\ (forall url current total w b,
        browser (w_session w) = Some b ->
        (forall t, exists e, page_goto_result env b url t = Throw e) ->
        exists e d fx w',
          _visitSite env Config toLowerCase url current total w
          = (Returned tt,
             Emit (E_siteStart url current total)
             :: fx ++ [Emit (E_siteFailed url e d)], w')
          /\ List.length (filter is_PageGoto fx) = 3%nat
          /\ timeouts fx = [1000; 2000]
          /\ filter is_closer fx = []
          /\ keeps w w'
          /\ sitesVisited (stats (w_session w'))
             = sitesVisited (stats (w_session w)) + 1
          /\ sitesFailed (stats (w_session w'))
             = sitesFailed (stats (w_session w)) + 1
          /\ sitesSuccessful (stats (w_session w'))
             = sitesSuccessful (stats (w_session w)))
  /\ (forall w queue t1,
        state (w_session w) = IDLE \/ state (w_session w) = STARTING ->
        _isPaused (w_session w) = false ->
        getSites toLowerCase RegExp_i (Math_random env) (w_sites w)
                 (cfg_categories (sites (_config Config)))
                 (siteOptions (_config Config)) (w_tick w) = Ok (queue, t1) ->
        queue <> [] ->
        exists fx w' n,
          start env Config toLowerCase RegExp_i w = (Returned tt, fx, w')
          /\ state (w_session w') = STOPPED
          /\ _siteQueue (w_session w') = queue
          /\ 0 <= n <= Z.of_nat (List.length queue)
          /\ (unbounded (_config Config) -> _shouldStop (w_session w) = false ->
              n = Z.of_nat (List.length queue))
          /\ sitesVisited (stats (w_session w'))
             = sitesVisited (stats (w_session w)) + n
          /\ sitesSuccessful (stats (w_session w')) + sitesFailed (stats (w_session w'))
             = sitesSuccessful (stats (w_session w))
               + sitesFailed (stats (w_session w)) + n).
Proof.
  intro Hl. split; [|split; [reflexivity|split]].
  - intros b url retries w Hfail.
    destruct (BrowserController_goto_all_fail env Config Hl b url retries w Hfail)
      as (e & fx & w' & E & Hn & Ht & _).
    exists e, fx, w'. splits; assumption.
  - intros url current total w b Hb Hfail.
    destruct (_visitSite_navigation_fails env Config toLowerCase Hl
                url current total w b Hb Hfail)
      as (e & d & fx & w' & E & Hn & Ht & Hq & K & Hv & Hf & Hs).
    exists e, d, fx, w'. splits; try assumption.
    apply quiet_filter_closer; [auto|exact Hq].
  - intros w queue t1 Hst Hp Hget Hne.
    destruct (start_with_runs env Config toLowerCase RegExp_i Hl
                (initialize env) w queue t1 Hst Hp Hget Hne)
      as (fx & w' & n & E & H1 & H2 & _ & H3 & H4 & H5 & H6 & _).
    exists fx, w', n. splits; try assumption; tauto.
Qed.

(** The theorem on a session with two destinations, the first of which is
    down: its visit fails after three attempts, the second is visited, and
    the session stops. *)
Lemma navigation_failure_is_site_failure_witness :
  _loaded (default_config false) = true
  /\ (exists e d fx w',
        _visitSite down_env (default_config false) ascii_toLowerCase
                   "https://down.example" 1 2 two_sites_world
        = (Returned tt,
           Emit (E_siteStart "https://down.example" 1 2)
           :: fx ++ [Emit (E_siteFailed "https://down.example" e d)], w')
        /\ timeouts fx = [1000; 2000]
        /\ sitesFailed (stats (w_session w')) = 1)
  /\ (exists fx w',
        start down_env (default_config false) ascii_toLowerCase literal_RegExp_i
              two_sites_world = (Returned tt, fx, w')
        /\ state (w_session w') = STOPPED
        /\ sitesVisited (stats (w_session w')) = 2).
Proof.
  assert (Hl : _loaded (default_config false) = true) by reflexivity.
  destruct (navigation_failure_is_site_failure down_env (default_config false)
              ascii_toLowerCase literal_RegExp_i Hl) as (_ & _ & Hvisit & Hstart).
  split; [exact Hl|]. split.
  - destruct (Hvisit "https://down.example"%string 1 2 two_sites_world
                {| page_attached := true |} eq_refl)
      as (e & d & fx & w' & E & _ & Ht & _ & _ & _ & Hf & _).
    { intro t. exists "net::ERR_CONNECTION_REFUSED"%string. reflexivity. }
    exists e, d, fx, w'. splits; assumption.
  - destruct (Hstart two_sites_world
                ["https://down.example"; "https://up.example"]%string 3%nat)
      as (fx & w' & n & E & Hs & _ & _ & Hn & Hv & _).
    + right. reflexivity.
    + reflexivity.
    + vm_compute. reflexivity.
    + discriminate.
    + exists fx, w'. splits; try assumption.
      rewrite Hv, Hn; [reflexivity| |reflexivity].
      split; cbn; lia.
Defined.

(** A navigation that fails once is tried again after 1000 ms and then
    returns: there is no third attempt. *)
Example goto_second_attempt_succeeds :
  BrowserController_goto flaky_env (default_config false)
    {| page_attached := true |} "https://a.example" None fresh_world
  = (Returned 200,
     [ PageGoto "https://a.example" (Throw "Navigation timeout of 30000 ms exceeded");
       SetTimeout 1000;
       PageGoto "https://a.example" (Ok 200);
       BrowserEmit (B_navigated "https://a.example" 200 2);
       Emit (E_pageVisited "https://a.example" 200) ],
     advance_tick 3 fresh_world).
Proof. vm_compute. reflexivity. Qed.

(** The delays of a navigation with eight attempts: doubled from 1000 ms
    and capped at 10000 ms. *)
Example backoff_delays_capped :
  backoff_delays 8 = [1000; 2000; 4000; 8000; 10000; 10000; 10000].
Proof. reflexivity. Qed.

(** The scenario of two destinations run to its end: one site failed after
    delays of 1000 and 2000 ms, one succeeded, and the state is [stopped]. *)
Example two_destinations_first_down :
  let r := start down_env (default_config false) ascii_toLowerCase literal_RegExp_i
                 two_sites_world in
  fst (fst r) = Returned tt
  /\ state (w_session (snd r)) = STOPPED
  /\ sitesVisited (stats (w_session (snd r))) = 2
  /\ sitesFailed (stats (w_session (snd r))) = 1
  /\ sitesSuccessful (stats (w_session (snd r))) = 1
  /\ timeouts (snd (fst r)) = [1000; 2000; 17500]
  /\ filter is_closer (snd (fst r))
     = [ Emit (E_siteFailed "https://down.example" "net::ERR_CONNECTION_REFUSED" 7000);
         Emit (E_siteComplete "https://up.example" 6000 None 2 2) ].
Proof. vm_compute. splits; reflexivity. Qed.

(** ** The head of [start()] *)

Lemma with_siteQueue_same s : _siteQueue s = [] -> with_siteQueue [] s = s.
Proof. destruct s. cbn. now intros ->. Qed.

(** C6 (as the code has it). When the queue built by [start()] is empty,
    [start()] throws "No sites to visit" before it sets the state, stamps
    [startTime] or emits anything: the state is what it was (idle or
    starting, not running), the statistics are untouched, so that
    [startTime] is still [null] if it was, and nothing is emitted, [started]
    included.  The session is not left as it was, though: [_siteQueue] has
    been assigned before the test, so the session afterwards is the session
    before with an empty queue, and it is changed exactly when it held a
    queue from an earlier run. *)
Theorem start_empty_queue_changes_nothing
  (env : Env) (Config : ConfigManager) (toLowerCase : string -> string)
  (RegExp_i : string -> option (string -> bool)) (w : World) (t1 : nat) :
  _loaded Config = true ->
  state (w_session w) = IDLE \/ state (w_session w) = STARTING ->
  getSites toLowerCase RegExp_i (Math_random env) (w_sites w)
           (cfg_categories (sites (_config Config)))
           (siteOptions (_config Config)) (w_tick w) = Ok ([], t1) ->
  exists w',
    start env Config toLowerCase RegExp_i w
    = (Threw "No sites to visit. Check your configuration.", [], w')
    /\ w_session w' = with_siteQueue [] (w_session w)
    /\ w_sites w' = w_sites w
    /\ state (w_session w') = state (w_session w)
    /\ state (w_session w') <> RUNNING
    /\ stats (w_session w') = stats (w_session w)
    /\ (startTime (stats (w_session w)) = None ->
        startTime (stats (w_session w')) = None)
    /\ (_siteQueue (w_session w) = [] -> w_session w' = w_session w)
    /\ _siteQueue (w_session w') = []
    /\ (_siteQueue (w_session w) <> [] -> w_session w' <> w_session w).
Proof.
  intros Hl Hst Hget. unfold start, start_with.
  rewrite bind_get_session, (start_guard_passes (initialize env) _ w Hst).
  unfold start_run. rewrite (bind_Config_get_call Config Hl).
  unfold bind at 1. unfold Sites_getSites at 1. rewrite Hget.
  rewrite bind_update. cbn.
  eexists. split; [reflexivity|]. cbn.
  splits; try reflexivity.
  - destruct Hst as [-> | ->]; discriminate.
  - auto.
  - apply with_siteQueue_same.
  - intros Hq E. apply Hq. rewrite <- E. reflexivity.
Qed.

(** The theorem on a new session whose only category is empty. *)
Lemma start_empty_queue_changes_nothing_witness :
  _loaded (default_config false) = true
  /\ (state (w_session no_sites_world) = IDLE
      \/ state (w_session no_sites_world) = STARTING)
  /\ getSites ascii_toLowerCase literal_RegExp_i
              (Math_random (sample_env (fun _ => false) false))
              (w_sites no_sites_world)
              (cfg_categories (sites (_config (default_config false))))
              (siteOptions (_config (default_config false)))
              (w_tick no_sites_world) = Ok ([], 0%nat)
  /\ exists w',
       start (sample_env (fun _ => false) false) (default_config false)
             ascii_toLowerCase literal_RegExp_i no_sites_world
       = (Threw "No sites to visit. Check your configuration.", [], w')
       /\ w_session w' = w_session no_sites_world.
Proof.
  assert (H1 : _loaded (default_config false) = true) by reflexivity.
  assert (H2 : state (w_session no_sites_world) = IDLE
               \/ state (w_session no_sites_world) = STARTING) by (left; reflexivity).
  assert (H3 : getSites ascii_toLowerCase literal_RegExp_i
              (Math_random (sample_env (fun _ => false) false))
              (w_sites no_sites_world)
              (cfg_categories (sites (_config (default_config false))))
              (siteOptions (_config (default_config false)))
              (w_tick no_sites_world) = Ok ([], 0%nat)) by (vm_compute; reflexivity).
  splits; try assumption.
  destruct (start_empty_queue_changes_nothing (sample_env (fun _ => false) false)
              (default_config false) ascii_toLowerCase literal_RegExp_i
              no_sites_world 0%nat H1 H2 H3)
    as (w' & E & _ & _ & _ & _ & _ & _ & Hsame & _).
  exists w'. split; [exact E|]. apply Hsame. reflexivity.
Defined.

(** C6 as stated fails: the failing [start()] does not leave the session
    unchanged.  A session that has run over three sites and is initialized
    again once the sites file has been emptied holds the queue of its first
    run; [start()] then builds an empty queue and throws, and the session
    has lost its queue: [getStats()] reported 0 remaining sites before the
    call and reports -3 after it. *)
Lemma start_empty_queue_drops_queue :
  state (w_session rerun_world) = STARTING
  /\ getSites ascii_toLowerCase literal_RegExp_i (Math_random empty_env)
              (w_sites rerun_world)
              (cfg_categories (sites (_config (default_config false))))
              (siteOptions (_config (default_config false)))
              (w_tick rerun_world) = Ok ([], 38%nat)
  /\ fst rerun_start
     = (Threw "No sites to visit. Check your configuration.", [])
  /\ _siteQueue (w_session rerun_world)
     = ["https://a.example"; "https://c.example"; "https://b.example"]%string
  /\ _siteQueue (w_session (snd rerun_start)) = []
  /\ w_session (snd rerun_start) <> w_session rerun_world
  /\ match fst (fst (getStats empty_env rerun_world)),
           fst (fst (getStats empty_env (snd rerun_start))) with
     | Returned before, Returned after =>
         snap_remainingSites before = 0 /\ snap_remainingSites after = -3
     | _, _ => False
     end.
Proof.
  assert (Hq : _siteQueue (w_session rerun_world)
               = ["https://a.example"; "https://c.example"; "https://b.example"]%string)
    by (vm_compute; reflexivity).
  assert (Hq' : _siteQueue (w_session (snd rerun_start)) = [])
    by (vm_compute; reflexivity).
  split; [vm_compute; reflexivity|].
  split; [vm_compute; reflexivity|].
  split; [vm_compute; reflexivity|].
  split; [exact Hq|]. split; [exact Hq'|].
  split.
  { intro E.
    pose proof (eq_trans (eq_sym Hq') (eq_trans (f_equal _siteQueue E) Hq)) as H.
    discriminate H. }
  vm_compute. split; reflexivity.
Qed.

(** C10. The call of [initialize()] inside [start()] is dead code: whatever
    is put in its place, [start()] runs the same.  In a state other than
    idle and starting [start()] throws at once and changes nothing; in the
    states idle and starting it goes straight to the building of the queue.
    So a new, idle session is started without a browser. *)
Theorem start_never_initializes
  (env : Env) (Config : ConfigManager) (toLowerCase : string -> string)
  (RegExp_i : string -> option (string -> bool)) (w : World) :
  (forall init : Run bool,
      start_with env Config toLowerCase RegExp_i init w
      = start env Config toLowerCase RegExp_i w)
  /\ (state (w_session w) <> IDLE -> state (w_session w) <> STARTING ->
      start env Config toLowerCase RegExp_i w
      = (Threw ("Cannot start session in state: "
                ++ SessionState_name (state (w_session w))), [], w))
  /\ (state (w_session w) = IDLE \/ state (w_session w) = STARTING ->
      start env Config toLowerCase RegExp_i w
      = start_run env Config toLowerCase RegExp_i w).
Proof.
  splits.
  - intro init. unfold start, start_with. rewrite !bind_get_session.
    unfold start_guard. destruct (state (w_session w)); reflexivity.
  - intros H1 H2. unfold start, start_with. rewrite bind_get_session.
    unfold start_guard. destruct (state (w_session w)); try contradiction; reflexivity.
  - intro Hst. unfold start, start_with.
    rewrite bind_get_session.
    apply (start_guard_passes (initialize env)
             (fun _ => start_run env Config toLowerCase RegExp_i) w Hst).
Qed.

(** The theorem on a stopped session, and on a new one. *)
Lemma start_never_initializes_witness :
  (state (w_session stopped_world) <> IDLE
   /\ state (w_session stopped_world) <> STARTING
   /\ start down_env (default_config false) ascii_toLowerCase literal_RegExp_i
            stopped_world
      = (Threw "Cannot start session in state: stopped", [], stopped_world))
  /\ ((state (w_session no_sites_world) = IDLE
       \/ state (w_session no_sites_world) = STARTING)
      /\ start down_env (default_config false) ascii_toLowerCase literal_RegExp_i
               no_sites_world
         = start_run down_env (default_config false) ascii_toLowerCase
                     literal_RegExp_i no_sites_world).
Proof.
  split.
  - assert (H1 : state (w_session stopped_world) <> IDLE) by discriminate.
    assert (H2 : state (w_session stopped_world) <> STARTING) by discriminate.
    splits; try assumption.
    destruct (start_never_initializes down_env (default_config false)
                ascii_toLowerCase literal_RegExp_i stopped_world) as (_ & H & _).
    exact (H H1 H2).
  - assert (H1 : state (w_session no_sites_world) = IDLE
                 \/ state (w_session no_sites_world) = STARTING) by (left; reflexivity).
    split; [exact H1|].
    destruct (start_never_initializes down_env (default_config false)
                ascii_toLowerCase literal_RegExp_i no_sites_world) as (_ & _ & H).
    exact (H H1).
Defined.

(** A new, idle session with its sites at hand: [start()] launches no
    browser, every visit fails on the missing browser, and the session
    stops. *)
Example start_on_new_session_has_no_browser :
  let w := with_sites {| _sites := Some two_sites |} fresh_world in
  let r := start down_env (default_config false) ascii_toLowerCase literal_RegExp_i w in
  state (w_session w) = IDLE
  /\ fst (fst r) = Returned tt
  /\ browser (w_session (snd r)) = None
  /\ state (w_session (snd r)) = STOPPED
  /\ sitesFailed (stats (w_session (snd r))) = 2
  /\ filter (fun e => match e with
                      | BrowserLaunch _ | SitesLoad | Emit E_initialized
                      | Emit (E_stateChange STARTING) | PageGoto _ _ => true
                      | _ => false
                      end) (snd (fst r)) = [].
Proof. vm_compute. splits; reflexivity. Qed.

(** ** The control protocol *)

Section ControlProtocolFacts.

Variable Config : ConfigManager.
Variable process_uptime : Q.

Lemma session_command_needs_session h command data :
  h_session h = None -> In command session_commands ->
  run_command Config process_uptime h command data = Throw "No session attached".
Proof.
  intros Hs Hin. unfold session_commands in Hin. cbn [In] in Hin.
  unfold run_command, require_session. rewrite Hs.
  destruct Hin as [<-|[<-|[<-|[<-|[<-|[<-|[<-|[]]]]]]]]; reflexivity.
Qed.

(** C8. Without a session, each of [start], [stop], [pause], [resume],
    [stats], [screenshot] and [goto] is answered by a message of type
    [response] that repeats the command and the request id and carries
    [success: false], [data: null] and [error: "No session attached"]; it is
    handed to [client.send], which transmits it on an open connection and
    drops it on a closed one.
    [list_clients] and [status] are answered with [success: true] and no
    error, attached session or not, and [config] is answered the same
    whether a session is attached or not: with [success: true] and the
    configuration once it has been loaded. *)
Theorem commands_without_session
  (h : WebSocketHandler) (client : Client) (command : string)
  (data : option CommandData) (requestId : option string) :
  (h_session h = None -> In command session_commands ->
   command_response Config process_uptime h command data requestId
   = {| r_type := "response"; r_command := command; r_requestId := requestId;
        r_success := false; r_data := D_null;
        r_error := Some "No session attached"%string |}
   /\ (c_open client = false ->
       _handleCommand Config process_uptime h client command data requestId = client)
   /\ (c_open client = true ->
       c_sent (_handleCommand Config process_uptime h client command data requestId)
       = c_sent client
         ++ [ {| r_type := "response"; r_command := command;
                 r_requestId := requestId; r_success := false; r_data := D_null;
                 r_error := Some "No session attached"%string |} ]))
  /\ (command = Commands.LIST_CLIENTS \/ command = Commands.STATUS ->
      r_success (command_response Config process_uptime h command data requestId) = true
      /\ r_error (command_response Config process_uptime h command data requestId) = None
      /\ r_type (command_response Config process_uptime h command data requestId)
         = "response"%string)
  /\ (command = Commands.CONFIG ->
      (forall s,
          command_response Config process_uptime
            {| h_clients := h_clients h; h_session := s |} command data requestId
          = command_response Config process_uptime h command data requestId)
      /\ r_success (command_response Config process_uptime h command data requestId)
         = _loaded Config
      /\ (_loaded Config = true ->
          command_response Config process_uptime h command data requestId
          = {| r_type := "response"; r_command := command; r_requestId := requestId;
               r_success := true; r_data := D_config (_config Config);
               r_error := None |})).
Proof.
  splits.
  - intros Hs Hin.
    assert (E : command_response Config process_uptime h command data requestId
                = {| r_type := "response"; r_command := command;
                     r_requestId := requestId; r_success := false; r_data := D_null;
                     r_error := Some "No session attached"%string |}).
    { unfold command_response.
      now rewrite (session_command_needs_session h command data Hs Hin). }
    splits.
    + exact E.
    + intro Hc. unfold _handleCommand, Client_send. now rewrite Hc.
    + intro Ho. unfold _handleCommand, Client_send. rewrite Ho, E. reflexivity.
  - intros [-> | ->]; splits; reflexivity.
  - intros ->. splits.
    + intro s. reflexivity.
    + unfold command_response, run_command, Config_get. cbn.
      now destruct (_loaded Config).
    + intro Hl. unfold command_response, run_command, Config_get. cbn.
      now rewrite Hl.
Qed.

End ControlProtocolFacts.

(** The theorem on [stats] sent by an open client to a handler without a
    session, and on [config] with a configuration loaded. *)
Lemma commands_without_session_witness :
  (h_session detached_handler = None
   /\ In Commands.STATS session_commands
   /\ c_open sample_client = true
   /\ c_sent (_handleCommand (default_config false) 12 detached_handler sample_client
                Commands.STATS None (Some "r-1"%string))
      = [ {| r_type := "response"; r_command := "stats";
             r_requestId := Some "r-1"%string; r_success := false;
             r_data := D_null; r_error := Some "No session attached"%string |} ])
  /\ (_loaded (default_config false) = true
      /\ r_success (command_response (default_config false) 12 detached_handler
                      Commands.CONFIG None None) = true).
Proof.
  split.
  - assert (H1 : h_session detached_handler = None) by reflexivity.
    assert (H2 : In Commands.STATS session_commands)
      by (cbn; do 4 right; left; reflexivity).
    assert (H3 : c_open sample_client = true) by reflexivity.
    splits; try assumption.
    destruct (commands_without_session (default_config false) 12 detached_handler
                sample_client Commands.STATS None (Some "r-1"%string))
      as (H & _ & _).
    destruct (H H1 H2) as (_ & _ & Hsent). exact (Hsent H3).
  - assert (H1 : _loaded (default_config false) = true) by reflexivity.
    split; [exact H1|].
    destruct (commands_without_session (default_config false) 12 detached_handler
                sample_client Commands.CONFIG None None) as (_ & _ & H).
    destruct (H eq_refl) as (_ & _ & Hc). rewrite (Hc H1). reflexivity.
Defined.

(* ================================================================== *)
(** ** [Random]: ranges, picking and weights *)


(** ** [Math.round] *)

Lemma Math_round_bounds x :
  (x - (1 # 2) < inject_Z (Math_round x) <= x + (1 # 2))%Q.
Proof.
  unfold Math_round.
  pose proof (Qfloor_le (x + (1 # 2))) as H1.
  pose proof (Qlt_floor (x + (1 # 2))) as H2.
  rewrite inject_Z_plus in H2. change (inject_Z 1) with 1%Q in H2. lra.
Qed.

Lemma Math_round_le a b : (a <= b)%Q -> Math_round a <= Math_round b.
Proof. intro H. unfold Math_round. apply Qfloor_resp_le. lra. Qed.

Lemma Math_round_inject_Z z : Math_round (inject_Z z) = z.
Proof.
  pose proof (Math_round_bounds (inject_Z z)) as [H1 H2].
  revert H1 H2. generalize (Math_round (inject_Z z)). intros r H1 H2.
  unfold Qlt, Qle, Qminus, Qplus, Qopp, inject_Z in H1, H2. cbn in H1, H2. lia.
Qed.

Lemma Math_round_comp a b : (a == b)%Q -> Math_round a = Math_round b.
Proof. intro H. unfold Math_round. apply Qfloor_comp. now rewrite H. Qed.

Lemma Math_round_between (a b : Z) v :
  (inject_Z a <= v <= inject_Z b)%Q -> a <= Math_round v <= b.
Proof.
  intros [H1 H2].
  apply Math_round_le in H1, H2. rewrite Math_round_inject_Z in H1, H2.
  split; assumption.
Qed.

(** ** Rounding *)

Lemma round_to_mono k x y : (x <= y)%Q -> (round_to k x <= round_to k y)%Q.
Proof.
  intro H. unfold round_to, Qle. cbn [Qnum Qden].
  apply Z.mul_le_mono_nonneg_r; [lia|]. apply Math_round_le.
  apply Qmult_le_compat_r; [exact H|]. unfold Qle. cbn. lia.
Qed.

Lemma round_to_idem k x : (round_to k (round_to k x) == round_to k x)%Q.
Proof.
  unfold round_to.
  set (z := Math_round (x * inject_Z (Z.pos k))).
  assert (E : Math_round ((z # k) * inject_Z (Z.pos k)) = z).
  { rewrite <- (Math_round_inject_Z z) at 2. apply Math_round_comp.
    unfold Qeq, Qmult, inject_Z. cbn [Qnum Qden]. lia. }
  now rewrite E.
Qed.

Section RoundingFacts.

Variable fl : Q -> Q.
Hypothesis fl_mono : forall x y, (x <= y)%Q -> (fl x <= fl y)%Q.

Lemma fl_compat x y : (x == y)%Q -> (fl x == fl y)%Q.
Proof.
  intro H. apply Qle_antisym; apply fl_mono; rewrite H; apply Qle_refl.
Qed.

Hypothesis fl_idem : forall x, (fl (fl x) == fl x)%Q.
Hypothesis fl_0 : (fl 0 == 0)%Q.

Lemma Random_float_rounded_range (u min max : Q) :
  (fl min == min)%Q -> (0 <= u < 1)%Q -> (min <= max)%Q ->
  (min <= fl (fl (u * fl (max - min)) + min) <= fl (fl (max - min) + min))%Q.
Proof.
  intros Hmin [H0 H1] Hle.
  assert (Hd : (0 <= fl (max - min))%Q).
  { rewrite <- fl_0. apply fl_mono. lra. }
  assert (Hp : (0 <= fl (u * fl (max - min)))%Q).
  { rewrite <- fl_0. apply fl_mono. now apply Qmult_le_0_compat. }
  assert (Hq : (fl (u * fl (max - min)) <= fl (max - min))%Q).
  { rewrite <- (fl_idem (max - min)) at 2. apply fl_mono.
    assert (0 <= (1 - u) * fl (max - min))%Q by (apply Qmult_le_0_compat; lra).
    setoid_replace (u * fl (max - min))%Q
      with (fl (max - min) - (1 - u) * fl (max - min))%Q by ring.
    lra. }
  split.
  - rewrite <- Hmin at 1. apply fl_mono. lra.
  - apply fl_mono. lra.
Qed.

End RoundingFacts.

(** X1. On a source with draws in [0,1), [Random.int(min, max)] is an
    integer of [min, max] for [min <= max] and makes one draw.
    [Random.float(min, max)] makes one draw and, for doubles [min <= max],
    lies between [min] and the rounded sum [(max - min) + min], both
    included: the largest draws round to that sum.  The sum is [max] itself
    when the difference [max - min] is exact, so that [max] can be returned
    although every draw is below 1. *)
Theorem Random_int_float_bounds (fl : Q -> Q) (rng : nat -> Q) (p : nat) :
  (forall k, (0 <= rng k < 1)%Q) ->
  (forall x y, (x <= y)%Q -> (fl x <= fl y)%Q) ->
  (forall x, (fl (fl x) == fl x)%Q) ->
  (fl 0 == 0)%Q ->
  (forall lo hi : Z, lo <= hi ->
      lo <= fst (Random_int rng lo hi p) <= hi
      /\ snd (Random_int rng lo hi p) = S p)
  /\ (forall min max : Q, (fl min == min)%Q -> (min <= max)%Q ->
        (min <= fst (Random_float_rounded rng fl min max p)
         <= fl (fl (max - min) + min))%Q
        /\ ((fl (max - min) == max - min)%Q -> (fl max == max)%Q ->
            (fst (Random_float_rounded rng fl min max p) <= max)%Q)
        /\ snd (Random_float_rounded rng fl min max p) = S p).
Proof.
  intros Hr Hmono Hidem H0. split.
  - intros lo hi Hle. split; [now apply Random_int_range|reflexivity].
  - intros min max Hmin Hle.
    pose proof (Random_float_rounded_range fl Hmono Hidem H0 (rng p) min max
                  Hmin (Hr p) Hle) as [Ha Hb].
    unfold Random_float_rounded, rbind, rng_next, rret. cbn [fst snd].
    split; [split; [exact Ha|exact Hb]|]. split; [|reflexivity].
    intros Hd Hmax. eapply Qle_trans; [exact Hb|].
    rewrite <- Hmax at 2. apply Hmono. rewrite Hd. lra.
Qed.

(** The theorem with numbers rounded to three decimals: at the draw 0.999
    [Random.float(0.2, 0.4)] is 0.4. *)
Lemma Random_int_float_bounds_witness :
  (forall k : nat, (0 <= (fun _ : nat => 999 # 1000) k < 1)%Q)
  /\ (forall x y, (x <= y)%Q -> (round_to 1000 x <= round_to 1000 y)%Q)
  /\ (forall x, (round_to 1000 (round_to 1000 x) == round_to 1000 x)%Q)
  /\ (round_to 1000 0 == 0)%Q
  /\ (round_to 1000 (2 # 10) == 2 # 10)%Q
  /\ 3 <= fst (Random_int (fun _ => 999 # 1000) 3 12 0%nat) <= 12
  /\ (2 # 10 <= fst (Random_float_rounded (fun _ => 999 # 1000) (round_to 1000)
                       (2 # 10) (4 # 10) 0%nat) <= 4 # 10)%Q
  /\ (fst (Random_float_rounded (fun _ => 999 # 1000) (round_to 1000)
             (2 # 10) (4 # 10) 0%nat) == 4 # 10)%Q.
Proof.
  assert (H : forall k : nat, (0 <= (fun _ : nat => 999 # 1000) k < 1)%Q)
    by (intro k; split; [discriminate|reflexivity]).
  assert (H0 : (round_to 1000 0 == 0)%Q) by reflexivity.
  assert (H2 : (round_to 1000 (2 # 10) == 2 # 10)%Q) by reflexivity.
  split; [exact H|]. split; [exact (round_to_mono 1000)|].
  split; [exact (round_to_idem 1000)|]. split; [exact H0|]. split; [exact H2|].
  destruct (Random_int_float_bounds (round_to 1000) (fun _ => 999 # 1000) 0%nat H
              (round_to_mono 1000) (round_to_idem 1000) H0) as [Hi Hf].
  split; [apply (Hi 3 12); lia|].
  destruct (Hf (2 # 10) (4 # 10) H2 ltac:(discriminate)) as (Ha & Hb & _).
  split.
  - split; [apply Ha|]. apply Hb; reflexivity.
  - reflexivity.
Defined.




Lemma shuffle_loop_draws {A} rng i : forall (l : list A) p,
  snd (shuffle_loop rng i l p) = (p + i)%nat.
Proof.
  induction i as [|i IH]; intros l p.
  - cbn. lia.
  - cbn [shuffle_loop]. unfold rbind, rng_next. rewrite IH. lia.
Qed.

(** X3. [Random.shuffle] returns a permutation of its argument (same
    elements with the same multiplicities, same length) and makes
    [length - 1] draws, none for an empty array. *)
Theorem Random_shuffle_permutation {A : Type} (rng : nat -> Q) (array : list A)
  (p : nat) :
  (forall k, (0 <= rng k < 1)%Q) ->
  Permutation (fst (Random_shuffle rng array p)) array
  /\ List.length (fst (Random_shuffle rng array p)) = List.length array
  /\ (forall x, In x (fst (Random_shuffle rng array p)) <-> In x array)
  /\ snd (Random_shuffle rng array p) = (p + (List.length array - 1))%nat.
Proof.
  intros _.
  pose proof (Random_shuffle_perm rng array p) as Hp.
  split; [exact Hp|]. split; [now apply Permutation_length|].
  split.
  - intro x. split; intro H.
    + eapply Permutation_in; eassumption.
    + eapply Permutation_in; [apply Permutation_sym|]; eassumption.
  - unfold Random_shuffle. apply shuffle_loop_draws.
Qed.

Lemma Random_shuffle_permutation_witness :
  (forall k : nat, (0 <= (fun _ : nat => 1 # 2) k < 1)%Q)
  /\ Permutation (fst (Random_shuffle (fun _ => 1 # 2) [1; 2; 3; 4] 0%nat)) [1; 2; 3; 4]
  /\ snd (Random_shuffle (fun _ => 1 # 2) [1; 2; 3; 4] 0%nat) = 3%nat.
Proof.
  assert (H : forall k : nat, (0 <= (fun _ : nat => 1 # 2) k < 1)%Q)
    by (intro k; split; [discriminate|reflexivity]).
  split; [exact H|].
  destruct (Random_shuffle_permutation (fun _ => 1 # 2) [1; 2; 3; 4] 0%nat H)
    as (Hp & _ & _ & Hd).
  split; [exact Hp|exact Hd].
Defined.

Lemma NoDup_app_l {A} (l r : list A) : NoDup (l ++ r) -> NoDup l.
Proof.
  induction l as [|a l IH]; intro H; [constructor|].
  cbn in H. inversion H as [|? ? Hn Hd]; subst. constructor.
  - intro Hin. apply Hn. apply in_or_app. now left.
  - now apply IH.
Qed.

(** X4. [Random.pickMultiple(array, count)] returns a prefix of a shuffle
    of the array: for [count >= 0] it has [min(count, length)] elements,
    all taken from distinct positions of the array (so without repetition
    when the array has none).  A negative [count] does not give an empty
    result: [slice(0, count)] then drops [-count] elements from the end of
    the shuffle. *)
Theorem Random_pickMultiple_prefix {A : Type} (rng : nat -> Q) (array : list A)
  (count : Z) (p : nat) :
  (forall k, (0 <= rng k < 1)%Q) ->
  let picked := fst (Random_pickMultiple rng array count p) in
  (exists rest, Permutation (picked ++ rest) array)
  /\ (NoDup array -> NoDup picked)
  /\ (forall x, In x picked -> In x array)
  /\ (0 <= count ->
      Z.of_nat (List.length picked) = Z.min count (Z.of_nat (List.length array)))
  /\ (count < 0 ->
      Z.of_nat (List.length picked) = Z.max (Z.of_nat (List.length array) + count) 0).
Proof.
  intros _ picked.
  assert (Hshape : exists n,
             picked = firstn n (fst (Random_shuffle rng array p))
             /\ (0 <= count ->
                 Z.of_nat n = Z.min count (Z.of_nat (List.length array)))
             /\ (count < 0 ->
                 Z.of_nat n = Z.max (Z.of_nat (List.length array) + count) 0)).
  { subst picked. destruct array as [|a array].
    - exists 0%nat. cbn. split; [reflexivity|]. split; lia.
    - unfold Random_pickMultiple, rbind, rret.
      destruct (Random_shuffle rng (a :: array) p) as [shuffled p1] eqn:E.
      cbn [fst]. unfold Array_slice0.
      pose proof (Random_shuffle_perm rng (a :: array) p) as Hp.
      rewrite E in Hp. cbn [fst] in Hp. apply Permutation_length in Hp.
      destruct (Z.min count (Z.of_nat (List.length (a :: array))) <? 0) eqn:En.
      + apply Z.ltb_lt in En. eexists. split; [reflexivity|]. rewrite Hp. split; lia.
      + apply Z.ltb_ge in En. eexists. split; [reflexivity|]. split; lia. }
  destruct Hshape as (n & Hpick & Hpos & Hneg).
  pose proof (Random_shuffle_perm rng array p) as Hp.
  assert (Hrest : Permutation (picked ++ skipn n (fst (Random_shuffle rng array p))) array).
  { rewrite Hpick, firstn_skipn. exact Hp. }
  assert (Hlen : List.length picked
                 = Nat.min n (List.length array)).
  { rewrite Hpick, length_firstn. f_equal. now apply Permutation_length. }
  split; [eauto|]. split; [|split; [|split]].
  - intro Hnd. apply NoDup_app_l with (r := skipn n (fst (Random_shuffle rng array p))).
    eapply Permutation_NoDup; [apply Permutation_sym; exact Hrest|exact Hnd].
  - intros x Hin. eapply Permutation_in; [exact Hrest|]. apply in_or_app. now left.
  - intro H. specialize (Hpos H). lia.
  - intro H. specialize (Hneg H). lia.
Qed.

Lemma Random_pickMultiple_prefix_witness :
  (forall k : nat, (0 <= (fun _ : nat => 1 # 2) k < 1)%Q)
  /\ 0 <= 2
  /\ Z.of_nat (List.length (fst (Random_pickMultiple (fun _ => 1 # 2)
                                   ["a"; "b"; "c"]%string 2 0%nat))) = 2
  /\ -1 < 0
  /\ Z.of_nat (List.length (fst (Random_pickMultiple (fun _ => 1 # 2)
                                   ["a"; "b"; "c"]%string (-1) 0%nat))) = 2.
Proof.
  assert (H : forall k : nat, (0 <= (fun _ : nat => 1 # 2) k < 1)%Q)
    by (intro k; split; [discriminate|reflexivity]).
  assert (H2 : 0 <= 2) by lia.
  assert (H1 : -1 < 0) by lia.
  split; [exact H|]. split; [exact H2|].
  destruct (Random_pickMultiple_prefix (fun _ => 1 # 2) ["a"; "b"; "c"]%string 2 0%nat H)
    as (_ & _ & _ & Hpos & _).
  destruct (Random_pickMultiple_prefix (fun _ => 1 # 2) ["a"; "b"; "c"]%string (-1) 0%nat H)
    as (_ & _ & _ & _ & Hneg).
  split; [exact (Hpos H2)|]. split; [exact H1|exact (Hneg H1)].
Defined.

(** ** [Random.weighted] *)

Section WeightedFacts.
Context {A : Type}.
Variable fl : Q -> Q.

Lemma weighted_loop_member (items : list (Weighted A)) : forall r v,
  weighted_loop fl items r = Some v ->
  exists item, In item items /\ v = item_value item.
Proof.
  induction items as [|a l IH]; intros r v; cbn [weighted_loop]; [discriminate|].
  destruct (Qle_bool (fl (r - weight_or_1 a)) 0).
  - intro H. injection H as <-. exists a. split; [now left|reflexivity].
  - intro H. destruct (IH _ _ H) as (item & Hin & ->).
    exists item. split; [now right|reflexivity].
Qed.

Lemma weighted_passed_le (items : list (Weighted A)) : forall r,
  (weighted_passed fl items r <= List.length items)%nat.
Proof.
  induction items as [|a l IH]; intro r; cbn [weighted_passed List.length]; [lia|].
  destruct (Qle_bool (fl (r - weight_or_1 a)) 0); [lia|].
  specialize (IH (fl (r - weight_or_1 a))). lia.
Qed.

(** The loop returns the item at the position where it stops, and falls
    through when it has passed over every item. *)
Lemma weighted_loop_passed (items : list (Weighted A)) : forall r,
  match weighted_loop fl items r with
  | Some v =>
      option_map item_value (nth_error items (weighted_passed fl items r)) = Some v
  | None => weighted_passed fl items r = List.length items
  end.
Proof.
  induction items as [|a l IH]; intro r; cbn [weighted_loop weighted_passed]; [reflexivity|].
  destruct (Qle_bool (fl (r - weight_or_1 a)) 0); [reflexivity|].
  specialize (IH (fl (r - weight_or_1 a))).
  destruct (weighted_loop fl l (fl (r - weight_or_1 a))); cbn [nth_error List.length];
    [exact IH|now rewrite IH].
Qed.

Hypothesis fl_mono : forall x y, (x <= y)%Q -> (fl x <= fl y)%Q.
Hypothesis fl_0 : (fl 0 == 0)%Q.

Lemma weighted_passed_mono (items : list (Weighted A)) : forall r r',
  (r <= r')%Q -> (weighted_passed fl items r <= weighted_passed fl items r')%nat.
Proof.
  induction items as [|a l IH]; intros r r' Hr; cbn [weighted_passed]; [lia|].
  assert (H : (fl (r - weight_or_1 a) <= fl (r' - weight_or_1 a))%Q)
    by (apply fl_mono; lra).
  destruct (Qle_bool (fl (r - weight_or_1 a)) 0) eqn:E; [lia|].
  destruct (Qle_bool (fl (r' - weight_or_1 a)) 0) eqn:E'.
  - apply Qle_bool_iff in E'. apply Qle_bool_false in E. exfalso. lra.
  - apply le_n_S. now apply IH.
Qed.

Lemma fold_weight_nonneg (items : list (Weighted A)) : forall acc,
  (forall item, In item items -> (0 <= weight_or_1 item)%Q) ->
  (0 <= acc)%Q ->
  (0 <= fold_left (fun sum item => fl (sum + weight_or_1 item)) items acc)%Q.
Proof.
  induction items as [|a l IH]; intros acc Hpos Hacc; cbn [fold_left]; [exact Hacc|].
  apply IH; [intros; apply Hpos; now right|].
  rewrite <- fl_0. apply fl_mono.
  pose proof (Hpos a (or_introl eq_refl)). lra.
Qed.

Lemma total_weight_nonneg (items : list (Weighted A)) :
  (forall item, In item items -> (0 <= weight_or_1 item)%Q) ->
  (0 <= total_weight fl items)%Q.
Proof. intro Hpos. apply fold_weight_nonneg; [exact Hpos|lra]. Qed.

Lemma weighted_index_mono (items : list (Weighted A)) u u' :
  (forall item, In item items -> (0 <= weight_or_1 item)%Q) ->
  (u <= u')%Q ->
  (weighted_index fl items u <= weighted_index fl items u')%nat.
Proof.
  intros Hpos Hu. unfold weighted_index.
  apply Nat.min_le_compat_r. apply weighted_passed_mono. apply fl_mono.
  apply Qmult_le_compat_r; [exact Hu|now apply total_weight_nonneg].
Qed.

Lemma weighted_index_0 (items : list (Weighted A)) u :
  (forall item, In item items -> (0 <= weight_or_1 item)%Q) ->
  (u == 0)%Q -> weighted_index fl items u = 0%nat.
Proof.
  intros Hpos Hu. unfold weighted_index.
  destruct items as [|a l]; [reflexivity|].
  cbn [weighted_passed].
  assert (H : (fl (fl (u * total_weight fl (a :: l)) - weight_or_1 a) <= 0)%Q).
  { assert (H1 : (fl (u * total_weight fl (a :: l)) <= 0)%Q).
    { apply Qle_trans with (fl 0); [|rewrite fl_0; apply Qle_refl].
      apply fl_mono. rewrite Hu. lra. }
    apply Qle_trans with (fl 0); [|rewrite fl_0; apply Qle_refl].
    apply fl_mono. pose proof (Hpos a (or_introl eq_refl)). lra. }
  apply Qle_bool_iff in H. rewrite H. reflexivity.
Qed.

End WeightedFacts.

Lemma Random_weighted_member {A} rng fl (items : list (Weighted A)) p :
  items <> [] ->
  exists item,
    In item items /\ Random_weighted rng fl items p = (Some (item_value item), S p).
Proof.
  intro Hne. destruct items as [|a l]; [congruence|].
  unfold Random_weighted, rbind, rng_next, rret.
  destruct (weighted_loop fl (a :: l) (fl (rng p * total_weight fl (a :: l))%Q))
    as [v|] eqn:E.
  - destruct (weighted_loop_member _ _ _ _ E) as (item & Hin & ->). eauto.
  - destruct (nth_error (a :: l) (List.length (a :: l) - 1)) as [item|] eqn:En.
    + exists item. split; [eapply nth_error_In; eassumption|reflexivity].
    + apply nth_error_None in En. cbn [List.length] in En. lia.
Qed.

Lemma Random_weighted_at_index {A} rng fl (items : list (Weighted A)) p :
  items <> [] ->
  Random_weighted rng fl items p
  = (option_map item_value (nth_error items (weighted_index fl items (rng p))), S p).
Proof.
  intro Hne. destruct items as [|a l]; [congruence|].
  unfold Random_weighted, rbind, rng_next, rret, weighted_index.
  set (r := fl (rng p * total_weight fl (a :: l))%Q).
  pose proof (weighted_loop_passed fl (a :: l) r) as H.
  pose proof (weighted_passed_le fl (a :: l) r) as Hle.
  destruct (weighted_loop fl (a :: l) r) as [v|].
  - assert (Hlt : (weighted_passed fl (a :: l) r < List.length (a :: l))%nat).
    { apply nth_error_Some. intro En. rewrite En in H. discriminate. }
    rewrite Nat.min_l by lia. now rewrite H.
  - rewrite H, Nat.min_r by lia. reflexivity.
Qed.

(** X5. [Random.weighted] returns [undefined] for an empty list without
    drawing; otherwise it makes one draw and returns the value of one of
    the items, the one at the index where its loop stops.  With weights
    that are not negative (an absent or zero weight counting as 1) that
    index does not decrease when the draw grows, whatever the rounding of
    the product and of the subtractions: every item is returned on an
    interval of draws, and the intervals follow one another in the order
    of the list, the draw 0 returning the first item. *)
Theorem Random_weighted_interval {A : Type} (fl : Q -> Q) (rng : nat -> Q)
  (items : list (Weighted A)) (p : nat) :
  (forall x y, (x <= y)%Q -> (fl x <= fl y)%Q) ->
  (fl 0 == 0)%Q ->
  (items = [] -> Random_weighted rng fl items p = (None, p))
  /\ (items <> [] ->
      exists item,
        In item items
        /\ Random_weighted rng fl items p = (Some (item_value item), S p))
  /\ (items <> [] ->
      Random_weighted rng fl items p
      = (option_map item_value (nth_error items (weighted_index fl items (rng p))),
         S p))
  /\ ((forall item, In item items -> (0 <= weight_or_1 item)%Q) ->
      (forall u u', (u <= u')%Q ->
         (weighted_index fl items u <= weighted_index fl items u')%nat)
      /\ (forall u, (u == 0)%Q -> weighted_index fl items u = 0%nat)).
Proof.
  intros Hmono H0.
  split; [intros ->; reflexivity|].
  split; [apply Random_weighted_member|].
  split; [apply Random_weighted_at_index|].
  intro Hpos. split.
  - intros u u'. now apply weighted_index_mono.
  - intro u. now apply weighted_index_0.
Qed.

(** The theorem on the user types, with numbers rounded to three decimals:
    the draw 0.8 returns the second type, and no smaller draw returns a
    later one. *)
Lemma Random_weighted_interval_witness :
  (forall x y, (x <= y)%Q -> (round_to 1000 x <= round_to 1000 y)%Q)
  /\ (round_to 1000 0 == 0)%Q
  /\ userType_items <> []
  /\ (forall item, In item userType_items -> (0 <= weight_or_1 item)%Q)
  /\ Random_weighted (fun _ => 8 # 10) (round_to 1000) userType_items 0%nat
     = (Some "focused"%string, 1%nat)
  /\ (forall u, (u <= 8 # 10)%Q ->
        (weighted_index (round_to 1000) userType_items u <= 1)%nat).
Proof.
  assert (H0 : (round_to 1000 0 == 0)%Q) by reflexivity.
  assert (Hne : userType_items <> []) by discriminate.
  assert (Hpos : forall item, In item userType_items -> (0 <= weight_or_1 item)%Q).
  { intros item Hin. cbn in Hin.
    repeat (destruct Hin as [<-|Hin]; [discriminate|]). contradiction. }
  split; [exact (round_to_mono 1000)|]. split; [exact H0|].
  split; [exact Hne|]. split; [exact Hpos|].
  destruct (Random_weighted_interval (round_to 1000) (fun _ => 8 # 10)
              userType_items 0%nat (round_to_mono 1000) H0)
    as (_ & _ & Hat & Hm).
  split.
  - rewrite (Hat Hne). reflexivity.
  - intros u Hu. destruct (Hm Hpos) as [Hmono _].
    exact (Hmono u (8 # 10) Hu).
Defined.

(** ** [Timing] *)

Section TimingFacts.
Variable rng : nat -> Q.
Hypothesis rng_range : forall k, (0 <= rng k < 1)%Q.



End TimingFacts.



(** ** [Math.round] and the samplers built on [gaussianBounded] *)

Lemma durations_entry contentType c :
  js_get durations contentType = Some c ->
  exists a b,
    range_min c = inject_Z a /\ range_max c = inject_Z b
    /\ 2000 <= a /\ a <= b /\ b <= 300000.
Proof.
  unfold durations. cbn [js_get].
  repeat match goal with
         | |- context [if ?b then _ else _] => destruct b
         end;
    intro H; try discriminate; injection H as <-; cbn [range_min range_max];
    eexists _, _; (split; [reflexivity|]); (split; [reflexivity|]); lia.
Qed.

Section SamplerFacts.

Variable rng : nat -> Q.
Variable M : MathFns.
Variable fuel : nat.
Hypothesis rng_live :
  forall p, exists j, (j < fuel)%nat /\ ~ (rng (p + 2 * j) == 0)%Q.

Lemma gaussianBounded_range mean stdDev min max p :
  (min <= max)%Q ->
  exists v p1,
    Distribution_gaussianBounded rng M fuel mean stdDev min max p = Some (v, p1)
    /\ (min <= v <= max)%Q.
Proof.
  intro Hle. unfold Distribution_gaussianBounded.
  destruct (gaussianBounded_loop_some rng M fuel rng_live mean stdDev min max 100 0 p)
    as (v & p1 & E); [lia|lia|].
  rewrite E. eexists _, _. split; [reflexivity|]. now apply clamp_range.
Qed.

Lemma gaussian_draws_live p :
  exists u1 u2 p1, gaussian_draws rng fuel p = Some (u1, u2, p1).
Proof.
  destruct (rng_live p) as (j & Hj & Hnz).
  exact (gaussian_draws_some rng fuel p j Hj Hnz).
Qed.

Hypothesis rng_range : forall k, (0 <= rng k < 1)%Q.

Lemma Timing_typingDelay_spec p :
  exists v p1,
    Timing_typingDelay rng M fuel p = Some (v, p1)
    /\ (((rng p < 1 # 10)%Q /\ (300 <= v <= 800)%Q /\ exists z, v = inject_Z z)
        \/ ((1 # 10 <= rng p)%Q /\ (30 <= v <= 250)%Q)).
Proof.
  unfold Timing_typingDelay, Random_bool, rbind, rng_next, rret.
  destruct (Qltb (rng p) (1 # 10)) eqn:E.
  - destruct (Random_int rng 300 800 (S p)) as [z p2] eqn:Ez.
    pose proof (Random_int_range rng rng_range 300 800 (S p)) as Hz.
    rewrite Ez in Hz. cbn [fst] in Hz.
    eexists _, _. split; [reflexivity|]. left.
    split; [now apply Qltb_true|]. split; [|now exists z].
    change 300%Q with (inject_Z 300). change 800%Q with (inject_Z 800).
    rewrite <- !Zle_Qle. lia.
  - destruct (gaussianBounded_range 100 40 30 250 (S p)) as (v & p1 & -> & Hv);
      [discriminate|].
    exists v, p1. split; [reflexivity|]. right. split; [now apply Qltb_false|exact Hv].
Qed.

End SamplerFacts.

(** X7. [Timing.typingDelay] on a live source with draws in [0,1): when the
    first draw is below 0.1 it is a thinking pause, an integer of
    [300, 800]; otherwise it is a bounded Gaussian sample of [30, 250].  In
    both cases it returns, with a value between 30 and 800 ms. *)
Theorem Timing_typingDelay_range (rng : nat -> Q) (M : MathFns) (fuel p : nat) :
  (forall k, (0 <= rng k < 1)%Q) ->
  (forall q : nat, exists j : nat, (j < fuel)%nat /\ ~ (rng (q + 2 * j)%nat == 0)%Q) ->
  exists v p1,
    Timing_typingDelay rng M fuel p = Some (v, p1)
    /\ (30 <= v <= 800)%Q
    /\ ((rng p < 1 # 10)%Q -> (300 <= v <= 800)%Q /\ exists z, v = inject_Z z)
    /\ ((1 # 10 <= rng p)%Q -> (30 <= v <= 250)%Q).
Proof.
  intros Hr Hl.
  destruct (Timing_typingDelay_spec rng M fuel Hl Hr p) as (v & p1 & E & H).
  exists v, p1. split; [exact E|].
  destruct H as [(Hu & Hv & Hz)|(Hu & Hv)].
  - split; [lra|]. split; [auto|]. intro. exfalso. lra.
  - split; [lra|]. split; [|auto]. intro. exfalso. lra.
Qed.

Lemma Timing_typingDelay_range_witness :
  (forall k : nat, (0 <= (fun _ : nat => 1 # 2) k < 1)%Q)
  /\ (forall q : nat, exists j : nat,
        (j < 1)%nat /\ ~ ((fun _ : nat => 1 # 2) (q + 2 * j)%nat == 0)%Q)
  /\ exists v p1,
       Timing_typingDelay (fun _ => 1 # 2) sample_math 1 0 = Some (v, p1)
       /\ (30 <= v <= 800)%Q.
Proof.
  assert (H1 : forall k : nat, (0 <= (fun _ : nat => 1 # 2) k < 1)%Q)
    by (intro k; split; [discriminate|reflexivity]).
  assert (H2 : forall q : nat, exists j : nat,
             (j < 1)%nat /\ ~ ((fun _ : nat => 1 # 2) (q + 2 * j)%nat == 0)%Q).
  { intro q. exists 0%nat. split; [lia|]. compute. discriminate. }
  split; [exact H1|]. split; [exact H2|].
  destruct (Timing_typingDelay_range (fun _ => 1 # 2) sample_math 1 0 H1 H2)
    as (v & p1 & E & Hv & _).
  exists v, p1. split; [exact E|exact Hv].
Defined.

(** X8. [Timing.humanDelay(minMs, maxMs)] on a live source, for
    [minMs <= maxMs]: it returns an integer between the rounded bounds, so
    between [minMs] and [maxMs] themselves when these are integers, and
    exactly [minMs] when the two are the same integer. *)
Theorem Timing_humanDelay_range (rng : nat -> Q) (M : MathFns) (fuel : nat)
  (minMs maxMs : Q) (p : nat) :
  (minMs <= maxMs)%Q ->
  (forall q : nat, exists j : nat, (j < fuel)%nat /\ ~ (rng (q + 2 * j)%nat == 0)%Q) ->
  exists v p1,
    Timing_humanDelay rng M fuel minMs maxMs p = Some (v, p1)
    /\ Math_round minMs <= v <= Math_round maxMs
    /\ (forall a b : Z,
          (minMs == inject_Z a)%Q -> (maxMs == inject_Z b)%Q -> a <= v <= b).
Proof.
  intros Hle Hl. unfold Timing_humanDelay.
  destruct (gaussianBounded_range rng M fuel Hl
              ((minMs + maxMs) / 2 * (8 # 10)) ((maxMs - minMs) / 4) minMs maxMs p Hle)
    as (v & p1 & -> & Hv).
  exists (Math_round v), p1. split; [reflexivity|].
  assert (Hb : Math_round minMs <= Math_round v <= Math_round maxMs)
    by (split; apply Math_round_le; lra).
  split; [exact Hb|].
  intros a b Ha Hb'.
  rewrite (Math_round_comp _ _ Ha), (Math_round_comp _ _ Hb') in Hb.
  now rewrite !Math_round_inject_Z in Hb.
Qed.

Lemma Timing_humanDelay_range_witness :
  (500 <= 1500)%Q
  /\ (forall q : nat, exists j : nat,
        (j < 1)%nat /\ ~ ((fun _ : nat => 1 # 2) (q + 2 * j)%nat == 0)%Q)
  /\ exists v p1,
       Timing_humanDelay (fun _ => 1 # 2) sample_math 1 500 1500 0 = Some (v, p1)
       /\ 500 <= v <= 1500.
Proof.
  assert (H1 : (500 <= 1500)%Q) by (compute; discriminate).
  assert (H2 : forall q : nat, exists j : nat,
             (j < 1)%nat /\ ~ ((fun _ : nat => 1 # 2) (q + 2 * j)%nat == 0)%Q).
  { intro q. exists 0%nat. split; [lia|]. compute. discriminate. }
  split; [exact H1|]. split; [exact H2|].
  destruct (Timing_humanDelay_range (fun _ => 1 # 2) sample_math 1 500 1500 0 H1 H2)
    as (v & p1 & E & _ & Hv).
  exists v, p1. split; [exact E|].
  apply (Hv 500 1500); reflexivity.
Defined.

(** X9. [Timing.pageStayDuration(contentType)] on a live source.  For a
    content type that is not the name of a member of [Object.prototype] it
    returns an integer within the [min, max] of that type in the table,
    within those of [article] (15 to 180 seconds) for a type that the table
    does not list, and in every case between 2 and 300 seconds.  For a
    content type such as [constructor] the lookup finds the inherited member
    instead of falling back to [article], and the result is [NaN]. *)
Theorem Timing_pageStayDuration_range (rng : nat -> Q) (M : MathFns) (fuel : nat)
  (contentType : string) (p : nat) :
  (forall q : nat, exists j : nat, (j < fuel)%nat /\ ~ (rng (q + 2 * j)%nat == 0)%Q) ->
  (includes Object_prototype_names contentType = false ->
   exists v p1,
     Timing_pageStayDuration rng M fuel contentType p = Some (Some v, p1)
     /\ (forall c, js_get durations contentType = Some c ->
                   (range_min c <= inject_Z v <= range_max c)%Q)
     /\ (js_get durations contentType = None -> 15000 <= v <= 180000)
     /\ 2000 <= v <= 300000)
  /\ (includes Object_prototype_names contentType = true ->
      exists p1, Timing_pageStayDuration rng M fuel contentType p = Some (None, p1)).
Proof.
  intro Hl. unfold Timing_pageStayDuration. split; intros ->.
  - set (config := match js_get durations contentType with
                   | Some c => c
                   | None => durations_article
                   end).
    assert (Hc : exists a b,
               range_min config = inject_Z a /\ range_max config = inject_Z b
               /\ 2000 <= a /\ a <= b /\ b <= 300000
               /\ (js_get durations contentType = None -> a = 15000 /\ b = 180000)).
    { subst config. destruct (js_get durations contentType) as [c|] eqn:E.
      - destruct (durations_entry _ _ E) as (a & b & Ha & Hb & H1 & H2 & H3).
        exists a, b. repeat (split; [assumption|]). discriminate.
      - exists 15000, 180000. cbn [durations_article range_min range_max].
        repeat (split; [reflexivity || lia|]). auto. }
    destruct Hc as (a & b & Ha & Hb & H1 & H2 & H3 & Hn).
    assert (Hle : (range_min config <= range_max config)%Q)
      by (rewrite Ha, Hb, <- Zle_Qle; exact H2).
    destruct (gaussianBounded_range rng M fuel Hl (range_mean config)
                ((range_max config - range_min config) / 4)
                (range_min config) (range_max config) p Hle)
      as (v & p1 & -> & Hv).
    rewrite Ha, Hb in Hv. apply Math_round_between in Hv.
    exists (Math_round v), p1. split; [reflexivity|].
    split; [|split; [|lia]].
    + intros c Ec. subst config. rewrite Ec in Ha, Hb.
      rewrite Ha, Hb, <- !Zle_Qle. exact Hv.
    + intro En. destruct (Hn En) as [-> ->]. exact Hv.
  - destruct (gaussian_draws_live rng fuel Hl p) as (u1 & u2 & p1 & ->). eauto.
Qed.

Lemma Timing_pageStayDuration_range_witness :
  (forall q : nat, exists j : nat,
      (j < 1)%nat /\ ~ ((fun _ : nat => 1 # 2) (q + 2 * j)%nat == 0)%Q)
  /\ (includes Object_prototype_names "video" = false
      /\ exists v p1,
           Timing_pageStayDuration (fun _ => 1 # 2) sample_math 1 "video" 0
           = Some (Some v, p1)
           /\ 30000 <= v <= 300000)
  /\ (includes Object_prototype_names "constructor" = true
      /\ exists p1,
           Timing_pageStayDuration (fun _ => 1 # 2) sample_math 1 "constructor" 0
           = Some (None, p1)).
Proof.
  assert (H : forall q : nat, exists j : nat,
             (j < 1)%nat /\ ~ ((fun _ : nat => 1 # 2) (q + 2 * j)%nat == 0)%Q).
  { intro q. exists 0%nat. split; [lia|]. compute. discriminate. }
  assert (H1 : includes Object_prototype_names "video" = false) by reflexivity.
  assert (H2 : includes Object_prototype_names "constructor" = true) by reflexivity.
  split; [exact H|]. split.
  - split; [exact H1|].
    destruct (Timing_pageStayDuration_range (fun _ => 1 # 2) sample_math 1 "video" 0 H)
      as [Hv _].
    destruct (Hv H1) as (v & p1 & E & Hc & _).
    exists v, p1. split; [exact E|].
    specialize (Hc _ eq_refl). cbn [range_min range_max] in Hc.
    change 30000%Q with (inject_Z 30000) in Hc.
    change 300000%Q with (inject_Z 300000) in Hc.
    now rewrite <- !Zle_Qle in Hc.
  - split; [exact H2|].
    destruct (Timing_pageStayDuration_range (fun _ => 1 # 2) sample_math 1
                "constructor" 0 H) as [_ Hn].
    exact (Hn H2).
Defined.


(** ** [Timing.readingTime], [Behavior.shouldClickLink] *)



Lemma click_clamp_range lo hi x :
  (lo <= hi)%Q -> (lo <= Math_min hi (Math_max lo x) <= hi)%Q.
Proof. intro H. unfold Math_min, Math_max. qcases; lra. Qed.

(** X11. [Behavior.shouldClickLink] makes one draw and compares it with a
    probability that it has clamped between the doubles 0.05 and 0.8:
    whatever the link is and however the sums of the adjustments round, it
    answers yes on a draw below 0.05 and no on a draw of 0.8 or more, and in
    between it answers yes exactly below a threshold that depends on the
    link alone. *)
Theorem shouldClickLink_thresholds (fl : Q -> Q) (rng : nat -> Q)
  (linkData : LinkData) (p : nat) :
  (forall x y, (x <= y)%Q -> (fl x <= fl y)%Q) ->
  exists probability,
    (fl (5 # 100) <= probability <= fl (8 # 10))%Q
    /\ (forall rng' p',
          fst (Behavior_shouldClickLink rng' fl linkData p') = true
          <-> (rng' p' < probability)%Q)
    /\ ((rng p < fl (5 # 100))%Q ->
        fst (Behavior_shouldClickLink rng fl linkData p) = true)
    /\ ((fl (8 # 10) <= rng p)%Q ->
        fst (Behavior_shouldClickLink rng fl linkData p) = false)
    /\ snd (Behavior_shouldClickLink rng fl linkData p) = S p.
Proof.
  intro Hmono.
  assert (Hb : (fl (5 # 100) <= fl (8 # 10))%Q) by (apply Hmono; discriminate).
  pose proof (click_clamp_range _ _ (click_probability fl linkData) Hb) as Hc.
  exists (Math_min (fl (8 # 10)) (Math_max (fl (5 # 100)) (click_probability fl linkData))).
  unfold Behavior_shouldClickLink, Random_bool, rbind, rng_next, rret.
  cbn [fst snd].
  split; [exact Hc|]. split; [|split; [|split; [|reflexivity]]].
  - intros rng' p'. apply Qltb_true.
  - intro H. apply Qltb_true. lra.
  - intro H. apply Qltb_false. lra.
Qed.

(** The theorem with numbers rounded to three decimals, on a link that
    gathers every bonus, at the draw 0.9. *)
Lemma shouldClickLink_thresholds_witness :
  (forall x y, (x <= y)%Q -> (round_to 1000 x <= round_to 1000 y)%Q)
  /\ (round_to 1000 (8 # 10) <= (fun _ : nat => 9 # 10) 0%nat)%Q
  /\ fst (Behavior_shouldClickLink (fun _ => 9 # 10) (round_to 1000)
            {| isNavigation := true; isInternal := true; hasImage := true;
               isAboveFold := true; textLength := Some 50%Q; isExternal := false;
               isAd := false; isSocial := false |} 0%nat) = false.
Proof.
  assert (H : (round_to 1000 (8 # 10) <= (fun _ : nat => 9 # 10) 0%nat)%Q)
    by discriminate.
  split; [exact (round_to_mono 1000)|]. split; [exact H|].
  destruct (shouldClickLink_thresholds (round_to 1000) (fun _ => 9 # 10)
              {| isNavigation := true; isInternal := true; hasImage := true;
                 isAboveFold := true; textLength := Some 50%Q; isExternal := false;
                 isAd := false; isSocial := false |} 0%nat (round_to_mono 1000))
    as (probability & _ & _ & _ & Hno & _).
  exact (Hno H).
Defined.

(** ** [Behavior.mousePath] *)



(** What the loop guarantees of the point it pushes at parameter [t]. *)
Section MousePathFacts.

Variable rng : nat -> Q.
Variable M : MathFns.
Variable fuel : nat.
Hypothesis rng_range : forall k, (0 <= rng k < 1)%Q.
Hypothesis rng_live :
  forall p, exists j, (j < fuel)%nat /\ ~ (rng (p + 2 * j) == 0)%Q.

Variables startX startY endX endY cp1x cp1y cp2x cp2y : Q.
Variable steps : Z.




End MousePathFacts.



(** ** [Behavior.generateSessionProfile] *)

Lemma weighted_value_in {A} rng fl (items : list (Weighted A)) p :
  items <> [] ->
  exists v,
    Random_weighted rng fl items p = (Some v, S p) /\ In v (map item_value items).
Proof.
  intro Hne. destruct (Random_weighted_member rng fl items p Hne) as (item & Hin & E).
  exists (item_value item). split; [exact E|]. now apply in_map.
Qed.

(** X13. [Behavior.generateSessionProfile] on a live source with draws in
    [0,1): it returns a profile whose user type, scroll depth and attention
    span are among the listed values and whose speed multiplier lies in
    [0.5, 2].  Its engagement and its click tendency are at least the
    doubles 0.3 and 0.2, and at most the rounded sums [(1 - 0.3) + 0.3] and
    [(0.8 - 0.2) + 0.2], which the largest draws give: in an arithmetic
    where these sums are at most 1 and 0.8, as they are for doubles, the
    engagement lies in [0.3, 1] and the click tendency in [0.2, 0.8], both
    ends included. *)
Theorem generateSessionProfile_ranges (fl : Q -> Q) (rng : nat -> Q) (M : MathFns)
  (fuel p : nat) :
  (forall k, (0 <= rng k < 1)%Q) ->
  (forall q : nat, exists j : nat, (j < fuel)%nat /\ ~ (rng (q + 2 * j)%nat == 0)%Q) ->
  (forall x y, (x <= y)%Q -> (fl x <= fl y)%Q) ->
  (forall x, (fl (fl x) == fl x)%Q) ->
  (fl 0 == 0)%Q ->
  (fl 1 == 1)%Q ->
  exists profile p1 type depth span,
    Behavior_generateSessionProfile rng M fl fuel p = Some (profile, p1)
    /\ userType profile = Some type
    /\ In type ["casual"; "focused"; "scanner"; "researcher"]%string
    /\ scrollDepth profile = Some depth
    /\ In depth ["shallow"; "medium"; "deep"]%string
    /\ attentionSpan profile = Some span
    /\ In span ["short"; "medium"; "long"]%string
    /\ (5 # 10 <= speedMultiplier profile <= 2)%Q
    /\ (fl (3 # 10) <= engagement profile
        <= fl (fl (1 - fl (3 # 10)) + fl (3 # 10)))%Q
    /\ (fl (2 # 10) <= clickTendency profile
        <= fl (fl (fl (8 # 10) - fl (2 # 10)) + fl (2 # 10)))%Q
    /\ ((fl (fl (1 - fl (3 # 10)) + fl (3 # 10)) <= 1)%Q ->
        (engagement profile <= 1)%Q)
    /\ ((fl (fl (fl (8 # 10) - fl (2 # 10)) + fl (2 # 10)) <= fl (8 # 10))%Q ->
        (clickTendency profile <= fl (8 # 10))%Q).
Proof.
  intros Hr Hl Hmono Hidem H0 H1. unfold Behavior_generateSessionProfile.
  destruct (weighted_value_in rng fl userType_items p) as (type & -> & Ht);
    [discriminate|].
  destruct (gaussianBounded_range rng M fuel Hl 1 (fl (3 # 10)) (5 # 10) 2 (S p))
    as (speed & p1 & -> & Hs); [discriminate|].
  assert (He : (fl (3 # 10) <= 1)%Q).
  { apply Qle_trans with (fl 1%Q); [apply Hmono; discriminate|].
    rewrite H1. apply Qle_refl. }
  assert (Hc : (fl (2 # 10) <= fl (8 # 10))%Q) by (apply Hmono; discriminate).
  pose proof (Random_float_rounded_range fl Hmono Hidem H0 (rng p1) (fl (3 # 10)) 1%Q
                (Hidem _) (Hr p1) He) as Heng.
  pose proof (Random_float_rounded_range fl Hmono Hidem H0 (rng (S p1))
                (fl (2 # 10)) (fl (8 # 10)) (Hidem _) (Hr (S p1)) Hc) as Hclk.
  unfold Random_float_rounded at 1 2, rbind, rng_next, rret.
  destruct (weighted_value_in rng fl scrollDepth_items (S (S p1)))
    as (depth & -> & Hd); [discriminate|].
  destruct (weighted_value_in rng fl attentionSpan_items (S (S (S p1))))
    as (span & -> & Ha); [discriminate|].
  eexists _, _, type, depth, span. split; [reflexivity|].
  cbn [userType scrollDepth attentionSpan speedMultiplier engagement clickTendency].
  split; [reflexivity|]. split; [exact Ht|].
  split; [reflexivity|]. split; [exact Hd|].
  split; [reflexivity|]. split; [exact Ha|].
  split; [exact Hs|]. split; [exact Heng|]. split; [exact Hclk|].
  split; intro Htop; (eapply Qle_trans; [|exact Htop]); [apply Heng|apply Hclk].
Qed.

(** The theorem with numbers rounded to three decimals. *)
Lemma generateSessionProfile_ranges_witness :
  (forall k : nat, (0 <= (fun _ : nat => 1 # 2) k < 1)%Q)
  /\ (forall q : nat, exists j : nat,
        (j < 1)%nat /\ ~ ((fun _ : nat => 1 # 2) (q + 2 * j)%nat == 0)%Q)
  /\ (forall x y, (x <= y)%Q -> (round_to 1000 x <= round_to 1000 y)%Q)
  /\ (forall x, (round_to 1000 (round_to 1000 x) == round_to 1000 x)%Q)
  /\ (round_to 1000 0 == 0)%Q
  /\ (round_to 1000 1 == 1)%Q
  /\ exists profile p1,
       Behavior_generateSessionProfile (fun _ => 1 # 2) sample_math (round_to 1000) 1 0
       = Some (profile, p1)
       /\ (5 # 10 <= speedMultiplier profile <= 2)%Q
       /\ (3 # 10 <= engagement profile <= 1)%Q
       /\ (2 # 10 <= clickTendency profile <= 8 # 10)%Q.
Proof.
  assert (H1 : forall k : nat, (0 <= (fun _ : nat => 1 # 2) k < 1)%Q)
    by (intro k; split; [discriminate|reflexivity]).
  assert (H2 : forall q : nat, exists j : nat,
             (j < 1)%nat /\ ~ ((fun _ : nat => 1 # 2) (q + 2 * j)%nat == 0)%Q).
  { intro q. exists 0%nat. split; [lia|]. compute. discriminate. }
  assert (H3 : (round_to 1000 0 == 0)%Q) by reflexivity.
  assert (H4 : (round_to 1000 1 == 1)%Q) by reflexivity.
  assert (K3 : (round_to 1000 (3 # 10) == 3 # 10)%Q) by reflexivity.
  assert (K2 : (round_to 1000 (2 # 10) == 2 # 10)%Q) by reflexivity.
  assert (K8 : (round_to 1000 (8 # 10) == 8 # 10)%Q) by reflexivity.
  assert (T1 : (round_to 1000 (round_to 1000 (1 - round_to 1000 (3 # 10))
                               + round_to 1000 (3 # 10)) <= 1)%Q) by discriminate.
  assert (T2 : (round_to 1000 (round_to 1000 (round_to 1000 (8 # 10)
                                              - round_to 1000 (2 # 10))
                               + round_to 1000 (2 # 10))
                <= round_to 1000 (8 # 10))%Q) by discriminate.
  split; [exact H1|]. split; [exact H2|]. split; [exact (round_to_mono 1000)|].
  split; [exact (round_to_idem 1000)|]. split; [exact H3|]. split; [exact H4|].
  destruct (generateSessionProfile_ranges (round_to 1000) (fun _ => 1 # 2) sample_math
              1 0 H1 H2 (round_to_mono 1000) (round_to_idem 1000) H3 H4)
    as (profile & p1 & _ & _ & _ & E & _ & _ & _ & _ & _ & _ & Hs & He & Hc & Te & Tc).
  exists profile, p1. split; [exact E|]. split; [exact Hs|].
  split; split.
  - rewrite <- K3. apply He.
  - exact (Te T1).
  - rewrite <- K2. apply Hc.
  - rewrite <- K8. exact (Tc T2).
Defined.

(* ================================================================== *)
(** ** [pause], [resume], [stop] *)

Lemma SessionState_eqb_eq a b : SessionState_eqb a b = true <-> a = b.
Proof. destruct a, b; cbn; split; intro H; congruence. Qed.

Lemma SessionState_eqb_neq a b : SessionState_eqb a b = false <-> a <> b.
Proof. destruct a, b; cbn; split; intro H; congruence. Qed.

Lemma pause_refused s : state s <> RUNNING -> pause s = (false, [], s).
Proof.
  intro H. unfold pause. apply SessionState_eqb_neq in H. now rewrite H.
Qed.

Lemma resume_refused s : state s <> PAUSED -> resume s = (false, [], s).
Proof.
  intro H. unfold resume. apply SessionState_eqb_neq in H. now rewrite H.
Qed.

(** X14. [pause()] is refused (returns [false], emits nothing, changes
    nothing) unless the session is running, and [resume()] unless it is
    paused.  On a running session [pause()] sets the state [paused] and
    the pause flag and emits [stateChange] then [paused]; a second
    [pause()] is refused; [resume()] then emits [stateChange] and
    [resumed] and gives back the session as it was before the pause: the two
    touch neither the statistics, the queue nor the stop flag. *)
Theorem pause_resume_round_trip (s : SessionManager) :
  (state s <> RUNNING -> pause s = (false, [], s))
  /\ (state s <> PAUSED -> resume s = (false, [], s))
  /\ (state s = RUNNING ->
      exists s1 s2,
        pause s = (true, [K_stateChange PAUSED; K_paused], s1)
        /\ state s1 = PAUSED /\ _isPaused s1 = true /\ isPaused s1 = true
        /\ stats s1 = stats s /\ _siteQueue s1 = _siteQueue s
        /\ _shouldStop s1 = _shouldStop s
        /\ pause s1 = (false, [], s1)
        /\ resume s1 = (true, [K_stateChange RUNNING; K_resumed], s2)
        /\ state s2 = RUNNING /\ _isPaused s2 = false
        /\ (_isPaused s = false -> s2 = s)).
Proof.
  split; [apply pause_refused|]. split; [apply resume_refused|].
  intro Hs. unfold pause. rewrite Hs. cbn [SessionState_eqb negb].
  eexists _, _. split; [reflexivity|].
  unfold isPaused. cbn.
  repeat (split; [reflexivity|]).
  intro Hp. destruct s. cbn in *. subst. reflexivity.
Qed.

Lemma pause_resume_round_trip_witness :
  state running_session = RUNNING
  /\ _isPaused running_session = false
  /\ snd (resume (snd (pause running_session))) = running_session
  /\ state new_SessionManager <> RUNNING
  /\ pause new_SessionManager = (false, [], new_SessionManager).
Proof.
  assert (H1 : state running_session = RUNNING) by reflexivity.
  assert (H2 : _isPaused running_session = false) by reflexivity.
  assert (H3 : state new_SessionManager <> RUNNING) by discriminate.
  destruct (pause_resume_round_trip running_session) as (_ & _ & H).
  destruct (H H1) as (s1 & s2 & E1 & _ & _ & _ & _ & _ & _ & _ & E2 & _ & _ & E3).
  destruct (pause_resume_round_trip new_SessionManager) as (Hn & _ & _).
  split; [exact H1|]. split; [exact H2|].
  split; [rewrite E1; cbn [snd]; rewrite E2; cbn [snd]; exact (E3 H2)|].
  split; [exact H3|exact (Hn H3)].
Defined.

Lemma stop_stopped_browser now now' s :
  state s <> STOPPED -> state s <> STOPPING ->
  browser (snd (stop now now' s)) = option_map BrowserController_close (browser s).
Proof.
  intros H1 H2. unfold stop, resume.
  apply SessionState_eqb_neq in H1, H2. rewrite H1, H2. cbn [orb].
  destruct s as [b a st sts ss ip cs q]. cbn in *.
  destruct ip, b; reflexivity.
Qed.

(** X15. [stop()] does nothing on a session that is stopping or stopped.
    Otherwise it sets the stop flag, closes the browser, stamps [endTime],
    ends in the state [stopped] and emits [stateChange(stopping)],
    [stateChange(stopped)] and [stopped] with the statistics; a second
    [stop()] then does nothing.  It never releases a pause: it sets the
    state [stopping] before it calls [resume()], which is refused in that
    state, so the pause flag of a paused session stays set, no [resumed] is
    emitted, and a run waiting in [_checkPaused] stays parked. *)
Theorem stop_reaches_stopped (now now' : Z) (s : SessionManager) :
  (state s = STOPPED \/ state s = STOPPING -> stop now now' s = ([], s))
  /\ (state s <> STOPPED -> state s <> STOPPING ->
      exists s',
        stop now now' s
        = ([K_stateChange STOPPING; K_stateChange STOPPED;
            K_stopped (getStats_at now' s')], s')
        /\ state s' = STOPPED
        /\ _shouldStop s' = true
        /\ endTime (stats s') = Some now
        /\ browser s' = option_map BrowserController_close (browser s)
        /\ _siteQueue s' = _siteQueue s
        /\ _isPaused s' = _isPaused s
        /\ (forall t t', stop t t' s' = ([], s'))
        /\ (_isPaused s = true ->
            forall w, w_session w = s' -> _checkPaused w = (Parked, [], w))).
Proof.
  split.
  - intros [H|H]; unfold stop; rewrite H; reflexivity.
  - intros H1 H2. unfold stop, resume.
    apply SessionState_eqb_neq in H1, H2. rewrite H1, H2. cbn [orb].
    destruct s as [b a st sts ss ip cs q]. cbn in *.
    destruct ip, b; cbn; (eexists; split; [reflexivity|]); cbn;
      (repeat (split; [reflexivity|]));
      intros Hp w Hw; try discriminate;
      unfold _checkPaused, bind, get_session, park; rewrite Hw; reflexivity.
Qed.

Lemma stop_reaches_stopped_witness :
  state paused_session <> STOPPED
  /\ state paused_session <> STOPPING
  /\ _isPaused paused_session = true
  /\ exists s',
       stop 9000 9001 paused_session
       = ([K_stateChange STOPPING; K_stateChange STOPPED;
           K_stopped (getStats_at 9001 s')], s')
       /\ state s' = STOPPED
       /\ _isPaused s' = true.
Proof.
  assert (H1 : state paused_session <> STOPPED) by discriminate.
  assert (H2 : state paused_session <> STOPPING) by discriminate.
  assert (H3 : _isPaused paused_session = true) by reflexivity.
  split; [exact H1|]. split; [exact H2|]. split; [exact H3|].
  destruct (stop_reaches_stopped 9000 9001 paused_session) as [_ H].
  destruct (H H1 H2) as (s' & E & Hs & _ & _ & _ & _ & Hp & _).
  exists s'. split; [exact E|]. split; [exact Hs|]. rewrite Hp. exact H3.
Defined.

(** X16. [screenshot()] fails with [Browser not initialized] on a session
    that has no browser, and with [No active page] on a session that has
    been stopped, whose browser is closed but still there; with a page
    attached it returns what the page captures. *)
Theorem screenshot_needs_page (capture : result string) (now now' : Z)
  (s : SessionManager) :
  (browser s = None -> screenshot capture s = Throw "Browser not initialized")
  /\ (forall b, browser s = Some b -> page_attached b = true ->
         screenshot capture s = capture)
  /\ (browser s <> None -> state s <> STOPPED -> state s <> STOPPING ->
      screenshot capture (snd (stop now now' s)) = Throw "No active page").
Proof.
  split; [|split].
  - intro H. unfold screenshot. now rewrite H.
  - intros b H Hb. unfold screenshot, BrowserController_screenshot. now rewrite H, Hb.
  - intros Hb H1 H2.
    pose proof (stop_stopped_browser now now' s H1 H2) as Eb.
    destruct (browser s) as [b|] eqn:E; [|congruence].
    unfold screenshot. rewrite Eb. reflexivity.
Qed.

Lemma screenshot_needs_page_witness :
  browser new_SessionManager = None
  /\ screenshot (Ok "png"%string) new_SessionManager = Throw "Browser not initialized"
  /\ browser running_session <> None
  /\ state running_session <> STOPPED /\ state running_session <> STOPPING
  /\ screenshot (Ok "png"%string) (snd (stop 9000 9001 running_session))
     = Throw "No active page".
Proof.
  assert (H0 : browser new_SessionManager = None) by reflexivity.
  assert (H1 : browser running_session <> None) by discriminate.
  assert (H2 : state running_session <> STOPPED) by discriminate.
  assert (H3 : state running_session <> STOPPING) by discriminate.
  destruct (screenshot_needs_page (Ok "png"%string) 9000 9001 new_SessionManager)
    as (Ha & _ & _).
  destruct (screenshot_needs_page (Ok "png"%string) 9000 9001 running_session)
    as (_ & _ & Hb).
  split; [exact H0|]. split; [exact (Ha H0)|]. split; [exact H1|].
  split; [exact H2|]. split; [exact H3|exact (Hb H1 H2 H3)].
Defined.

(** ** [_formatDuration] *)

(** X17. [_formatDuration(ms)] for [ms >= 0] prints the whole seconds of
    [ms] split into hours, minutes below 60 and seconds below 60, which
    recompose to [floor(ms / 1000)]: seconds alone below one minute,
    minutes and seconds below one hour, all three from one hour on. *)
Theorem formatDuration_parts (ms : Z) :
  0 <= ms ->
  let h := ms / 3600000 in
  let m := (ms / 60000) mod 60 in
  let s := (ms / 1000) mod 60 in
  h * 3600 + m * 60 + s = ms / 1000
  /\ 0 <= m < 60 /\ 0 <= s < 60
  /\ (ms < 60000 -> _formatDuration ms = (Number_toString s ++ "s")%string)
  /\ (60000 <= ms < 3600000 ->
      _formatDuration ms
      = (Number_toString m ++ "m " ++ Number_toString s ++ "s")%string)
  /\ (3600000 <= ms ->
      _formatDuration ms
      = (Number_toString h ++ "h " ++ Number_toString m ++ "m "
         ++ Number_toString s ++ "s")%string).
Proof.
  intros H0 h m s.
  assert (Em : ms / 1000 / 60 = ms / 60000)
    by (rewrite Z.div_div by lia; reflexivity).
  assert (Eh : ms / 1000 / 60 / 60 = ms / 3600000)
    by (rewrite !Z.div_div by lia; reflexivity).
  assert (Hsec : 0 <= ms / 1000) by (apply Z.div_pos; lia).
  assert (Hmin : 0 <= ms / 60000) by (apply Z.div_pos; lia).
  assert (Rs : Z.rem (ms / 1000) 60 = s)
    by (apply Z.rem_mod_nonneg; lia).
  assert (Rm : Z.rem (ms / 60000) 60 = m)
    by (apply Z.rem_mod_nonneg; lia).
  assert (Hm : 0 <= m < 60) by (apply Z.mod_pos_bound; lia).
  assert (Hs : 0 <= s < 60) by (apply Z.mod_pos_bound; lia).
  split.
  { subst h m s. rewrite <- Eh, <- Em.
    pose proof (Z.div_mod (ms / 1000 / 60) 60 ltac:(lia)).
    pose proof (Z.div_mod (ms / 1000) 60 ltac:(lia)). lia. }
  split; [exact Hm|]. split; [exact Hs|].
  unfold _formatDuration. rewrite Eh, Em, Rs, Rm. fold h.
  split; [|split].
  - intro Hlt.
    assert (E1 : ms / 3600000 = 0) by (apply Z.div_small; lia).
    assert (E2 : ms / 60000 = 0) by (apply Z.div_small; lia).
    subst h. rewrite E1, E2. cbn [Z.gtb Z.compare].
    subst s. f_equal. f_equal. symmetry. apply Z.mod_small.
    split; [exact Hsec|]. apply Z.div_lt_upper_bound; lia.
  - intros [H1 H2].
    assert (E1 : ms / 3600000 = 0) by (apply Z.div_small; lia).
    assert (E2 : 0 < ms / 60000) by (apply Z.div_str_pos; lia).
    subst h. rewrite E1. cbn [Z.gtb Z.compare].
    destruct (ms / 60000 >? 0) eqn:E; [|rewrite Z.gtb_ltb in E; apply Z.ltb_ge in E; lia].
    subst m. f_equal. f_equal. symmetry. apply Z.mod_small.
    split; [lia|]. apply Z.div_lt_upper_bound; lia.
  - intro H1.
    assert (E1 : 0 < h) by (subst h; apply Z.div_str_pos; lia).
    destruct (h >? 0) eqn:E; [reflexivity|].
    rewrite Z.gtb_ltb in E. apply Z.ltb_ge in E. lia.
Qed.

Lemma formatDuration_parts_witness :
  0 <= 3725000
  /\ 3600000 <= 3725000
  /\ _formatDuration 3725000 = "1h 2m 5s"%string.
Proof.
  assert (H0 : 0 <= 3725000) by lia.
  assert (H1 : 3600000 <= 3725000) by lia.
  split; [exact H0|]. split; [exact H1|].
  destruct (formatDuration_parts 3725000 H0) as (_ & _ & _ & _ & _ & H).
  exact (H H1).
Defined.

(** ** [validateConfig], [_waitBetweenSites], [_takeBreak] *)

Lemma validateConfig_valid config rest :
  valid (validateConfig config rest) = true
  <-> minStay (timing config) <= maxStay (timing config)
      /\ minWait (timing config) <= maxWait (timing config).
Proof.
  unfold validateConfig, push_if. cbn [valid].
  destruct (minStay (timing config) >? maxStay (timing config)) eqn:E1;
    destruct (minWait (timing config) >? maxWait (timing config)) eqn:E2;
    rewrite Z.gtb_ltb in E1, E2;
    first [apply Z.ltb_lt in E1 | apply Z.ltb_ge in E1];
    first [apply Z.ltb_lt in E2 | apply Z.ltb_ge in E2];
    cbn; split; intro H; try discriminate; try reflexivity; lia.
Qed.

Section WaitFacts.

Variable env : Env.
Variable Config : ConfigManager.
Hypothesis Config_loaded : _loaded Config = true.

Lemma _waitBetweenSites_run w :
  let delay := fst (Timing_betweenSitesDelay (Math_random env) (w_tick w)) in
  let clamped := Z.max (minWait (timing (_config Config)) * 1000)
                       (Z.min (maxWait (timing (_config Config)) * 1000) delay) in
  exists w',
    _waitBetweenSites env Config w = (Returned clamped, [SetTimeout clamped], w')
    /\ w_session w' = w_session w /\ w_sites w' = w_sites w.
Proof.
  intros delay clamped. unfold _waitBetweenSites.
  rewrite (bind_Config_get_call Config Config_loaded).
  unfold bind, random, sleep, effect, external, ret, bind. subst clamped delay.
  destruct (Timing_betweenSitesDelay (Math_random env) (w_tick w)) as [d t] eqn:E.
  cbn. eexists. split; [reflexivity|]. split; reflexivity.
Qed.

End WaitFacts.

(** X18. [validateConfig] accepts a configuration exactly when
    [minStay <= maxStay] and [minWait <= maxWait] (the other checks only
    warn).  For an accepted configuration the wait
    between two sites is one timer of between [minWait] and [maxWait]
    seconds, whatever delay was drawn, and it leaves the session as it is.
    For a configuration with [minWait > maxWait] the wait is always
    [minWait] seconds. *)
Theorem valid_config_bounds_waits (env : Env) (Config : ConfigManager)
  (rest : BrowserAndSocketConfig) (w : World) :
  _loaded Config = true ->
  (valid (validateConfig (_config Config) rest) = true
   <-> minStay (timing (_config Config)) <= maxStay (timing (_config Config))
       /\ minWait (timing (_config Config)) <= maxWait (timing (_config Config)))
  /\ (valid (validateConfig (_config Config) rest) = true ->
      exists d w',
        _waitBetweenSites env Config w = (Returned d, [SetTimeout d], w')
        /\ minWait (timing (_config Config)) * 1000 <= d
           <= maxWait (timing (_config Config)) * 1000
        /\ w_session w' = w_session w)
  /\ (maxWait (timing (_config Config)) < minWait (timing (_config Config)) ->
      exists w',
        _waitBetweenSites env Config w
        = (Returned (minWait (timing (_config Config)) * 1000),
           [SetTimeout (minWait (timing (_config Config)) * 1000)], w')).
Proof.
  intro Hl. split; [apply validateConfig_valid|].
  destruct (_waitBetweenSites_run env Config Hl w) as (w' & E & Hs & _).
  cbv zeta in E. split.
  - intro Hv. apply validateConfig_valid in Hv. destruct Hv as [_ Hv].
    eexists _, w'. split; [exact E|]. split; [lia|exact Hs].
  - intro Hinv. exists w'. rewrite E. f_equal. f_equal; [f_equal; lia|].
    f_equal. f_equal. lia.
Qed.

Lemma valid_config_bounds_waits_witness :
  _loaded (default_config false) = true
  /\ valid (validateConfig (_config (default_config false)) default_rest) = true
  /\ exists d w',
       _waitBetweenSites (sample_env (fun _ => false) false) (default_config false)
                         initialized_world
       = (Returned d, [SetTimeout d], w')
       /\ 5 * 1000 <= d <= 30 * 1000.
Proof.
  assert (H1 : _loaded (default_config false) = true) by reflexivity.
  assert (H2 : valid (validateConfig (_config (default_config false)) default_rest) = true)
    by reflexivity.
  split; [exact H1|]. split; [exact H2|].
  destruct (valid_config_bounds_waits (sample_env (fun _ => false) false)
              (default_config false) default_rest initialized_world H1)
    as (_ & H & _).
  destruct (H H2) as (d & w' & E & Hd & _).
  exists d, w'. split; [exact E|exact Hd].
Defined.

(** X19. [_takeBreak(durationConfig)] with [min <= max] and draws in
    [0,1): it emits [breakStart] with a duration of between [min] and [max]
    seconds, waits on one timer of exactly that duration, emits [breakEnd]
    and returns, leaving the session as it is. *)
Theorem takeBreak_duration (env : Env) (d : BreakDuration) (w : World) :
  (forall k, (0 <= Math_random env k < 1)%Q) ->
  bd_min d <= bd_max d ->
  exists ms w',
    _takeBreak env d w
    = (Returned tt, [Emit (E_breakStart ms); SetTimeout ms; Emit E_breakEnd], w')
    /\ bd_min d * 1000 <= ms <= bd_max d * 1000
    /\ w_session w' = w_session w.
Proof.
  intros Hr Hle.
  pose proof (Random_int_range (Math_random env) Hr
                (bd_min d * 1000) (bd_max d * 1000) (w_tick w) ltac:(lia)) as Hms.
  unfold _takeBreak, bind, random, emit, sleep, effect, external, bind.
  destruct (Random_int (Math_random env) (bd_min d * 1000) (bd_max d * 1000) (w_tick w))
    as [ms t] eqn:E.
  cbn in *. eexists _, _. split; [reflexivity|]. split; [exact Hms|reflexivity].
Qed.

Lemma takeBreak_duration_witness :
  (forall k : nat, (0 <= Math_random (sample_env (fun _ => false) false) k < 1)%Q)
  /\ bd_min {| bd_min := 60; bd_max := 300 |} <= bd_max {| bd_min := 60; bd_max := 300 |}
  /\ exists ms w',
       _takeBreak (sample_env (fun _ => false) false) {| bd_min := 60; bd_max := 300 |}
                  initialized_world
       = (Returned tt, [Emit (E_breakStart ms); SetTimeout ms; Emit E_breakEnd], w')
       /\ 60000 <= ms <= 300000.
Proof.
  assert (H1 : forall k : nat,
             (0 <= Math_random (sample_env (fun _ => false) false) k < 1)%Q)
    by (intro k; split; [discriminate|reflexivity]).
  assert (H2 : bd_min {| bd_min := 60; bd_max := 300 |}
               <= bd_max {| bd_min := 60; bd_max := 300 |}) by (cbn; lia).
  split; [exact H1|]. split; [exact H2|].
  destruct (takeBreak_duration (sample_env (fun _ => false) false)
              {| bd_min := 60; bd_max := 300 |} initialized_world H1 H2)
    as (ms & w' & E & Hms & _).
  exists ms, w'. split; [exact E|exact Hms].
Defined.

(** ** [initialize] and the life cycle of a run *)

Section InitializeFacts.

Variable env : Env.
Variable Config : ConfigManager.
Variable toLowerCase : string -> string.
Variable RegExp_i : string -> option (string -> bool).



Lemma initialize_succeeds w data :
  Sites_load env (w_tick w) = Ok data ->
  browser_launch env (S (w_tick w)) = Ok tt ->
  initialize env w
  = (Returned true,
     [Emit (E_stateChange STARTING); SitesLoad; BrowserLaunch (Ok tt);
      Emit E_initialized],
     on_session (fun s => with_actions (Some (PageActionsOf {| page_attached := true |}))
                            (with_browser (Some {| page_attached := true |})
                               (with_state STARTING s)))
       (with_sites {| _sites := Some data |} (advance_tick (S (S (w_tick w))) w))).
Proof.
  intros E1 E2. unfold initialize. rewrite bind_update, bind_emit.
  unfold try_catch, bind, effect, external, of_result, emit, update, throw, effect, ret.
  cbn. rewrite E1. cbn. rewrite E2. cbn. reflexivity.
Qed.

End InitializeFacts.

Section Lifecycle.

Variable env : Env.
Variable Config : ConfigManager.
Variable toLowerCase : string -> string.
Variable RegExp_i : string -> option (string -> bool).
Hypothesis Config_loaded : _loaded Config = true.

(** The [try] block of [start()] ends with [stateChange(stopped)] and
    [completed], the latter carrying the statistics of the final session. *)
Lemma start_body_completed w :
  ready w ->
  exists n fx0 w3 w' t t',
    start_body env Config toLowerCase (_config Config) w
    = (Returned tt,
       fx0 ++ [Emit (E_stateChange STOPPED);
               Emit (E_completed (getStats_at t' (w_session w')))],
       w')
    /\ (0 <= n <= Z.of_nat (List.length (_siteQueue (w_session w)))
        /\ (unbounded (_config Config) -> _shouldStop (w_session w) = false ->
            n = Z.of_nat (List.length (_siteQueue (w_session w)))))
    /\ tally n w w3
    /\ w_session w'
       = with_state STOPPED (with_stats (set_endTime (Some t)) (w_session w3)).
Proof.
  intro Hr. unfold start_body.
  assert (H1 : ends (tally 0) w
                 ((if searches (behavior (_config Config))
                      && (searchCount (behavior (_config Config)) >? 0)
                   then _performSearches env Config (searchCount (behavior (_config Config)))
                   else ret tt) w)).
  { destruct (_ && _)%bool; [|apply ends_ret].
    unfold _performSearches. exact (search_loop_ends env Config _ _ _ w Hr). }
  destruct H1 as (a1 & fx1 & w1 & E1 & T1). unfold bind at 1. rewrite E1.
  assert (Hr1 : ready w1) by (eapply tally_ready; eassumption).
  destruct (_visitSites_ends env Config toLowerCase Config_loaded w1 Hr1)
    as (n & [Hn1 Hn2] & a2 & fx2 & w2 & E2 & T2).
  unfold bind at 1. rewrite E2.
  unfold Date_now_call, getStats. cbn.
  destruct T1 as (K1 & T1'). pose proof K1 as K1'.
  unfold keeps in K1'. destruct K1' as (_ & _ & _ & _ & Hs1 & _ & Hq1 & _).
  rewrite Hq1, Hs1 in *.
  exists n, (fx1 ++ fx2), w2.
  exists (advance_tick (S (S (w_tick w2)))
            (on_session (with_state STOPPED)
               (on_session (with_stats (set_endTime (Some (Date_now env (w_tick w2)))))
                  (advance_tick (S (w_tick w2)) w2)))),
         (Date_now env (w_tick w2)), (Date_now env (S (w_tick w2))).
  split; [rewrite <- app_assoc; reflexivity|].
  split; [split; assumption|].
  split; [|reflexivity].
  replace n with (0 + n) by lia. eapply tally_trans; [|exact T2].
  split; assumption.
Qed.

Lemma start_with_lifecycle (init : Run bool) w queue t1 :
  state (w_session w) = IDLE \/ state (w_session w) = STARTING ->
  _isPaused (w_session w) = false ->
  getSites toLowerCase RegExp_i (Math_random env) (w_sites w)
           (cfg_categories (sites (_config Config))) (siteOptions (_config Config))
           (w_tick w) = Ok (queue, t1) ->
  queue <> [] ->
  exists fx0 w' n t t',
    start_with env Config toLowerCase RegExp_i init w
    = (Returned tt,
       Emit (E_stateChange RUNNING) :: Emit (E_started (Z.of_nat (List.length queue)))
       :: fx0 ++ [Emit (E_stateChange STOPPED);
                  Emit (E_completed (getStats_at t' (w_session w')))],
       w')
    /\ state (w_session w') = STOPPED
    /\ _siteQueue (w_session w') = queue
    /\ browser (w_session w') = browser (w_session w)
    /\ startTime (stats (w_session w')) = Some (Date_now env t1)
    /\ endTime (stats (w_session w')) = Some t
    /\ 0 <= n <= Z.of_nat (List.length queue)
    /\ (unbounded (_config Config) -> _shouldStop (w_session w) = false ->
        n = Z.of_nat (List.length queue))
    /\ sitesVisited (stats (w_session w')) = sitesVisited (stats (w_session w)) + n.
Proof.
  intros Hst Hp Hget Hne. unfold start_with.
  rewrite bind_get_session, (start_guard_passes init _ w Hst).
  unfold start_run.
  rewrite (bind_Config_get_call Config Config_loaded).
  unfold bind at 1. unfold Sites_getSites at 1. rewrite Hget.
  rewrite bind_update.
  destruct queue as [|site queue]; [contradiction|].
  cbn [List.length Nat.eqb].
  rewrite bind_update. unfold Date_now_call. rewrite bind_external.
  rewrite bind_update_stats.
  rewrite !bind_emit.
  set (w_run := on_session _ _).
  assert (Hr : ready w_run) by (subst w_run; split; cbn; [exact Hp|discriminate]).
  destruct (start_body_completed w_run Hr)
    as (n & fx & w3 & w' & t & t' & E & [Hn1 Hn2] & T & Hw').
  unfold try_catch. rewrite E.
  exists fx, w', n, t, t'.
  split; [reflexivity|].
  destruct T as (K & V & SF & S1 & F1). unfold keeps in K.
  destruct K as (_ & Kb & _ & _ & Ks & _ & Kq & Kt).
  rewrite Hw'. subst w_run. cbn in *.
  splits; try assumption; try reflexivity; lia.
Qed.

End Lifecycle.



(** X21. The sequence of the [start] command, [initialize()] then
    [start()], on a session that is not paused, with the configuration
    loaded, the sites and the browser available and a queue of at least one
    site: the run returns in the state [stopped] with the browser still in
    place; it emits, in this order, [stateChange(starting)], [initialized],
    [stateChange(running)], [started] with the length of the queue, and
    at the very end [stateChange(stopped)] and [completed].  The statistics
    sent with [completed] are the final ones: their state is [stopped],
    their duration is [endTime - startTime], and their [remainingSites] is
    the length of the queue minus all the sites visited so far, those of
    earlier runs included, since the statistics are never reset.  With no
    limit configured and no stop asked the run visits the whole queue, so
    that [remainingSites] is minus the number of sites visited before the
    run: 0 on the first run of a session, negative on a later one. *)
Theorem initialize_then_start (env : Env) (Config : ConfigManager)
  (toLowerCase : string -> string) (RegExp_i : string -> option (string -> bool))
  (w : World) (data : SitesData) (queue : list string) (t1 : nat) :
  _loaded Config = true ->
  _isPaused (w_session w) = false ->
  Sites_load env (w_tick w) = Ok data ->
  browser_launch env (S (w_tick w)) = Ok tt ->
  getSites toLowerCase RegExp_i (Math_random env) {| _sites := Some data |}
           (cfg_categories (sites (_config Config))) (siteOptions (_config Config))
           (S (S (w_tick w))) = Ok (queue, t1) ->
  queue <> [] ->
  exists mid w' n snap t,
    bind (initialize env) (fun _ => start env Config toLowerCase RegExp_i) w
    = (Returned tt,
       [Emit (E_stateChange STARTING); SitesLoad; BrowserLaunch (Ok tt);
        Emit E_initialized; Emit (E_stateChange RUNNING);
        Emit (E_started (Z.of_nat (List.length queue)))]
       ++ mid ++ [Emit (E_stateChange STOPPED); Emit (E_completed snap)],
       w')
    /\ state (w_session w') = STOPPED
    /\ browser (w_session w') = Some {| page_attached := true |}
    /\ _siteQueue (w_session w') = queue
    /\ snap_state snap = STOPPED
    /\ snap_stats snap = stats (w_session w')
    /\ endTime (stats (w_session w')) = Some t
    /\ snap_duration snap = t - Date_now env t1
    /\ sitesVisited (stats (w_session w')) = sitesVisited (stats (w_session w)) + n
    /\ 0 <= n <= Z.of_nat (List.length queue)
    /\ snap_remainingSites snap
       = Z.of_nat (List.length queue) - sitesVisited (stats (w_session w)) - n
    /\ (unbounded (_config Config) -> _shouldStop (w_session w) = false ->
        n = Z.of_nat (List.length queue)
        /\ snap_remainingSites snap = - sitesVisited (stats (w_session w))
        /\ (sitesVisited (stats (w_session w)) = 0 -> snap_remainingSites snap = 0)
        /\ (0 < sitesVisited (stats (w_session w)) -> snap_remainingSites snap < 0)).
Proof.
  intros Hl Hp E1 E2 Hget Hne.
  unfold bind at 1. rewrite (initialize_succeeds env w data E1 E2).
  set (w0 := on_session _ _).
  destruct (start_with_lifecycle env Config toLowerCase RegExp_i Hl
              (initialize env) w0 queue t1)
    as (fx0 & w' & n & t & t' & E & Hs & Hq & Hb & Hst & Het & Hn & Hu & Hv);
    [right; reflexivity|exact Hp|exact Hget|exact Hne|].
  unfold start. rewrite E.
  exists fx0, w', n, (getStats_at t' (w_session w')), t.
  split; [reflexivity|].
  split; [exact Hs|]. split; [exact Hb|]. split; [exact Hq|].
  unfold getStats_at. cbn [snap_state snap_stats snap_duration snap_remainingSites].
  rewrite Hs, Hst, Het, Hq, Hv.
  split; [reflexivity|]. split; [reflexivity|]. split; [reflexivity|].
  split; [reflexivity|]. split; [reflexivity|]. split; [exact Hn|].
  assert (Hrem : Z.of_nat (List.length queue) - (sitesVisited (stats (w_session w0)) + n)
                 = Z.of_nat (List.length queue) - sitesVisited (stats (w_session w)) - n)
    by (subst w0; cbn; lia).
  split; [exact Hrem|].
  intros Hunb Hstop. rewrite Hrem.
  assert (En : n = Z.of_nat (List.length queue)) by exact (Hu Hunb Hstop).
  split; [exact En|]. split; [lia|]. split; intro; lia.
Qed.

Lemma initialize_then_start_witness :
  _loaded (default_config false) = true
  /\ _isPaused (w_session fresh_world) = false
  /\ Sites_load down_env (w_tick fresh_world) = Ok sample_sites
  /\ browser_launch down_env (S (w_tick fresh_world)) = Ok tt
  /\ (exists mid w' snap,
        bind (initialize down_env)
             (fun _ => start down_env (default_config false) ascii_toLowerCase
                             literal_RegExp_i) fresh_world
        = (Returned tt,
           [Emit (E_stateChange STARTING); SitesLoad; BrowserLaunch (Ok tt);
            Emit E_initialized; Emit (E_stateChange RUNNING); Emit (E_started 3)]
           ++ mid ++ [Emit (E_stateChange STOPPED); Emit (E_completed snap)],
           w')
        /\ state (w_session w') = STOPPED
        /\ snap_remainingSites snap = 0)
  /\ _isPaused (w_session first_run_world) = false
  /\ Sites_load down_env (w_tick first_run_world) = Ok sample_sites
  /\ browser_launch down_env (S (w_tick first_run_world)) = Ok tt
  /\ (exists mid w' snap,
        bind (initialize down_env)
             (fun _ => start down_env (default_config false) ascii_toLowerCase
                             literal_RegExp_i) first_run_world
        = (Returned tt,
           [Emit (E_stateChange STARTING); SitesLoad; BrowserLaunch (Ok tt);
            Emit E_initialized; Emit (E_stateChange RUNNING); Emit (E_started 3)]
           ++ mid ++ [Emit (E_stateChange STOPPED); Emit (E_completed snap)],
           w')
        /\ state (w_session w') = STOPPED
        /\ snap_remainingSites snap = -3).
Proof.
  assert (H1 : _loaded (default_config false) = true) by reflexivity.
  assert (H2 : _isPaused (w_session fresh_world) = false) by reflexivity.
  assert (H3 : Sites_load down_env (w_tick fresh_world) = Ok sample_sites) by reflexivity.
  assert (H4 : browser_launch down_env (S (w_tick fresh_world)) = Ok tt) by reflexivity.
  assert (H5 : getSites ascii_toLowerCase literal_RegExp_i (Math_random down_env)
                 {| _sites := Some sample_sites |}
                 (cfg_categories (sites (_config (default_config false))))
                 (siteOptions (_config (default_config false)))
                 (S (S (w_tick fresh_world)))
               = Ok (["https://a.example"; "https://c.example"; "https://b.example"]%string,
                     4%nat)) by (vm_compute; reflexivity).
  assert (H6 : ["https://a.example"; "https://c.example"; "https://b.example"]%string <> [])
    by discriminate.
  assert (Hunb : unbounded (_config (default_config false))) by (split; cbn; lia).
  assert (K2 : _isPaused (w_session first_run_world) = false) by (vm_compute; reflexivity).
  assert (K3 : Sites_load down_env (w_tick first_run_world) = Ok sample_sites)
    by reflexivity.
  assert (K4 : browser_launch down_env (S (w_tick first_run_world)) = Ok tt)
    by reflexivity.
  assert (K5 : getSites ascii_toLowerCase literal_RegExp_i (Math_random down_env)
                 {| _sites := Some sample_sites |}
                 (cfg_categories (sites (_config (default_config false))))
                 (siteOptions (_config (default_config false)))
                 (S (S (w_tick first_run_world)))
               = Ok (["https://a.example"; "https://c.example"; "https://b.example"]%string,
                     40%nat)) by (vm_compute; reflexivity).
  assert (K7 : _shouldStop (w_session first_run_world) = false)
    by (vm_compute; reflexivity).
  assert (K8 : - sitesVisited (stats (w_session first_run_world)) = -3)
    by (vm_compute; reflexivity).
  split; [exact H1|]. split; [exact H2|]. split; [exact H3|]. split; [exact H4|].
  split.
  { destruct (initialize_then_start down_env (default_config false) ascii_toLowerCase
                literal_RegExp_i fresh_world sample_sites _ _ H1 H2 H3 H4 H5 H6)
      as (mid & w' & n & snap & t & E & Hs & _ & _ & _ & _ & _ & _ & _ & _ & _ & Hu).
    exists mid, w', snap. split; [exact E|]. split; [exact Hs|].
    destruct (Hu Hunb eq_refl) as (_ & _ & H0 & _). apply H0. reflexivity. }
  split; [exact K2|]. split; [exact K3|]. split; [exact K4|].
  destruct (initialize_then_start down_env (default_config false) ascii_toLowerCase
              literal_RegExp_i first_run_world sample_sites _ _ H1 K2 K3 K4 K5 H6)
    as (mid & w' & n & snap & t & E & Hs & _ & _ & _ & _ & _ & _ & _ & _ & _ & Hu).
  exists mid, w', snap. split; [exact E|]. split; [exact Hs|].
  destruct (Hu Hunb K7) as (_ & Hneg & _). exact (eq_trans Hneg K8).
Defined.

(** ** [_performSearches] *)

Section SearchFacts.

Variable env : Env.
Variable Config : ConfigManager.
Hypothesis Config_loaded : _loaded Config = true.

Local Open Scope run_scope.

(** One iteration of the loop, after its two guards. *)
Lemma search_iteration_spec (i count : Z) w :
  exists fx w',
    try_catch
      (result <- performSearch_call env ;;
       (if searched result
        then
          update_stats incr_searchesPerformed ;;;
          emit (E_searchPerformed result) ;;;
          _ <- stayOnPage_call env "search" ;;
          ret tt
        else ret tt) ;;;
       (if i <? count - 1
        then _ <- _waitBetweenSites env Config ;; ret tt
        else ret tt))
      (fun error =>
         t <- Date_now_call env ;;
         update_stats (push_error {| err_type := "search"; err_url := None;
                                     err_error := error; err_time := t |})) w
    = (Returned tt, fx, w')
    /\ keeps w w' /\ counters w' = counters w
    /\ ((searchesPerformed (stats (w_session w'))
         = searchesPerformed (stats (w_session w))
         /\ filter is_searchPerformed fx = [])
        \/ (searchesPerformed (stats (w_session w'))
            = searchesPerformed (stats (w_session w)) + 1
            /\ List.length (filter is_searchPerformed fx) = 1%nat)).
Proof.
  set (tail := if i <? count - 1
               then _ <- _waitBetweenSites env Config ;; ret tt
               else ret tt).
  assert (Htail : forall w0, exists fx w',
             tail w0 = (Returned tt, fx, w')
             /\ w_session w' = w_session w0 /\ w_sites w' = w_sites w0
             /\ filter is_searchPerformed fx = []).
  { intro w0. subst tail. destruct (i <? count - 1).
    - destruct (_waitBetweenSites_run env Config Config_loaded w0) as (w' & E & H1 & H2).
      unfold bind. cbv zeta in E. rewrite E. eexists _, w'.
      split; [reflexivity|]. split; [exact H1|]. split; [exact H2|reflexivity].
    - exists [], w0. repeat split; reflexivity. }
  clearbody tail.
  unfold performSearch_call, stayOnPage_call, the_actions.
  unfold try_catch, bind, get_session, throw, effect, external, of_result, ret,
    update_stats, update, emit, effect, Date_now_call, external.
  cbn.
  destruct (actions (w_session w)) as [a|] eqn:Ea; cbn;
    [|eexists _, _; split; [reflexivity|];
      split; [unfold keeps; cbn; repeat split; reflexivity|];
      split; [reflexivity|left; split; reflexivity]].
  destruct (actions_performSearch env (w_tick w)) as [r|e] eqn:Er; cbn;
    [|eexists _, _; split; [reflexivity|];
      split; [unfold keeps; cbn; repeat split; reflexivity|];
      split; [reflexivity|left; split; reflexivity]].
  destruct (searched r) eqn:Es; cbn; rewrite ?Ea; cbn.
  - destruct (actions_stayOnPage env "search" (S (w_tick w))) as [sr|e] eqn:Est; cbn.
    + match goal with
      | |- context [tail ?w0] =>
          destruct (Htail w0) as (fxt & wt & Et & Hst & Hsi & Hft); rewrite Et
      end.
      cbn. eexists _, _; split; [reflexivity|].
      split; [unfold keeps; rewrite Hst, Hsi; cbn; repeat split; reflexivity|].
      split; [unfold counters; rewrite Hst; reflexivity|].
      right. rewrite Hst. split; [reflexivity|].
      rewrite ?app_nil_r. cbn. rewrite ?app_nil_r, ?Hft. reflexivity.
    + eexists _, _; split; [reflexivity|].
      split; [unfold keeps; cbn; repeat split; reflexivity|].
      split; [reflexivity|right; split; reflexivity].
  - match goal with
    | |- context [tail ?w0] =>
        destruct (Htail w0) as (fxt & wt & Et & Hst & Hsi & Hft); rewrite Et
    end.
    cbn. eexists _, _; split; [reflexivity|].
    split; [unfold keeps; rewrite Hst, Hsi; cbn; repeat split; reflexivity|].
    split; [unfold counters; rewrite Hst; reflexivity|].
    left. rewrite Hst. split; [reflexivity|].
    rewrite ?app_nil_r. cbn. rewrite ?app_nil_r, ?Hft. reflexivity.
Qed.

Lemma search_loop_spec n : forall i count w,
  _isPaused (w_session w) = false ->
  exists fx w' k,
    search_loop env Config n i count w = (Returned tt, fx, w')
    /\ keeps w w' /\ counters w' = counters w
    /\ searchesPerformed (stats (w_session w'))
       = searchesPerformed (stats (w_session w)) + Z.of_nat k
    /\ (k <= n)%nat
    /\ List.length (filter is_searchPerformed fx) = k
    /\ (_shouldStop (w_session w) = true -> fx = [] /\ w' = w).
Proof.
  induction n as [|n IH]; intros i count w Hp; cbn [search_loop].
  { exists [], w, 0%nat. split; [reflexivity|]. split; [apply keeps_refl|].
    split; [reflexivity|]. split; [lia|]. split; [lia|]. split; [reflexivity|auto]. }
  rewrite bind_get_session.
  destruct (_shouldStop (w_session w)) eqn:Estop.
  { exists [], w, 0%nat. split; [reflexivity|]. split; [apply keeps_refl|].
    split; [reflexivity|]. split; [lia|]. split; [lia|]. split; [reflexivity|auto]. }
  unfold _checkPaused at 1. rewrite bind_assoc, bind_get_session, Hp.
  rewrite bind_ret_l.
  destruct (search_iteration_spec i count w) as (fx1 & w1 & E1 & K1 & C1 & S1).
  unfold bind at 1. rewrite E1.
  assert (Hp1 : _isPaused (w_session w1) = false).
  { destruct K1 as (_ & _ & _ & _ & _ & Hpp & _). now rewrite Hpp. }
  destruct (IH (i + 1) count w1 Hp1) as (fx2 & w2 & k & E2 & K2 & C2 & S2 & Hk & Hf & _).
  rewrite E2.
  destruct S1 as [[S1 F1]|[S1 F1]].
  - exists (fx1 ++ fx2), w2, k. split; [reflexivity|].
    split; [exact (keeps_trans _ _ _ K1 K2)|]. split; [congruence|].
    split; [lia|]. split; [lia|]. split; [|discriminate].
    now rewrite filter_app, F1.
  - exists (fx1 ++ fx2), w2, (S k). split; [reflexivity|].
    split; [exact (keeps_trans _ _ _ K1 K2)|]. split; [congruence|].
    split; [lia|]. split; [lia|]. split; [|discriminate].
    rewrite filter_app, length_app, F1, Hf. reflexivity.
Qed.

End SearchFacts.

(** X22. [_performSearches(count)] on a session that is not paused, with
    the configuration loaded: it always returns, a failing search being
    recorded and skipped; it performs at most [count] searches, emits one
    [searchPerformed] for each and adds their number to
    [searchesPerformed]; it touches neither the three site counters, the
    queue nor the state.  When a stop has been asked it does nothing. *)
Theorem performSearches_contained (env : Env) (Config : ConfigManager)
  (count : Z) (w : World) :
  _loaded Config = true ->
  _isPaused (w_session w) = false ->
  exists fx w' k,
    _performSearches env Config count w = (Returned tt, fx, w')
    /\ searchesPerformed (stats (w_session w'))
       = searchesPerformed (stats (w_session w)) + k
    /\ 0 <= k <= Z.max count 0
    /\ Z.of_nat (List.length (filter is_searchPerformed fx)) = k
    /\ counters w' = counters w
    /\ state (w_session w') = state (w_session w)
    /\ _siteQueue (w_session w') = _siteQueue (w_session w)
    /\ (_shouldStop (w_session w) = true -> fx = [] /\ w' = w).
Proof.
  intros Hl Hp. unfold _performSearches.
  destruct (search_loop_spec env Config Hl (Z.to_nat count) 0 count w Hp)
    as (fx & w' & k & E & K & C & S & Hk & Hf & Hstop).
  exists fx, w', (Z.of_nat k). split; [exact E|]. split; [exact S|].
  split; [lia|]. split; [now rewrite Hf|]. split; [exact C|].
  destruct K as (_ & _ & _ & Hs & _ & _ & Hq & _).
  split; [exact Hs|]. split; [exact Hq|exact Hstop].
Qed.

Lemma performSearches_contained_witness :
  _loaded (default_config true) = true
  /\ _isPaused (w_session initialized_world) = false
  /\ exists fx w',
       _performSearches (sample_env (fun _ => false) false) (default_config true) 3
                        initialized_world = (Returned tt, fx, w')
       /\ searchesPerformed (stats (w_session w')) <= 3.
Proof.
  assert (H1 : _loaded (default_config true) = true) by reflexivity.
  assert (H2 : _isPaused (w_session initialized_world) = false) by reflexivity.
  split; [exact H1|]. split; [exact H2|].
  destruct (performSearches_contained (sample_env (fun _ => false) false)
              (default_config true) 3 initialized_world H1 H2)
    as (fx & w' & k & E & Hs & Hk & _).
  exists fx, w'. split; [exact E|]. rewrite Hs.
  change (searchesPerformed (stats (w_session initialized_world))) with 0. lia.
Defined.

(** ** Navigation that succeeds after failed attempts *)

Section GotoSuccess.

Variable env : Env.
Variable Config : ConfigManager.
Hypothesis Config_loaded : _loaded Config = true.

Lemma goto_attempts_succeed j : forall n b url k lastError w status,
  (j < n)%nat ->
  (forall i, (i < j)%nat ->
     exists e, page_goto_result env b url (w_tick w + 2 * i) = Throw e) ->
  page_goto_result env b url (w_tick w + 2 * j) = Ok status ->
  exists fx w',
    goto_attempts env n b url (Z.of_nat (k + n) - 1) (Z.of_nat k) lastError w
    = (Returned status, fx, w')
    /\ List.length (filter is_PageGoto fx) = S j
    /\ timeouts fx = map backoff (seq k j)
    /\ In (BrowserEmit (B_navigated url status (Z.of_nat (k + j)))) fx
    /\ In (Emit (E_pageVisited url status)) fx
    /\ (forall e, ~ In (BrowserEmit (B_navigationFailed url e)) fx)
    /\ (400 <= status -> In (BrowserEmit (B_httpError url status)) fx)
    /\ w_session w' = w_session w /\ w_sites w' = w_sites w
    /\ w_tick w' = (w_tick w + 2 * j + 1)%nat.
Proof.
  induction j as [|j IH]; intros n b url k lastError w status Hn Hfail Hok.
  - destruct n as [|n]; [lia|].
    rewrite Nat.mul_0_r, Nat.add_0_r in Hok.
    cbn [goto_attempts]. unfold try_catch, page_goto_call, bind at 1 2 3.
    cbn [external]. rewrite Hok. cbn [effect of_result ret app].
    unfold browser_emit, bind, effect, emit, effect, ret.
    rewrite Nat.add_0_r.
    destruct (status >=? 400) eqn:E4; cbn.
    + eexists _, _. split; [reflexivity|]. cbn.
      split; [reflexivity|]. split; [reflexivity|].
      split; [auto|]. split; [auto 6|].
      split; [intros e [H|[H|[H|[H|[]]]]]; discriminate|].
      split; [auto|]. split; [reflexivity|]. split; [reflexivity|lia].
    + eexists _, _. split; [reflexivity|]. cbn.
      split; [reflexivity|]. split; [reflexivity|].
      split; [auto|]. split; [auto|].
      split; [intros e [H|[H|[H|[]]]]; discriminate|].
      split; [intro H; rewrite Z.geb_leb in E4; apply Z.leb_gt in E4; lia|].
      split; [reflexivity|]. split; [reflexivity|lia].
  - destruct n as [|n]; [lia|].
    cbn [goto_attempts]. unfold try_catch, page_goto_call, bind at 1 2 3.
    cbn [external]. destruct (Hfail 0%nat ltac:(lia)) as [e He].
    rewrite Nat.mul_0_r, Nat.add_0_r in He. rewrite He.
    cbn [effect of_result throw app].
    replace (Z.of_nat (k + S n) - 1) with (Z.of_nat (S k + n) - 1) by lia.
    replace (Z.of_nat k + 1) with (Z.of_nat (S k)) by lia.
    unfold bind at 1.
    replace (Z.of_nat k <? Z.of_nat (S k + n) - 1) with true
      by (symmetry; apply Z.ltb_lt; lia).
    unfold sleep. cbn [bind effect external app].
    match goal with
    | |- context [goto_attempts env n b url _ _ e ?w1] =>
        destruct (IH n b url (S k) e w1 status) as
          (fx & w' & E & Hg & Ht & Hnav & Hpv & Hnf & Hh & Hs & Hsi & Htk)
    end.
    + lia.
    + intros i Hi. cbn [w_tick advance_tick].
      destruct (Hfail (S i) ltac:(lia)) as [e' He'].
      exists e'. rewrite <- He'. f_equal. lia.
    + cbn [w_tick advance_tick]. rewrite <- Hok. f_equal. lia.
    + rewrite E. eexists _, _. split; [reflexivity|].
      cbn [app filter is_PageGoto List.length timeouts flat_map].
      fold (timeouts fx). rewrite Hg, Ht.
      split; [reflexivity|]. split; [reflexivity|].
      split; [right; right; replace (k + S j)%nat with (S k + j)%nat by lia; exact Hnav|].
      split; [right; right; exact Hpv|].
      split; [intros e' [H|[H|H]]; try discriminate; exact (Hnf e' H)|].
      split; [intro H; right; right; exact (Hh H)|].
      cbn [w_session w_sites w_tick advance_tick] in Hs, Hsi, Htk.
      split; [exact Hs|]. split; [exact Hsi|]. lia.
Qed.

End GotoSuccess.

(** X23. [BrowserController.goto] with the configuration loaded: when the
    first [j] attempts throw and the next one answers, [j] being below the
    number of attempts allowed, it returns that response after [j + 1]
    attempts, having waited [min(1000 * 2^(i-1), 10000)] ms after each
    failed attempt [i]; it emits [navigated] with the number of the
    successful attempt and never [navigationFailed], records no error and
    leaves the session as it is.  A status of 400 or more is reported by
    [httpError] but is a response like any other: it is returned, not
    retried. *)
Theorem goto_succeeds_after_failures (env : Env) (Config : ConfigManager)
  (b : BrowserController) (url : string) (retries : option nat) (w : World)
  (j : nat) (status : Z) :
  _loaded Config = true ->
  (j < goto_maxRetries retries)%nat ->
  (forall i, (i < j)%nat ->
     exists e, page_goto_result env b url (w_tick w + 2 * i) = Throw e) ->
  page_goto_result env b url (w_tick w + 2 * j) = Ok status ->
  exists fx w',
    BrowserController_goto env Config b url retries w = (Returned status, fx, w')
    /\ List.length (filter is_PageGoto fx) = S j
    /\ timeouts fx = backoff_delays (S j)
    /\ In (BrowserEmit (B_navigated url status (Z.of_nat (S j)))) fx
    /\ In (Emit (E_pageVisited url status)) fx
    /\ (forall e, ~ In (BrowserEmit (B_navigationFailed url e)) fx)
    /\ (400 <= status -> In (BrowserEmit (B_httpError url status)) fx)
    /\ w_session w' = w_session w
    /\ w_tick w' = (w_tick w + 2 * j + 1)%nat.
Proof.
  intros Hl Hj Hfail Hok.
  unfold BrowserController_goto. unfold bind.
  rewrite (Config_get_call_loaded Config Hl).
  set (n := goto_maxRetries retries) in *.
  destruct (goto_attempts_succeed env j n b url 1 "undefined" w status Hj Hfail Hok)
    as (fx & w' & E & Hg & Ht & Hnav & Hpv & Hnf & Hh & Hs & _ & Htk).
  replace (Z.of_nat (1 + n) - 1) with (Z.of_nat n) in E by lia.
  change (Z.of_nat 1) with 1 in E. rewrite E.
  exists fx, w'. cbn [app]. split; [reflexivity|].
  split; [exact Hg|]. split; [unfold backoff_delays; now rewrite Nat.sub_succ, Nat.sub_0_r|].
  repeat (split; [assumption|]). exact Htk.
Qed.

Lemma goto_succeeds_after_failures_witness :
  _loaded (default_config false) = true
  /\ (1 < goto_maxRetries None)%nat
  /\ page_goto_result flaky_env {| page_attached := true |} "https://a.example"
                      (w_tick fresh_world + 2 * 1) = Ok 200
  /\ exists fx w',
       BrowserController_goto flaky_env (default_config false)
         {| page_attached := true |} "https://a.example" None fresh_world
       = (Returned 200, fx, w')
       /\ timeouts fx = [1000]
       /\ List.length (filter is_PageGoto fx) = 2%nat.
Proof.
  assert (H1 : _loaded (default_config false) = true) by reflexivity.
  assert (H2 : (1 < goto_maxRetries None)%nat) by (cbn; lia).
  assert (H3 : forall i, (i < 1)%nat ->
             exists e, page_goto_result flaky_env {| page_attached := true |}
                         "https://a.example" (w_tick fresh_world + 2 * i) = Throw e).
  { intros i Hi. destruct i as [|i]; [|lia]. eexists. reflexivity. }
  assert (H4 : page_goto_result flaky_env {| page_attached := true |} "https://a.example"
                 (w_tick fresh_world + 2 * 1) = Ok 200) by reflexivity.
  split; [exact H1|]. split; [exact H2|]. split; [exact H4|].
  destruct (goto_succeeds_after_failures flaky_env (default_config false)
              {| page_attached := true |} "https://a.example" None fresh_world 1 200
              H1 H2 H3 H4) as (fx & w' & E & Hg & Ht & _).
  exists fx, w'. split; [exact E|]. split; [exact Ht|exact Hg].
Defined.

(* ================================================================== *)
(** ** Subscriptions and broadcast *)

Lemma Set_add_In x s y : In y (Set_add x s) <-> y = x \/ In y s.
Proof.
  unfold Set_add. destruct (includes s x) eqn:E.
  - apply includes_In in E. split; [auto|]. intros [->|H]; assumption.
  - rewrite in_app_iff. cbn. split.
    + intros [H|[H|[]]]; auto.
    + intros [H|H]; auto.
Qed.

Lemma Set_add_NoDup x s : NoDup s -> NoDup (Set_add x s).
Proof.
  intro H. unfold Set_add. destruct (includes s x) eqn:E; [exact H|].
  assert (Hn : ~ In x s).
  { intro Hin. apply includes_In in Hin. congruence. }
  clear E. induction s as [|a s IH]; cbn.
  - constructor; [intros []|constructor].
  - inversion H as [|? ? Ha Hs]; subst. constructor.
    + rewrite in_app_iff. cbn. intros [Hin|[Heq|[]]]; [auto|].
      apply Hn. now left.
    + apply IH; [exact Hs|]. intro Hin. apply Hn. now right.
Qed.

Lemma Set_delete_In x s y : In y (Set_delete x s) <-> In y s /\ y <> x.
Proof.
  unfold Set_delete. rewrite filter_In. split; intros [H1 H2]; split; auto.
  - intros ->. rewrite String.eqb_refl in H2. discriminate.
  - apply negb_true_iff. now apply String.eqb_neq.
Qed.

Lemma Set_delete_NoDup x s : NoDup s -> NoDup (Set_delete x s).
Proof. intro H. unfold Set_delete. now apply NoDup_filter. Qed.

Lemma Set_delete_absent x s : ~ In x s -> Set_delete x s = s.
Proof.
  intro H. unfold Set_delete. induction s as [|a s IH]; [reflexivity|].
  cbn. destruct (String.eqb a x) eqn:E.
  - apply String.eqb_eq in E. subst. exfalso. apply H. now left.
  - cbn. f_equal. apply IH. intro Hin. apply H. now right.
Qed.

Lemma Set_delete_add x s : ~ In x s -> Set_delete x (Set_add x s) = s.
Proof.
  intro H. unfold Set_add.
  destruct (includes s x) eqn:E; [apply includes_In in E; contradiction|].
  unfold Set_delete. rewrite filter_app. cbn. rewrite String.eqb_refl. cbn.
  rewrite app_nil_r. now apply Set_delete_absent.
Qed.

Lemma subscribe_fold_spec events : forall c,
  let c' := fold_left (fun c event =>
                         if includes EventTypes_values event
                         then Client_subscribe c event else c) events c in
  (forall e, In e (c_subscriptions c')
             <-> In e (c_subscriptions c) \/ (In e events /\ In e EventTypes_values))
  /\ (NoDup (c_subscriptions c) -> NoDup (c_subscriptions c'))
  /\ c_open c' = c_open c /\ c_id c' = c_id c /\ c_sent c' = c_sent c.
Proof.
  induction events as [|ev events IH]; intro c; cbn [fold_left].
  - split; [intro e; cbn; tauto|]. auto.
  - set (c1 := if includes EventTypes_values ev then Client_subscribe c ev else c).
    destruct (IH c1) as (Hin & Hnd & Ho & Hi & Hs). cbv zeta in *.
    assert (H1 : forall e, In e (c_subscriptions c1)
                           <-> In e (c_subscriptions c)
                               \/ (e = ev /\ In e EventTypes_values)).
    { intro e. subst c1. destruct (includes EventTypes_values ev) eqn:E.
      - apply includes_In in E. cbn. rewrite Set_add_In. split.
        + intros [->|H]; auto.
        + intros [H|[-> _]]; auto.
      - split; [auto|]. intros [H|[-> H]]; [exact H|].
        apply includes_In in H. congruence. }
    assert (H2 : NoDup (c_subscriptions c) -> NoDup (c_subscriptions c1)).
    { intro H. subst c1. destruct (includes EventTypes_values ev); [|exact H].
      cbn. now apply Set_add_NoDup. }
    assert (H3 : c_open c1 = c_open c /\ c_id c1 = c_id c /\ c_sent c1 = c_sent c).
    { subst c1. destruct (includes EventTypes_values ev); cbn; auto. }
    destruct H3 as (H3 & H4 & H5).
    split; [|split; [auto|split; [congruence|split; congruence]]].
    intro e. rewrite Hin, H1. cbn [In]. split.
    + intros [[H|[-> H]]|[H H']]; auto.
    + intros [H|[[<-|H] H']]; auto.
Qed.

Lemma unsubscribe_fold_spec events : forall c,
  let c' := fold_left (fun c event =>
                         match event with
                         | Some e => Client_unsubscribe c e
                         | None => c
                         end) events c in
  (forall e, In e (c_subscriptions c')
             <-> In e (c_subscriptions c) /\ ~ In (Some e) events)
  /\ (NoDup (c_subscriptions c) -> NoDup (c_subscriptions c'))
  /\ c_open c' = c_open c.
Proof.
  induction events as [|ev events IH]; intro c; cbn [fold_left].
  - split; [intro e; cbn; tauto|]. auto.
  - set (c1 := match ev with Some e => Client_unsubscribe c e | None => c end).
    destruct (IH c1) as (Hin & Hnd & Ho). cbv zeta in *.
    assert (H1 : forall e, In e (c_subscriptions c1)
                           <-> In e (c_subscriptions c) /\ Some e <> ev).
    { intro e. subst c1. destruct ev as [x|].
      - cbn. rewrite Set_delete_In. split; intros [H H']; split; auto; congruence.
      - split; [intro H; split; [exact H|discriminate]|tauto]. }
    assert (H2 : NoDup (c_subscriptions c) -> NoDup (c_subscriptions c1)).
    { intro H. subst c1. destruct ev; [|exact H]. cbn. now apply Set_delete_NoDup. }
    assert (H3 : c_open c1 = c_open c) by (subst c1; destruct ev; reflexivity).
    split; [|split; [auto|congruence]].
    intro e. rewrite Hin, H1. cbn [In]. split.
    + intros [[H H'] H'']. split; [exact H|]. intros [E|E]; [congruence|auto].
    + intros [H H']. split; [split; [exact H|]|]; intro E; apply H'; auto.
Qed.

(** X24. [_handleSubscribe] adds to the subscriptions of the client exactly
    the requested events that are values of [EventTypes]; any other name is
    dropped without notice, and the response says [success: true] all the
    same.  The subscriptions stay free of duplicates and, when they were
    so before, within [EventTypes].  A request without [data] subscribes to
    everything.  A client whose socket is not open is subscribed all the
    same but gets no response. *)
Theorem handleSubscribe_known_events (client : Client)
  (data : option SubscriptionData) (requestId : option string) :
  let client' := fst (_handleSubscribe client data requestId) in
  let known := fun e => In e EventTypes_values in
  (forall e, In e (c_subscriptions client')
             <-> In e (c_subscriptions client)
                 \/ (In e (subscribe_events data) /\ known e))
  /\ (NoDup (c_subscriptions client) -> NoDup (c_subscriptions client'))
  /\ (Forall known (c_subscriptions client) -> Forall known (c_subscriptions client'))
  /\ (c_open client = true ->
      snd (_handleSubscribe client data requestId)
      = Some {| sub_type := "response"; sub_command := "subscribe";
                sub_requestId := requestId; sub_success := true;
                sub_subscriptions := c_subscriptions client' |})
  /\ (c_open client = false -> snd (_handleSubscribe client data requestId) = None)
  /\ (data = None -> forall e, Client_isSubscribed client' e = true).
Proof.
  intros client' known. unfold _handleSubscribe in *. cbn [fst snd] in *.
  destruct (subscribe_fold_spec (subscribe_events data) client)
    as (Hin & Hnd & Ho & _ & _).
  cbv zeta in *. fold client' in Hin, Hnd, Ho.
  split; [exact Hin|]. split; [exact Hnd|].
  split; [|split; [|split]].
  - intro Hk. apply Forall_forall. intros e He. apply Hin in He.
    destruct He as [He|[_ He]]; [|exact He].
    rewrite Forall_forall in Hk. now apply Hk.
  - intro H. unfold send_subscriptions. fold client'. now rewrite Ho, H.
  - intro H. unfold send_subscriptions. fold client'. now rewrite Ho, H.
  - intros -> e. unfold Client_isSubscribed.
    assert (H : In EventTypes.ALL (c_subscriptions client')).
    { apply Hin. right. cbn. split; [now left|]. unfold EventTypes_values.
      repeat (first [now left|right]). }
    apply includes_In in H. rewrite H. apply orb_true_r.
Qed.

Lemma handleSubscribe_known_events_witness :
  c_open failures_client = true
  /\ fst (_handleSubscribe failures_client
            (Some {| data_events := Some ["completed"; "siteComplete"]%string;
                     data_event := None |}) None)
     = with_subscriptions ["siteFailed"; "siteComplete"]%string failures_client
  /\ snd (_handleSubscribe failures_client
            (Some {| data_events := Some ["completed"]%string; data_event := None |})
            (Some "r-7"%string))
     = Some {| sub_type := "response"; sub_command := "subscribe";
               sub_requestId := Some "r-7"%string; sub_success := true;
               sub_subscriptions := ["siteFailed"%string] |}.
Proof.
  assert (H : c_open failures_client = true) by reflexivity.
  split; [exact H|]. split; [reflexivity|].
  destruct (handleSubscribe_known_events failures_client
              (Some {| data_events := Some ["completed"]%string; data_event := None |})
              (Some "r-7"%string)) as (_ & _ & _ & Hs & _).
  exact (Hs H).
Defined.

(** X25. [_handleUnsubscribe] removes the named events and nothing else.
    Subscribing to an event of [EventTypes] that the client did not have
    and unsubscribing from it gives back the subscriptions as they were.
    Unsubscribing from one event does not stop its delivery to a client
    that also holds the wildcard: [isSubscribed] still answers yes.  A
    request without [data] removes nothing. *)
Theorem unsubscribe_round_trip (client : Client) (event : string)
  (r r' : option string) :
  let one := Some {| data_events := Some [event]; data_event := None |} in
  (forall e, In e (c_subscriptions (fst (_handleUnsubscribe client one r)))
             <-> In e (c_subscriptions client) /\ e <> event)
  /\ (In event EventTypes_values -> ~ In event (c_subscriptions client) ->
      c_subscriptions
        (fst (_handleUnsubscribe (fst (_handleSubscribe client one r)) one r'))
      = c_subscriptions client)
  /\ (In EventTypes.ALL (c_subscriptions client) -> event <> EventTypes.ALL ->
      forall e, Client_isSubscribed (fst (_handleUnsubscribe client one r)) e = true)
  /\ c_subscriptions (fst (_handleUnsubscribe client None r)) = c_subscriptions client.
Proof.
  intro one. subst one. split; [|split; [|split]].
  - intro e. unfold _handleUnsubscribe. cbn. apply Set_delete_In.
  - intros Hk Hn. unfold _handleUnsubscribe, _handleSubscribe.
    cbn [fst snd fold_left subscribe_events unsubscribe_events map data_events].
    apply includes_In in Hk. rewrite Hk.
    unfold Client_unsubscribe, Client_subscribe. cbn [c_subscriptions with_subscriptions].
    now apply Set_delete_add.
  - intros Hall Hne e. unfold Client_isSubscribed, _handleUnsubscribe.
    cbn [fst snd fold_left unsubscribe_events map data_events].
    unfold Client_unsubscribe. cbn [c_subscriptions with_subscriptions].
    assert (H : In EventTypes.ALL (Set_delete event (c_subscriptions client))).
    { apply Set_delete_In. split; [exact Hall|]. congruence. }
    apply includes_In in H. rewrite H. apply orb_true_r.
  - reflexivity.
Qed.

Lemma unsubscribe_round_trip_witness :
  In "siteComplete"%string EventTypes_values
  /\ ~ In "siteComplete"%string (c_subscriptions failures_client)
  /\ c_subscriptions
       (fst (_handleUnsubscribe
               (fst (_handleSubscribe failures_client
                       (Some {| data_events := Some ["siteComplete"%string];
                                data_event := None |}) None))
               (Some {| data_events := Some ["siteComplete"%string];
                        data_event := None |}) None))
     = c_subscriptions failures_client.
Proof.
  assert (H1 : In "siteComplete"%string EventTypes_values)
    by (cbn; repeat (first [left; reflexivity|right])).
  assert (H2 : ~ In "siteComplete"%string (c_subscriptions failures_client)).
  { cbn. intros [H|[]]. discriminate. }
  split; [exact H1|]. split; [exact H2|].
  destruct (unsubscribe_round_trip failures_client "siteComplete" None None)
    as (_ & H & _).
  exact (H H1 H2).
Defined.

Lemma filter_filter_comm {A} (f g : A -> bool) l :
  filter f (filter g l) = filter (fun x => f x && g x) l.
Proof.
  induction l as [|a l IH]; [reflexivity|].
  cbn. destruct (g a); cbn; destruct (f a); cbn; now rewrite IH.
Qed.

(** X26. [broadcast(eventType)] hands the event to exactly the clients
    whose socket is open and who hold [eventType] or the wildcard, and
    counts them.  An event that is not a value of [EventTypes], such as
    [completed], [started], [stopped], [paused] or [resumed], which no
    [subscribe] request can name, reaches only the holders of the
    wildcard.  Sweeping the closed sockets with the heartbeat keeps every
    open client and changes nothing to who receives an event. *)
Theorem broadcast_recipients (h : WebSocketHandler) (eventType : string) :
  let ids := fst (broadcast h eventType) in
  ids = map fst (filter (fun entry =>
                           c_open (snd entry)
                           && (includes (c_subscriptions (snd entry)) eventType
                               || includes (c_subscriptions (snd entry)) "*"))
                        (h_clients h))
  /\ (forall id, In id ids ->
        exists c, In (id, c) (h_clients h) /\ c_open c = true
                  /\ (In eventType (c_subscriptions c)
                      \/ In "*"%string (c_subscriptions c)))
  /\ (forall id c, In (id, c) (h_clients h) -> c_open c = true ->
        In eventType (c_subscriptions c) \/ In "*"%string (c_subscriptions c) ->
        In id ids)
  /\ snd (broadcast h eventType) = Z.of_nat (List.length ids)
  /\ (~ In eventType EventTypes_values ->
      (forall id c, In (id, c) (h_clients h) ->
                    Forall (fun e => In e EventTypes_values) (c_subscriptions c)) ->
      forall id, In id ids ->
        exists c, In (id, c) (h_clients h) /\ c_open c = true
                  /\ In "*"%string (c_subscriptions c))
  /\ (forall e, In e ["completed"; "started"; "stopped"; "paused"; "resumed"]%string ->
        In e sessionEvents /\ ~ In e EventTypes_values)
  /\ broadcast (snd (heartbeat h)) eventType = broadcast h eventType
  /\ Forall (fun entry => c_open (snd entry) = true) (h_clients (snd (heartbeat h))).
Proof.
  intro ids. subst ids. unfold broadcast. cbn [fst snd].
  assert (Hrec : forall id,
             In id (map fst (filter (fun entry =>
                                       Client_isSubscribed (snd entry) eventType
                                       && c_open (snd entry)) (h_clients h)))
             -> exists c, In (id, c) (h_clients h) /\ c_open c = true
                          /\ (In eventType (c_subscriptions c)
                              \/ In "*"%string (c_subscriptions c))).
  { intros id Hin. apply in_map_iff in Hin. destruct Hin as ([id' c] & <- & Hf).
    apply filter_In in Hf. destruct Hf as [Hin Hb]. cbn [fst snd] in *.
    apply andb_true_iff in Hb. destruct Hb as [Hs Ho].
    exists c. split; [exact Hin|]. split; [exact Ho|].
    unfold Client_isSubscribed in Hs. apply orb_true_iff in Hs.
    destruct Hs as [Hs|Hs]; apply includes_In in Hs; auto. }
  split.
  { f_equal. apply filter_ext. intros [id c]. cbn.
    unfold Client_isSubscribed. apply andb_comm. }
  split; [exact Hrec|]. split; [|split; [|split; [|split; [|split]]]].
  - intros id c Hin Ho Hs. apply in_map_iff. exists (id, c). split; [reflexivity|].
    apply filter_In. split; [exact Hin|]. cbn. rewrite Ho, andb_true_r.
    unfold Client_isSubscribed. apply orb_true_iff.
    destruct Hs as [Hs|Hs]; apply includes_In in Hs; auto.
  - now rewrite length_map.
  - intros Hu Hk id Hin. destruct (Hrec id Hin) as (c & Hc & Ho & [Hs|Hs]).
    + exfalso. apply Hu. specialize (Hk id c Hc). rewrite Forall_forall in Hk. auto.
    + eauto.
  - intros e He. cbn in He.
    repeat (destruct He as [<-|He];
            [split; [cbn; repeat (first [left; reflexivity|right])|];
             cbn; intro H;
             repeat (destruct H as [H|H]; [discriminate|]); exact H|]).
    contradiction.
  - unfold heartbeat. cbn [snd h_clients]. rewrite filter_filter_comm.
    f_equal; [f_equal|f_equal; f_equal]; apply filter_ext; intros [id c]; cbn;
      destruct (c_open c); rewrite ?andb_true_r, ?andb_false_r; reflexivity.
  - unfold heartbeat. cbn [snd h_clients]. apply Forall_forall.
    intros entry Hin. apply filter_In in Hin. tauto.
Qed.

Lemma broadcast_recipients_witness :
  ~ In "completed"%string EventTypes_values
  /\ broadcast three_clients "completed" = (["3f2a9c01be"%string], 1)
  /\ broadcast three_clients "siteFailed" = (["aa01"; "3f2a9c01be"]%string, 2)
  /\ snd (broadcast three_clients "siteFailed")
     = Z.of_nat (List.length (fst (broadcast three_clients "siteFailed"))).
Proof.
  assert (H : ~ In "completed"%string EventTypes_values).
  { cbn. intro H. repeat (destruct H as [H|H]; [discriminate|]). exact H. }
  split; [exact H|]. split; [reflexivity|]. split; [reflexivity|].
  destruct (broadcast_recipients three_clients "siteFailed") as (_ & _ & _ & E & _).
  exact E.
Defined.

(* ================================================================== *)
(** ** [addSites] *)

Lemma js_get_set_same {V} (o : JSObject V) k v : js_get (js_set o k v) k = Some v.
Proof.
  induction o as [|[k' v'] o IH]; cbn.
  - now rewrite String.eqb_refl.
  - destruct (String.eqb k' k) eqn:E; cbn; rewrite E; [reflexivity|exact IH].
Qed.

Lemma js_get_set_other {V} (o : JSObject V) k v k0 :
  k0 <> k -> js_get (js_set o k v) k0 = js_get o k0.
Proof.
  intro Hne. induction o as [|[k' v'] o IH]; cbn.
  - destruct (String.eqb k k0) eqn:E; [|reflexivity].
    apply String.eqb_eq in E. congruence.
  - destruct (String.eqb k' k) eqn:E; cbn.
    + apply String.eqb_eq in E. subst k'.
      destruct (String.eqb k k0) eqn:E0; [|reflexivity].
      apply String.eqb_eq in E0. congruence.
    + destruct (String.eqb k' k0); [reflexivity|exact IH].
Qed.

Lemma js_set_set {V} (o : JSObject V) k v v' :
  js_set (js_set o k v) k v' = js_set o k v'.
Proof.
  induction o as [|[k' w] o IH]; cbn.
  - now rewrite String.eqb_refl.
  - destruct (String.eqb k' k) eqn:E; cbn; rewrite E; [reflexivity|now rewrite IH].
Qed.


(** Spreading a set again after appending elements it already has. *)
Lemma set_spread_absorb l : forall seen m,
  (forall x, In x m -> In x l \/ In x seen) ->
  set_spread seen (l ++ m) = set_spread seen l.
Proof.
  induction l as [|a l IH]; intros seen m Hm.
  - cbn. induction m as [|b m IHm]; [reflexivity|].
    cbn. assert (Hb : In b seen) by (destruct (Hm b (or_introl eq_refl)) as [[]|H]; exact H).
    apply includes_In in Hb. rewrite Hb. apply IHm.
    intros x Hx. apply Hm. now right.
  - cbn. destruct (includes seen a) eqn:E.
    + apply IH. intros x Hx. destruct (Hm x Hx) as [[<-|H]|H]; auto.
      right. now apply includes_In.
    + f_equal. apply IH. intros x Hx.
      destruct (Hm x Hx) as [[<-|H]|H]; [right; now left|now left|right; now right].
Qed.

Lemma set_spread_NoDup_id l : forall seen,
  NoDup l -> (forall x, In x l -> ~ In x seen) -> set_spread seen l = l.
Proof.
  induction l as [|a l IH]; intros seen Hnd Hs; [reflexivity|].
  cbn. inversion Hnd as [|? ? Ha Hl]; subst.
  destruct (includes seen a) eqn:E.
  - apply includes_In in E. exfalso. exact (Hs a (or_introl eq_refl) E).
  - f_equal. apply IH; [exact Hl|].
    intros x Hx [<-|H]; [contradiction|]. exact (Hs x (or_intror Hx) H).
Qed.

Lemma set_spread_idempotent l m :
  (forall x, In x m -> In x l) ->
  set_spread [] (set_spread [] l ++ m) = set_spread [] l.
Proof.
  intro Hm. destruct (set_spread_spec l []) as [Hnd Hin].
  rewrite set_spread_absorb.
  - apply set_spread_NoDup_id; [exact Hnd|]. intros x _ [].
  - intros x Hx. left. apply Hin. split; [auto|intros []].
Qed.

(** X27. [addSites(category, sites)].  When the category is one of the
    configuration's own, or is missing and not named like a member of
    [Object.prototype], the call succeeds: afterwards the category lists,
    without duplicates, exactly the sites it had and the sites given; a
    category that did not exist is created (and the configuration itself
    when none was loaded); the other categories, the exclude patterns and
    the hints are unchanged; adding the same sites again changes nothing.
    When the category is missing and named like such a member
    ([constructor], [toString], ...), the call throws a [TypeError] and
    leaves every category as it was; it has then already created the
    configuration when none was loaded, so that [_sites] is no longer
    [null], and has changed nothing else. *)
Theorem addSites_merges (mgr : SitesManager) (category : string)
  (sites : SitesArgument) :
  (own_category mgr category = None ->
   includes Object_prototype_names category = true ->
   exists e,
     snd (addSites mgr category sites) = Throw e
     /\ (forall data, _sites mgr = Some data ->
                      fst (addSites mgr category sites) = mgr)
     /\ (_sites mgr = None ->
         fst (addSites mgr category sites) = {| _sites := Some created_sites |})
     /\ (forall c, category_sites (fst (addSites mgr category sites)) c
                   = category_sites mgr c))
  /\ (own_category mgr category <> None
      \/ includes Object_prototype_names category = false ->
      exists mgr' data',
        addSites mgr category sites = (mgr', Ok tt)
        /\ _sites mgr' = Some data'
        /\ own_category mgr' category = Some (category_sites mgr' category)
        /\ NoDup (category_sites mgr' category)
        /\ (forall s, In s (category_sites mgr' category)
                      <-> In s (category_sites mgr category)
                          \/ In s (argument_sites sites))
        /\ (forall c, c <> category ->
                      own_category mgr' c = own_category mgr c)
        /\ (forall data, _sites mgr = Some data ->
                         excludePatterns data' = excludePatterns data
                         /\ contentTypeHints data' = contentTypeHints data)
        /\ addSites mgr' category sites = (mgr', Ok tt)).
Proof.
  split.
  - intros Hown Hp. unfold addSites.
    assert (E : js_get (categories match _sites mgr with
                                    | Some d => d
                                    | None => created_sites
                                    end) category = None).
    { unfold own_category in Hown. destruct (_sites mgr); [exact Hown|reflexivity]. }
    rewrite E, Hp. cbn [fst snd].
    eexists. split; [reflexivity|]. split; [|split].
    + intros d Hd. destruct mgr as [o]. cbn in *. now subst o.
    + intros ->. reflexivity.
    + intro c. unfold category_sites, own_category. cbn [_sites].
      destruct (_sites mgr); reflexivity.
  - intro Hc.
    set (data := match _sites mgr with
                 | Some d => d
                 | None => created_sites
                 end).
    set (existing := category_sites mgr category).
    assert (Hadd : addSites mgr category sites
                   = ({| _sites :=
                           Some {| categories :=
                                     js_set (categories data) category
                                       (set_spread [] (existing ++ argument_sites sites));
                                   excludePatterns := excludePatterns data;
                                   contentTypeHints := contentTypeHints data |} |},
                      Ok tt)).
    { unfold addSites. fold data. fold (argument_sites sites).
      assert (Eown : js_get (categories data) category = own_category mgr category).
      { subst data. unfold own_category. destruct (_sites mgr); reflexivity. }
      rewrite Eown. subst existing. unfold category_sites.
      destruct (own_category mgr category) as [l|]; [reflexivity|].
      destruct Hc as [Hc|Hc]; [congruence|]. now rewrite Hc. }
    rewrite Hadd. eexists _, _. split; [reflexivity|]. split; [reflexivity|].
    unfold category_sites at 1 2 3. unfold own_category at 1 2 3 4.
    cbn [_sites categories].
    rewrite !js_get_set_same.
    destruct (set_spread_spec (existing ++ argument_sites sites) []) as [Hnd Hin].
    split; [reflexivity|]. split; [exact Hnd|].
    split; [|split; [|split]].
    + intro s. rewrite Hin, in_app_iff. split; [tauto|].
      intro H. split; [exact H|intros []].
    + intros c Hne. unfold own_category. cbn [_sites categories].
      rewrite (js_get_set_other _ _ _ _ Hne). subst data.
      destruct (_sites mgr); reflexivity.
    + intros d Hd. subst data. rewrite Hd. split; reflexivity.
    + unfold addSites. cbn [_sites categories excludePatterns contentTypeHints].
      rewrite js_get_set_same, js_set_set. fold (argument_sites sites).
      rewrite set_spread_idempotent; [reflexivity|].
      intros x Hx. apply in_or_app. now right.
Qed.

Lemma addSites_merges_witness :
  includes Object_prototype_names "news" = false
  /\ (exists mgr',
        addSites {| _sites := Some sample_sites |} "news"
                 (several_sites ["https://b.example"; "https://d.example"]%string)
        = (mgr', Ok tt)
        /\ category_sites mgr' "news"
           = ["https://a.example"; "https://b.example"; "https://d.example"]%string)
  /\ own_category {| _sites := None |} "constructor" = None
  /\ includes Object_prototype_names "constructor" = true
  /\ (exists e,
        addSites {| _sites := None |} "constructor" (one_site "https://d.example")
        = ({| _sites := Some created_sites |}, Throw e))
  /\ own_category {| _sites := Some shadowing_sites |} "constructor" <> None
  /\ (exists mgr',
        addSites {| _sites := Some shadowing_sites |} "constructor"
                 (one_site "https://d.example")
        = (mgr', Ok tt)
        /\ category_sites mgr' "constructor"
           = ["https://a.example"; "https://d.example"]%string).
Proof.
  assert (H1 : includes Object_prototype_names "news" = false) by reflexivity.
  assert (H2 : own_category {| _sites := None |} "constructor" = None) by reflexivity.
  assert (H3 : includes Object_prototype_names "constructor" = true) by reflexivity.
  assert (H4 : own_category {| _sites := Some shadowing_sites |} "constructor" <> None)
    by discriminate.
  destruct (addSites_merges {| _sites := Some sample_sites |} "news"
              (several_sites ["https://b.example"; "https://d.example"]%string))
    as [_ Ha].
  destruct (addSites_merges {| _sites := None |} "constructor"
              (one_site "https://d.example")) as [Hb _].
  destruct (addSites_merges {| _sites := Some shadowing_sites |} "constructor"
              (one_site "https://d.example")) as [_ Hc].
  split; [exact H1|]. split.
  { destruct (Ha (or_intror H1)) as (mgr' & data' & E & _).
    exists mgr'. split; [exact E|]. injection E as <-. reflexivity. }
  split; [exact H2|]. split; [exact H3|]. split.
  { destruct (Hb H2 H3) as (e & E & _ & Hn & _). exists e.
    rewrite (surjective_pairing (addSites _ _ _)), E, (Hn eq_refl). reflexivity. }
  split; [exact H4|].
  destruct (Hc (or_introl H4)) as (mgr' & data' & E & _).
  exists mgr'. split; [exact E|]. injection E as <-. reflexivity.
Defined.

(* ================================================================== *)
(** ** [Behavior.scrollPattern]: the path and its timing *)

Lemma chained_app y l : forall a,
  chained y l -> sa_from a = path_end y l -> chained y (l ++ [a]).
Proof.
  revert y. induction l as [|b l IH]; intros y a Hc Ha; cbn in *.
  - split; [exact Ha|exact I].
  - destruct Hc as [Hb Hc]. split; [exact Hb|]. apply IH; assumption.
Qed.

Lemma chained_app_list y l : forall m,
  chained y l -> chained (path_end y l) m -> chained y (l ++ m).
Proof.
  revert y. induction l as [|b l IH]; intros y m Hc Hm; cbn in *.
  - exact Hm.
  - destruct Hc as [Hb Hc]. split; [exact Hb|]. apply IH; assumption.
Qed.

Lemma path_end_app y l m : path_end y (l ++ m) = path_end (path_end y l) m.
Proof. unfold path_end. apply fold_left_app. Qed.

Section ScrollPathFacts.
Variable rng : nat -> Q.
Hypothesis rng_range : forall k, (0 <= rng k < 1)%Q.
Variables maxScroll viewportHeight : Q.

Ltac bound_draws :=
  repeat match goal with
  | |- context [Qfloor (rng ?q * inject_Z ?n)] =>
      let H := fresh "H" in
      pose proof (Qfloor_scaled_range (rng q) n (rng_range q) ltac:(lia)) as H;
      revert H; generalize (Qfloor (rng q * inject_Z n)); intros ? H
  end;
  lia.

Lemma scrollPattern_step_path actions y p :
  exists extra,
    fst (fst (scrollPattern_step rng maxScroll viewportHeight (actions, y) p))
    = actions ++ extra
    /\ chained y extra
    /\ snd (fst (scrollPattern_step rng maxScroll viewportHeight (actions, y) p))
       = path_end y extra
    /\ Forall scroll_timing_ok extra.
Proof.
  unfold scrollPattern_step, Timing_scrollPause, Random_bool, Random_int,
    rbind, rng_next, rret.
  repeat match goal with
  | |- context [if ?b then _ else _] =>
      lazymatch b with
      | context [if _ then _ else _] => fail
      | _ => let E := fresh "E" in destruct b eqn:E
      end
  end; cbn [fst snd];
  (first [ exists []; split; [symmetry; apply app_nil_r|]
         | eexists; split; [rewrite <- ?app_assoc; reflexivity|] ]);
  cbn [chained path_end fold_left app sa_from sa_to];
  (split; [repeat split|split; [reflexivity|]]);
  repeat (apply Forall_cons || apply Forall_nil);
  unfold scroll_timing_ok; cbn [sa_type sa_duration sa_pause];
  (split; [bound_draws|]);
  first [ left; bound_draws | right; bound_draws | bound_draws ].
Qed.

Lemma scrollPattern_loop_path n : forall actions y p,
  exists extra,
    fst (fst (scrollPattern_loop rng n maxScroll viewportHeight (actions, y) p))
    = actions ++ extra
    /\ chained y extra
    /\ Forall scroll_timing_ok extra.
Proof.
  induction n as [|n IH]; intros actions y p.
  - exists []. cbn. rewrite app_nil_r. repeat split; auto.
  - cbn [scrollPattern_loop]. unfold rbind.
    destruct (scrollPattern_step_path actions y p) as (e1 & H1 & Hc1 & Hy1 & Ht1).
    destruct (scrollPattern_step rng maxScroll viewportHeight (actions, y) p)
      as [[actions1 y1] p1]. cbn [fst snd] in H1, Hy1. subst actions1 y1.
    destruct (IH (actions ++ e1) (path_end y e1) p1) as (e2 & H2 & Hc2 & Ht2).
    exists (e1 ++ e2). rewrite H2, <- app_assoc. split; [reflexivity|].
    split; [now apply chained_app_list|]. apply Forall_app. now split.
Qed.

End ScrollPathFacts.

(** X28. On a source with draws in [0,1) the actions of
    [Behavior.scrollPattern] form one continuous path: the first starts at
    offset 0 and each of the others starts at the offset where the one
    before it ended.  A [scroll] lasts 200 to 600 ms and is followed by a
    pause of 100 to 500 or 800 to 3000 ms; a [scrollToTop] lasts 500 to
    1000 ms and is followed by a pause of 1000 to 3000 ms. *)
Theorem scrollPattern_continuous (rng : nat -> Q) (pageHeight viewportHeight : Q)
  (p : nat) :
  (forall k, (0 <= rng k < 1)%Q) ->
  let actions := fst (Behavior_scrollPattern rng pageHeight viewportHeight p) in
  chained 0 actions /\ Forall scroll_timing_ok actions.
Proof.
  intros Hr actions. unfold actions, Behavior_scrollPattern, rbind, rret.
  destruct (scrollPattern_count rng p) as [c p1].
  destruct (scrollPattern_loop_path rng Hr (pageHeight - viewportHeight) viewportHeight
              (Z.to_nat c) [] 0%Q p1) as (extra & He & Hc & Ht).
  destruct (scrollPattern_loop rng _ _ _ _ p1) as [[acts y] p2].
  cbn [fst] in *. subst acts. cbn [app]. split; assumption.
Qed.

Lemma scrollPattern_continuous_witness :
  (forall k : nat, (0 <= (fun _ : nat => 1 # 2) k < 1)%Q)
  /\ chained 0 (fst (Behavior_scrollPattern (fun _ => 1 # 2) 5000 800 0%nat))
  /\ Forall scroll_timing_ok (fst (Behavior_scrollPattern (fun _ => 1 # 2) 5000 800 0%nat)).
Proof.
  assert (H : forall k : nat, (0 <= (fun _ : nat => 1 # 2) k < 1)%Q)
    by (intro k; split; [discriminate|reflexivity]).
  split; [exact H|].
  exact (scrollPattern_continuous (fun _ => 1 # 2) 5000 800 0%nat H).
Defined.

(* ================================================================== *)
(** ** A visit that succeeds *)

Lemma account_actions_keeps_lists l : forall st,
  errors (account_actions l st) = errors st
  /\ visitedUrls (account_actions l st) = visitedUrls st.
Proof.
  unfold account_actions. induction l as [|a l IH]; intro st; [split; reflexivity|].
  cbn [fold_left]. destruct (IH (account_action st a)) as [H1 H2].
  rewrite H1, H2. unfold account_action.
  destruct (_ && _)%bool; destruct (_ && _)%bool; split; reflexivity.
Qed.

Section VisitSuccess.

Variable env : Env.
Variable Config : ConfigManager.
Variable toLowerCase : string -> string.
Hypothesis Config_loaded : _loaded Config = true.

Lemma visitSite_success_run url current total w b a status stay :
  browser (w_session w) = Some b -> page_attached b = true ->
  actions (w_session w) = Some a ->
  page_goto env url (S (w_tick w)) = Ok status ->
  actions_hasCaptcha env (3 + w_tick w) = false ->
  actions_stayOnPage env (getContentType toLowerCase (w_sites w) url) (5 + w_tick w)
  = Ok stay ->
  navigatedAway stay = false ->
  exists fx0,
    _visitSite env Config toLowerCase url current total w
    = (Returned tt,
       Emit (E_siteStart url current total) :: fx0
       ++ [Emit (E_siteComplete url
                   (Date_now env (6 + w_tick w) - Date_now env (w_tick w))
                   (actions_getPageInfo env (4 + w_tick w)) current total)],
       advance_tick (7 + w_tick w)
         (on_session
            (with_stats (fun st =>
               incr_sitesSuccessful
                 (account_actions (stay_actions stay)
                    (push_visitedUrl url (incr_pagesViewed (incr_sitesVisited st))))))
            w))
    /\ filter is_PageGoto fx0 = [PageGoto url (Ok status)]
    /\ (400 <= status -> In (BrowserEmit (B_httpError url status)) fx0)
    /\ Forall quiet_effect fx0.
Proof.
  intros Hb Hpa Ha Hgo Hcap Hstay Hnav.
  cbn [Nat.add] in Hcap, Hstay.
  unfold _visitSite, visit_body, visit_failed, BrowserController_goto,
    dismissPopups_call, hasCaptcha_call, getPageInfo_call,
    stayOnPage_call, Sites_getContentType, Date_now_call, Config_get_call,
    Config_get, page_goto_call, the_browser, the_actions.
  rewrite Config_loaded.
  cbn [goto_maxRetries goto_attempts].
  unfold browser_emit, Date_now_call, page_goto_call.
  unfold try_catch, bind, external, effect, emit, effect, of_result, ret, throw,
    update_stats, update, get_session, page_goto_result.
  cbn [w_tick w_session w_sites on_session advance_tick browser actions with_stats
       Nat.add].
  repeat (first [rewrite Hb | rewrite Hpa | rewrite Hgo];
          cbn [w_tick w_session w_sites on_session advance_tick browser actions
               with_stats app stats]).
  destruct (status >=? 400) eqn:E4;
    cbn [w_tick w_session w_sites on_session advance_tick browser actions with_stats
         app stats];
    repeat (first [rewrite Ha | rewrite Hcap | rewrite Hstay | rewrite Hnav];
            cbn [w_tick w_session w_sites on_session advance_tick browser actions
                 with_stats app stats]).
  - exists [PageGoto url (Ok status); BrowserEmit (B_httpError url status);
            BrowserEmit (B_navigated url status 1); Emit (E_pageVisited url status);
            DismissPopups; HasCaptcha false; GetPageInfo;
            StayOnPage (getContentType toLowerCase (w_sites w) url)].
    split; [reflexivity|]. split; [reflexivity|]. split; [cbn; auto|].
    repeat (apply Forall_cons; [split; [reflexivity|discriminate]|]). apply Forall_nil.
  - exists [PageGoto url (Ok status);
            BrowserEmit (B_navigated url status 1); Emit (E_pageVisited url status);
            DismissPopups; HasCaptcha false; GetPageInfo;
            StayOnPage (getContentType toLowerCase (w_sites w) url)].
    split; [reflexivity|]. split; [reflexivity|].
    split; [intro H; rewrite Z.geb_leb in E4; apply Z.leb_gt in E4; lia|].
    repeat (apply Forall_cons; [split; [reflexivity|discriminate]|]). apply Forall_nil.
Qed.

End VisitSuccess.

(** X29. A visit succeeds whenever the page answers, whatever the status:
    with the configuration loaded, a browser with its page, no CAPTCHA on
    the page and a stay that ends on the same page, [_visitSite] makes one
    navigation attempt, counts the site as visited and successful and the
    page as viewed, records the URL, accounts the scrolls and clicks of the
    stay, records no error and ends by emitting [siteComplete] with the
    duration of the visit.  A response with a status of 400 or more is
    reported by [httpError] and is a success all the same. *)
Theorem visitSite_succeeds_on_any_response (env : Env) (Config : ConfigManager)
  (toLowerCase : string -> string) (url : string) (current total : Z) (w : World)
  (b : BrowserController) (a : PageActions) (status : Z) (stay : StayResult) :
  _loaded Config = true ->
  browser (w_session w) = Some b -> page_attached b = true ->
  actions (w_session w) = Some a ->
  page_goto env url (S (w_tick w)) = Ok status ->
  actions_hasCaptcha env (3 + w_tick w) = false ->
  actions_stayOnPage env (getContentType toLowerCase (w_sites w) url) (5 + w_tick w)
  = Ok stay ->
  navigatedAway stay = false ->
  exists fx0 w',
    _visitSite env Config toLowerCase url current total w
    = (Returned tt,
       Emit (E_siteStart url current total) :: fx0
       ++ [Emit (E_siteComplete url
                   (Date_now env (6 + w_tick w) - Date_now env (w_tick w))
                   (actions_getPageInfo env (4 + w_tick w)) current total)],
       w')
    /\ filter is_PageGoto fx0 = [PageGoto url (Ok status)]
    /\ (400 <= status -> In (BrowserEmit (B_httpError url status)) fx0)
    /\ filter is_closer fx0 = []
    /\ stats (w_session w')
       = incr_sitesSuccessful
           (account_actions (stay_actions stay)
              (push_visitedUrl url
                 (incr_pagesViewed (incr_sitesVisited (stats (w_session w))))))
    /\ sitesVisited (stats (w_session w')) = sitesVisited (stats (w_session w)) + 1
    /\ sitesSuccessful (stats (w_session w'))
       = sitesSuccessful (stats (w_session w)) + 1
    /\ sitesFailed (stats (w_session w')) = sitesFailed (stats (w_session w))
    /\ errors (stats (w_session w')) = errors (stats (w_session w))
    /\ visitedUrls (stats (w_session w')) = visitedUrls (stats (w_session w)) ++ [url].
Proof.
  intros Hl Hb Hpa Ha Hgo Hcap Hstay Hnav.
  destruct (visitSite_success_run env Config toLowerCase Hl url current total w b a
              status stay Hb Hpa Ha Hgo Hcap Hstay Hnav)
    as (fx0 & E & Hin & Hh & Hq).
  eexists fx0, _. split; [exact E|].
  pose proof (neutral_account_actions (stay_actions stay)) as Hn.
  split; [exact Hin|]. split; [exact Hh|]. split.
  - apply quiet_filter_closer; [auto|exact Hq].
  - cbn [w_session on_session advance_tick stats with_stats].
    split; [reflexivity|].
    destruct (Hn (push_visitedUrl url
                    (incr_pagesViewed (incr_sitesVisited (stats (w_session w))))))
      as (_ & H1 & H2 & H3).
    destruct (account_actions_keeps_lists (stay_actions stay)
                (push_visitedUrl url
                   (incr_pagesViewed (incr_sitesVisited (stats (w_session w))))))
      as (H4 & H5).
    cbn [incr_sitesSuccessful sitesVisited sitesSuccessful sitesFailed errors visitedUrls].
    rewrite H1, H2, H3, H4, H5. cbn.
    repeat split; reflexivity.
Qed.

Lemma visitSite_succeeds_on_any_response_witness :
  _loaded (default_config false) = true
  /\ page_goto (sample_env (fun _ => false) false) "https://a.example"
               (S (w_tick initialized_world)) = Ok 200
  /\ exists fx0 w' d,
       _visitSite (sample_env (fun _ => false) false) (default_config false)
                  ascii_toLowerCase "https://a.example" 1 3 initialized_world
       = (Returned tt,
          Emit (E_siteStart "https://a.example" 1 3) :: fx0
          ++ [Emit (E_siteComplete "https://a.example" d None 1 3)], w')
       /\ sitesSuccessful (stats (w_session w')) = 1
       /\ errors (stats (w_session w')) = [].
Proof.
  assert (H1 : _loaded (default_config false) = true) by reflexivity.
  assert (H2 : browser (w_session initialized_world) = Some {| page_attached := true |})
    by reflexivity.
  assert (H3 : page_attached {| page_attached := true |} = true) by reflexivity.
  assert (H4 : actions (w_session initialized_world)
               = Some (PageActionsOf {| page_attached := true |})) by reflexivity.
  assert (H5 : page_goto (sample_env (fun _ => false) false) "https://a.example"
                 (S (w_tick initialized_world)) = Ok 200) by reflexivity.
  assert (H6 : actions_hasCaptcha (sample_env (fun _ => false) false)
                 (3 + w_tick initialized_world) = false) by reflexivity.
  assert (H7 : actions_stayOnPage (sample_env (fun _ => false) false)
                 (getContentType ascii_toLowerCase (w_sites initialized_world)
                    "https://a.example")
                 (5 + w_tick initialized_world) = Ok sample_stay) by reflexivity.
  assert (H8 : navigatedAway sample_stay = false) by reflexivity.
  split; [exact H1|]. split; [exact H5|].
  destruct (visitSite_succeeds_on_any_response (sample_env (fun _ => false) false)
              (default_config false) ascii_toLowerCase "https://a.example" 1 3
              initialized_world _ _ 200 sample_stay H1 H2 H3 H4 H5 H6 H7 H8)
    as (fx0 & w' & E & _ & _ & _ & _ & _ & Hs & _ & He & _).
  exists fx0, w'. eexists. split; [exact E|]. split; [exact Hs|exact He].
Defined.

(* ================================================================== *)
(** ** The pages of a visit *)

Section PagesRules.
Context {A B : Type}.

Lemma pages_weaken n m (c : Run A) : n <= m -> pages_within n c -> pages_within m c.
Proof.
  intros Hle H w. specialize (H w). destruct (c w) as [[o fx] w']. lia.
Qed.

Lemma pages_ret (a : A) : pages_within 0 (ret a).
Proof. intro w. cbn. lia. Qed.

Lemma pages_throw e : pages_within 0 (@throw A e).
Proof. intro w. cbn. lia. Qed.

Lemma pages_of_result (r : result A) : pages_within 0 (of_result r).
Proof. destruct r; [apply pages_ret|apply pages_throw]. Qed.

Lemma pages_external (f : nat -> A) : pages_within 0 (external f).
Proof. intro w. cbn. lia. Qed.

Lemma pages_random (c : Rand A) : pages_within 0 (random c).
Proof. intro w. unfold random. destruct (c (w_tick w)). cbn. lia. Qed.

Lemma pages_bind n m (c : Run A) (k : A -> Run B) :
  0 <= n -> 0 <= m ->
  pages_within n c -> (forall a, pages_within m (k a)) -> pages_within (n + m) (bind c k).
Proof.
  intros Hn Hm Hc Hk w. unfold bind. specialize (Hc w).
  destruct (c w) as [[o fx] w1]. destruct o as [a|e|]; try lia.
  specialize (Hk a w1). destruct (k a w1) as [[o2 fx2] w2]. lia.
Qed.

Lemma pages_try_catch n m (c : Run A) (h : string -> Run A) :
  0 <= n -> 0 <= m ->
  pages_within n c -> (forall e, pages_within m (h e)) ->
  pages_within (n + m) (try_catch c h).
Proof.
  intros Hn Hm Hc Hh w. unfold try_catch. specialize (Hc w).
  destruct (c w) as [[o fx] w1]. destruct o as [a|e|]; try lia.
  specialize (Hh e w1). destruct (h e w1) as [[o2 fx2] w2]. lia.
Qed.

End PagesRules.

Lemma pages_bind0 {A B} m (c : Run A) (k : A -> Run B) :
  0 <= m ->
  pages_within 0 c -> (forall a, pages_within m (k a)) -> pages_within m (bind c k).
Proof.
  intros Hm Hc Hk. replace m with (0 + m) by lia. apply pages_bind; (lia || assumption).
Qed.

Lemma pages_effect e : pages_within 0 (effect e).
Proof. intro w. cbn. lia. Qed.

Lemma pages_get_session : pages_within 0 get_session.
Proof. intro w. cbn. lia. Qed.

Lemma pages_update_stats_same f :
  (forall st, pagesViewed (f st) = pagesViewed st) -> pages_within 0 (update_stats f).
Proof. intros H w. cbn. rewrite H. lia. Qed.

Lemma pages_incr : pages_within 1 (update_stats incr_pagesViewed).
Proof. intro w. cbn. lia. Qed.

Lemma pagesViewed_account_actions l : forall st,
  pagesViewed (account_actions l st) = pagesViewed st.
Proof.
  unfold account_actions. induction l as [|a l IH]; intro st; [reflexivity|].
  cbn [fold_left]. rewrite IH. unfold account_action.
  destruct (_ && _)%bool; destruct (_ && _)%bool; reflexivity.
Qed.

Ltac pages0_step :=
  lazymatch goal with
  | |- pages_within 0 (bind _ _) => apply pages_bind0; [lia| |intro]
  | |- pages_within 0 (ret _) => apply pages_ret
  | |- pages_within 0 (throw _) => apply pages_throw
  | |- pages_within 0 (of_result _) => apply pages_of_result
  | |- pages_within 0 (external _) => apply pages_external
  | |- pages_within 0 (random _) => apply pages_random
  | |- pages_within 0 get_session => apply pages_get_session
  | |- pages_within 0 (effect _) => apply pages_effect
  | |- pages_within 0 (emit _) => apply pages_effect
  | |- pages_within 0 (update_stats _) =>
      apply pages_update_stats_same; intro; first [reflexivity|apply pagesViewed_account_actions]
  | |- pages_within 0 (if ?b then _ else _) => destruct b
  | |- pages_within 0 (match ?x with _ => _ end) => destruct x
  | |- pages_within 0 _ => assumption
  end.

Ltac pages0 := repeat pages0_step.

Section PagesFacts.

Variable env : Env.
Variable Config : ConfigManager.
Variable toLowerCase : string -> string.

Lemma pages_Date_now_call : pages_within 0 (Date_now_call env).
Proof. unfold Date_now_call. pages0. Qed.

Lemma pages_Config_get_call : pages_within 0 (Config_get_call Config).
Proof. unfold Config_get_call. pages0. Qed.

Lemma pages_sleep ms : pages_within 0 (sleep ms).
Proof. unfold sleep. pages0. Qed.

Lemma pages_browser_emit e : pages_within 0 (browser_emit env e).
Proof.
  pose proof pages_Date_now_call.
  unfold browser_emit. destruct e; pages0.
Qed.

Lemma pages_goto_attempts n : forall b url maxRetries attempt lastError,
  pages_within 0 (goto_attempts env n b url maxRetries attempt lastError).
Proof.
  pose proof pages_browser_emit. pose proof pages_sleep.
  induction n as [|n IH]; intros b url maxRetries attempt lastError;
    cbn [goto_attempts].
  - pages0; auto.
  - change 0 with (0 + 0). apply pages_try_catch; [lia|lia| |intro e].
    + unfold page_goto_call. pages0; auto.
    + pages0; auto.
Qed.

Lemma pages_BrowserController_goto b url retries :
  pages_within 0 (BrowserController_goto env Config b url retries).
Proof.
  pose proof pages_Config_get_call. pose proof pages_goto_attempts.
  unfold BrowserController_goto. pages0; auto.
Qed.

Lemma pages_the_browser m : pages_within 0 (the_browser m).
Proof. unfold the_browser. pages0. Qed.

Lemma pages_the_actions m : pages_within 0 (the_actions m).
Proof. unfold the_actions. pages0. Qed.

Lemma pages_stayOnPage_call ct : pages_within 0 (stayOnPage_call env ct).
Proof. pose proof pages_the_actions. unfold stayOnPage_call. pages0; auto. Qed.

Lemma pages_Sites_getContentType url :
  pages_within 0 (Sites_getContentType toLowerCase url).
Proof. intro w. cbn. lia. Qed.

(** One level of [_followLinks] views at most one page more than the
    levels below it. *)
Lemma pages_followLinks_step depth n next :
  0 <= n -> pages_within n next ->
  pages_within (1 + n) (followLinks_step env Config toLowerCase depth next).
Proof.
  intros Hn Hnext.
  pose proof pages_Config_get_call. pose proof pages_the_browser.
  pose proof pages_stayOnPage_call. pose proof pages_Sites_getContentType.
  unfold followLinks_step.
  apply pages_bind0; [lia|assumption|intro config].
  destruct (depth >=? maxDepth (behavior config));
    [apply (pages_weaken 0); [lia|apply pages_ret]|].
  destruct (negb (clickLinks (behavior config)));
    [apply (pages_weaken 0); [lia|apply pages_ret]|].
  apply pages_bind0; [lia|apply pages_random|intro shouldFollow].
  destruct (negb shouldFollow); [apply (pages_weaken 0); [lia|apply pages_ret]|].
  apply pages_bind0; [lia|auto|intro b].
  apply pages_bind0; [lia|destruct (page_attached b); pages0|intro url].
  apply pages_bind0; [lia|auto|intro ct].
  apply pages_bind0; [lia|auto|intro stay].
  apply pages_bind; [lia|lia|apply pages_incr|intros _].
  destruct (navigatedAway stay); [exact Hnext|].
  apply (pages_weaken 0); [lia|apply pages_ret].
Qed.

Lemma pages__followLinks_from fuel : forall depth,
  pages_within (1 + Z.of_nat fuel) (_followLinks_from env Config toLowerCase fuel depth).
Proof.
  induction fuel as [|fuel IH]; intro depth; cbn [_followLinks_from].
  - apply (pages_followLinks_step depth 0); [lia|apply pages_ret].
  - replace (1 + Z.of_nat (S fuel)) with (1 + (1 + Z.of_nat fuel)) by lia.
    apply pages_followLinks_step; [lia|apply IH].
Qed.

Hypothesis Config_loaded : _loaded Config = true.

Lemma pages_bind_Config {B} n (k : Configuration -> Run B) :
  pages_within n (k (_config Config)) ->
  pages_within n (bind (Config_get_call Config) k).
Proof.
  intros H w. rewrite (bind_Config_get_call Config Config_loaded). apply H.
Qed.

Lemma pages_followLinks_step_tight depth n next :
  0 <= n -> pages_within n next ->
  pages_within (if depth >=? maxDepth (behavior (_config Config)) then 0 else 1 + n)
               (followLinks_step env Config toLowerCase depth next).
Proof.
  intros Hn Hnext.
  pose proof pages_the_browser. pose proof pages_stayOnPage_call.
  pose proof pages_Sites_getContentType.
  unfold followLinks_step. apply pages_bind_Config.
  destruct (depth >=? maxDepth (behavior (_config Config))); [apply pages_ret|].
  destruct (negb (clickLinks (behavior (_config Config))));
    [apply (pages_weaken 0); [lia|apply pages_ret]|].
  apply pages_bind0; [lia|apply pages_random|intro shouldFollow].
  destruct (negb shouldFollow); [apply (pages_weaken 0); [lia|apply pages_ret]|].
  apply pages_bind0; [lia|auto|intro b].
  apply pages_bind0; [lia|destruct (page_attached b); pages0|intro url].
  apply pages_bind0; [lia|auto|intro ct].
  apply pages_bind0; [lia|auto|intro stay].
  apply pages_bind; [lia|lia|apply pages_incr|intros _].
  destruct (navigatedAway stay); [exact Hnext|].
  apply (pages_weaken 0); [lia|apply pages_ret].
Qed.

Lemma pages__followLinks_from_tight fuel : forall depth,
  pages_within (Z.max 0 (maxDepth (behavior (_config Config)) - depth))
               (_followLinks_from env Config toLowerCase fuel depth).
Proof.
  induction fuel as [|fuel IH]; intro depth; cbn [_followLinks_from].
  - pose proof (pages_followLinks_step_tight depth 0 (ret tt) ltac:(lia) (pages_ret tt))
      as H.
    eapply pages_weaken; [|exact H].
    destruct (depth >=? maxDepth (behavior (_config Config))) eqn:E; [lia|].
    rewrite Z.geb_leb in E. apply Z.leb_gt in E. lia.
  - pose proof (pages_followLinks_step_tight depth _ _
                  ltac:(apply Z.le_max_l) (IH (depth + 1))) as H.
    eapply pages_weaken; [|exact H].
    destruct (depth >=? maxDepth (behavior (_config Config))) eqn:E; [lia|].
    rewrite Z.geb_leb in E. apply Z.leb_gt in E. lia.
Qed.

Lemma pages__followLinks depth :
  pages_within (Z.max 0 (maxDepth (behavior (_config Config)) - depth))
               (_followLinks env Config toLowerCase depth).
Proof.
  unfold _followLinks. apply pages_bind_Config. apply pages__followLinks_from_tight.
Qed.

Lemma pages_visit_body url current total t0 :
  pages_within (2 + Z.max 0 (maxDepth (behavior (_config Config)) - 1))
               (visit_body env Config toLowerCase url current total t0).
Proof.
  pose proof pages_the_browser. pose proof pages_the_actions.
  pose proof pages_BrowserController_goto. pose proof pages_stayOnPage_call.
  pose proof pages_Sites_getContentType. pose proof pages_Date_now_call.
  set (d := Z.max 0 (maxDepth (behavior (_config Config)) - 1)).
  assert (Hd : 0 <= d) by apply Z.le_max_l.
  unfold visit_body.
  apply pages_bind0; [lia|auto|intro b].
  apply pages_bind0; [lia|auto|intros _].
  replace (2 + d) with (1 + (1 + d)) by lia.
  apply pages_bind; [lia|lia|apply pages_incr|intros _].
  apply pages_bind0; [lia|pages0|intros _].
  apply pages_bind0; [lia|unfold dismissPopups_call; pages0; auto|intros _].
  apply pages_bind0; [lia|unfold hasCaptcha_call; pages0; auto|intro captcha].
  destruct captcha; [apply (pages_weaken 0); [lia|pages0]|].
  apply pages_bind0; [lia|unfold getPageInfo_call; pages0; auto|intro info].
  apply pages_bind0; [lia|auto|intro ct].
  apply pages_bind0; [lia|auto|intro stay].
  apply pages_bind0; [lia|pages0|intros _].
  replace (1 + d) with ((1 + d) + 0) by lia.
  apply pages_bind; [lia|lia| |intros _; pages0; auto].
  destruct (navigatedAway stay); [|apply (pages_weaken 0); [lia|apply pages_ret]].
  apply pages_bind; [lia|lia|apply pages_incr|intros _]. apply pages__followLinks.
Qed.

Lemma pages__visitSite url current total :
  pages_within (2 + Z.max 0 (maxDepth (behavior (_config Config)) - 1))
               (_visitSite env Config toLowerCase url current total).
Proof.
  pose proof pages_Date_now_call.
  pose proof (Z.le_max_l 0 (maxDepth (behavior (_config Config)) - 1)).
  unfold _visitSite.
  apply pages_bind0; [lia|auto|intro t0].
  apply pages_bind0; [lia|pages0|intros _].
  apply pages_bind0; [lia|pages0|intros _].
  replace (2 + Z.max 0 (maxDepth (behavior (_config Config)) - 1))
    with (2 + Z.max 0 (maxDepth (behavior (_config Config)) - 1) + 0) by lia.
  apply pages_try_catch; [lia|lia|apply pages_visit_body|intro e].
  unfold visit_failed. pages0; auto.
Qed.

End PagesFacts.

(** X30. [maxDepth] bounds the pages of a visit: with the configuration
    loaded, one call of [_visitSite] never lowers [pagesViewed] and adds at
    most [2 + max(0, maxDepth - 1)] to it, however the visit ends: one for
    the site, one when the stay on it has navigated away, and one for each
    level of [_followLinks], which starts at depth 1 and stops at
    [maxDepth].  [_followLinks(depth)] alone adds at most
    [max(0, maxDepth - depth)], so nothing from [maxDepth] on. *)
Theorem visitSite_pages_bounded (env : Env) (Config : ConfigManager)
  (toLowerCase : string -> string) (url : string) (current total : Z) (w : World) :
  _loaded Config = true ->
  (forall o fx w',
      _visitSite env Config toLowerCase url current total w = (o, fx, w') ->
      pagesViewed (stats (w_session w)) <= pagesViewed (stats (w_session w'))
      <= pagesViewed (stats (w_session w)) + 2
         + Z.max 0 (maxDepth (behavior (_config Config)) - 1))
  /\ (forall depth o fx w',
        _followLinks env Config toLowerCase depth w = (o, fx, w') ->
        pagesViewed (stats (w_session w)) <= pagesViewed (stats (w_session w'))
        <= pagesViewed (stats (w_session w))
           + Z.max 0 (maxDepth (behavior (_config Config)) - depth)).
Proof.
  intro Hl. split.
  - intros o fx w' E.
    pose proof (pages__visitSite env Config toLowerCase Hl url current total w) as H.
    rewrite E in H. lia.
  - intros depth o fx w' E.
    pose proof (pages__followLinks env Config toLowerCase Hl depth w) as H.
    rewrite E in H. exact H.
Qed.

Lemma visitSite_pages_bounded_witness :
  _loaded (default_config false) = true
  /\ pagesViewed (stats (w_session (snd
        (_visitSite (sample_env (fun _ => false) false) (default_config false)
                    ascii_toLowerCase "https://a.example" 1 3 initialized_world))))
     <= 3.
Proof.
  assert (H : _loaded (default_config false) = true) by reflexivity.
  split; [exact H|].
  destruct (visitSite_pages_bounded (sample_env (fun _ => false) false)
              (default_config false) ascii_toLowerCase "https://a.example" 1 3
              initialized_world H) as [Hv _].
  destruct (_visitSite (sample_env (fun _ => false) false) (default_config false)
              ascii_toLowerCase "https://a.example" 1 3 initialized_world)
    as [[o fx] w'] eqn:E.
  specialize (Hv o fx w' eq_refl). cbn [snd].
  change (pagesViewed (stats (w_session initialized_world))) with 0 in Hv.
  change (maxDepth (behavior (_config (default_config false)))) with 2 in Hv.
  lia.
Defined.
